(** * git-week: week boundaries and stargazer aggregation

    A shallow embedding of [src/lib/dateUtils.js] (getMonday, getNextMonday,
    formatDate), of [src/stars.js] (generateCumulativeData, fetchAllStargazers,
    main), of the earlier revision of [stars.js] that also carries
    generateChartsMarkdown, and of [src/lib/github.js] (runGraphQL), together
    with the part of the ECMAScript [Date] object these functions rely on. *)

From Stdlib Require Import ZArith Lia List Bool Ascii String.
From Stdlib Require Import Sorting.Sorted Sorting.Permutation.
From Stdlib Require Import Numbers.DecimalString.
From stdpp Require Import gmap.
Import ListNotations.

Local Open Scope Z_scope.

(* ===================================================================== *)
(** * ECMAScript time values (ECMA-262, Date objects)                      *)
(* ===================================================================== *)

(** A JavaScript number as far as this program uses them: an integer or
    NaN.  A Date object's time value is such a number (milliseconds since
    1970-01-01T00:00:00Z), NaN for an Invalid Date. *)
Inductive jsnum : Type :=
| NaN : jsnum
| Num : Z -> jsnum.

Definition jsnum_eq_dec (a b : jsnum) : {a = b} + {a <> b}.
Proof. decide equality. apply Z.eq_dec. Defined.

Inductive exn : Type :=
| RangeError (message : string)   (** thrown by toISOString on an Invalid Date *)
| Error (message : string).       (** [throw new Error(message)], and the
                                      errors of the file system *)

Definition exn_message (e : exn) : string :=
  match e with RangeError m => m | Error m => m end.

(** ** The host

    What the program gets from outside and this development does not
    compute.  [parseOther] is what the engine's [Date.parse] makes of a
    string that is not read here (see [JSDate.isoParse]): a date-time
    without time zone, which is local time, and every string outside the
    Date Time String Format, for which an engine falls back to heuristics
    of its own (V8 reads 2025-02-30 as the 2nd of March; other engines
    call it an Invalid Date).  [mkdirSync] and [writeFileSync] tell, for a
    moment of the run and a path, the exception that the call of node:fs
    throws then and there, [None] when it succeeds; the moment is given
    by the number of times [gh] has been spawned so far.  [dirname] is
    that of node:path. *)
Class Host : Type := {
  parseOther : string -> jsnum;
  mkdirSync : nat -> string -> option exn;
  writeFileSync : nat -> string -> option exn;
  dirname : string -> string
}.

Module Time.

Definition msPerDay : Z := 86400000.
Definition msPerHour : Z := 3600000.
Definition msPerMinute : Z := 60000.
Definition msPerSecond : Z := 1000.

(** The largest magnitude of a time value: 8.64e15 ms, 100,000,000 days. *)
Definition maxTime : Z := 8640000000000000.

Definition Day (t : Z) : Z := t / msPerDay.
Definition TimeWithinDay (t : Z) : Z := t mod msPerDay.

Definition isLeapYear (y : Z) : bool :=
  if negb (y mod 4 =? 0) then false
  else if negb (y mod 100 =? 0) then true
  else if negb (y mod 400 =? 0) then false
  else true.

Definition DaysInYear (y : Z) : Z := if isLeapYear y then 366 else 365.

Definition DayFromYear (y : Z) : Z :=
  365 * (y - 1970) + (y - 1969) / 4 - (y - 1901) / 100 + (y - 1601) / 400.

(** YearFromTime is "the largest integer y such that TimeFromYear(y) <= t".
    It is computed from an estimate that is off by at most one year. *)
Definition YearFromDay (d : Z) : Z :=
  let y := 1970 + (400 * d) / 146097 in
  if DayFromYear (y + 1) <=? d then y + 1
  else if DayFromYear y <=? d then y
  else y - 1.

Definition YearFromTime (t : Z) : Z := YearFromDay (Day t).

Definition InLeapYear (t : Z) : Z :=
  if isLeapYear (YearFromTime t) then 1 else 0.

Definition DayWithinYear (t : Z) : Z := Day t - DayFromYear (YearFromTime t).

(** First day (within the year) of month [m] (0 = January), given the leap
    day count [lp] of the year. *)
Definition monthStart (m lp : Z) : Z :=
  match m with
  | 0 => 0
  | 1 => 31
  | 2 => 59 + lp
  | 3 => 90 + lp
  | 4 => 120 + lp
  | 5 => 151 + lp
  | 6 => 181 + lp
  | 7 => 212 + lp
  | 8 => 243 + lp
  | 9 => 273 + lp
  | 10 => 304 + lp
  | _ => 334 + lp
  end.

Definition monthOfDayWithinYear (dwy lp : Z) : Z :=
  if dwy <? 31 then 0
  else if dwy <? 59 + lp then 1
  else if dwy <? 90 + lp then 2
  else if dwy <? 120 + lp then 3
  else if dwy <? 151 + lp then 4
  else if dwy <? 181 + lp then 5
  else if dwy <? 212 + lp then 6
  else if dwy <? 243 + lp then 7
  else if dwy <? 273 + lp then 8
  else if dwy <? 304 + lp then 9
  else if dwy <? 334 + lp then 10
  else 11.

Definition MonthFromTime (t : Z) : Z :=
  monthOfDayWithinYear (DayWithinYear t) (InLeapYear t).

Definition DateFromTime (t : Z) : Z :=
  DayWithinYear t - monthStart (MonthFromTime t) (InLeapYear t) + 1.

(** 0 = Sunday, 1 = Monday, ..., 6 = Saturday. *)
Definition WeekDay (t : Z) : Z := (Day t + 4) mod 7.

Definition HourFromTime (t : Z) : Z := (t / msPerHour) mod 24.
Definition MinFromTime (t : Z) : Z := (t / msPerMinute) mod 60.
Definition SecFromTime (t : Z) : Z := (t / msPerSecond) mod 60.
Definition msFromTime (t : Z) : Z := t mod msPerSecond.

Definition MakeTime (h m s ms : Z) : Z :=
  h * msPerHour + m * msPerMinute + s * msPerSecond + ms.

(** MakeDay(year, month, date): the day number of the first of the month
    [year + month / 12], [month mod 12], plus [date - 1]. *)
Definition MakeDay (year month date : Z) : Z :=
  let ym := year + month / 12 in
  let mn := month mod 12 in
  DayFromYear ym + monthStart mn (if isLeapYear ym then 1 else 0) + date - 1.

Definition MakeDate (day time : Z) : Z := day * msPerDay + time.

Definition TimeClip (t : Z) : jsnum :=
  if Z.abs t <=? maxTime then Num t else NaN.

End Time.

(* ===================================================================== *)
(** * Strings                                                             *)
(* ===================================================================== *)

Module Str.

(** [String.prototype.split] with a one-character separator: the pieces
    between the separators, in order; never empty. *)
Fixpoint split (sep : ascii) (s : string) : list string :=
  match s with
  | EmptyString => [EmptyString]
  | String c r =>
      if Ascii.eqb c sep then EmptyString :: split sep r
      else match split sep r with
           | h :: t => String c h :: t
           | [] => [String c EmptyString]
           end
  end.

(** [a[0]] for an array of strings; [split] never returns the empty
    array, so the default is never used. *)
Definition first (a : list string) : string := hd EmptyString a.

Definition isDigit (c : ascii) : bool :=
  let n := nat_of_ascii c in (48 <=? n)%nat && (n <=? 57)%nat.

Definition digitVal (c : ascii) : Z := Z.of_nat (nat_of_ascii c) - 48.

Definition digitChar (d : Z) : ascii := ascii_of_nat (48 + Z.to_nat d).

(** [digits k n]: the [k] low decimal digits of [n], most significant
    first, zero padded. *)
Fixpoint digits (k : nat) (n : Z) : string :=
  match k with
  | O => EmptyString
  | S k' => String (digitChar ((n / 10 ^ Z.of_nat k') mod 10)) (digits k' n)
  end.

(** Read exactly [k] decimal digits. *)
Fixpoint readDigits (k : nat) (acc : Z) (s : string) : option (Z * string) :=
  match k with
  | O => Some (acc, s)
  | S k' =>
      match s with
      | String c r =>
          if isDigit c then readDigits k' (acc * 10 + digitVal c) r else None
      | EmptyString => None
      end
  end.

(** Read one given character. *)
Definition readChar (c : ascii) (s : string) : option string :=
  match s with
  | String c' r => if Ascii.eqb c' c then Some r else None
  | EmptyString => None
  end.

End Str.

(* ===================================================================== *)
(** * The Date object                                                     *)
(* ===================================================================== *)

Module JSDate.
Import Time Str.

Definition DaysInMonth (y m : Z) : Z :=
  let lp := if isLeapYear y then 1 else 0 in
  match m with
  | 1 => 31 | 2 => 28 + lp | 3 => 31 | 4 => 30 | 5 => 31 | 6 => 30
  | 7 => 31 | 8 => 31 | 9 => 30 | 10 => 31 | 11 => 30 | _ => 31
  end.

(** The year of the Date Time String Format: four digits for years 0 to
    9999, otherwise a sign and six digits. *)
Definition yearString (y : Z) : string :=
  if (0 <=? y) && (y <=? 9999) then digits 4 y
  else String (if 0 <=? y then "+"%char else "-"%char) (digits 6 (Z.abs y)).

Definition dateString (t : Z) : string :=
  (yearString (YearFromTime t) ++ "-" ++ digits 2 (MonthFromTime t + 1)
    ++ "-" ++ digits 2 (DateFromTime t))%string.

Definition timeString (t : Z) : string :=
  (digits 2 (HourFromTime t) ++ ":" ++ digits 2 (MinFromTime t) ++ ":"
    ++ digits 2 (SecFromTime t) ++ "." ++ digits 3 (msFromTime t) ++ "Z")%string.

(** [Date.prototype.toISOString]: [None] stands for the RangeError thrown
    on an Invalid Date. *)
Definition toISOString (tv : jsnum) : option string :=
  match tv with
  | NaN => None
  | Num t => Some (dateString t ++ "T" ++ timeString t)%string
  end.

(** ** Parsing the Date Time String Format

    [YYYY], [YYYY-MM] or [YYYY-MM-DD] (the year possibly [+YYYYYY] or
    [-YYYYYY]), optionally followed by [THH:mm], [THH:mm:ss] or
    [THH:mm:ss.sss] and then by [Z] or an offset [+HH:mm] / [-HH:mm].
    A date-only form is UTC.  A date-time form without [Z] or offset is
    local time, which depends on the host; this and every string outside
    the format, for which engines fall back to heuristics of their own,
    is left to the host ([parseOther]). *)

Definition readYear (s : string) : option (Z * string) :=
  match readChar "+"%char s with
  | Some r => readDigits 6 0 r
  | None =>
      match readChar "-"%char s with
      | Some r =>
          match readDigits 6 0 r with
          | Some (y, r') => if y =? 0 then None else Some (- y, r')
          | None => None
          end
      | None => readDigits 4 0 s
      end
  end.

(** The optional [-MM] and, after it, the optional [-DD]; an absent field
    counts as 1. *)
Definition readMonthDay (s : string) : option (Z * Z * string) :=
  match readChar "-"%char s with
  | Some r =>
      match readDigits 2 0 r with
      | Some (m, r1) =>
          match readChar "-"%char r1 with
          | Some r1' =>
              match readDigits 2 0 r1' with
              | Some (d, r2) => Some (m, d, r2)
              | None => None
              end
          | None => Some (m, 1, r1)
          end
      | None => None
      end
  | None => Some (1, 1, s)
  end.

(** The time zone designator, in minutes east of UTC. *)
Definition readOffset (s : string) : option Z :=
  match s with
  | String "Z"%char EmptyString => Some 0
  | String sg r =>
      if Ascii.eqb sg "+"%char || Ascii.eqb sg "-"%char then
        match readDigits 2 0 r with
        | Some (h, r1) =>
            match readChar ":"%char r1 with
            | Some r2 =>
                match readDigits 2 0 r2 with
                | Some (m, EmptyString) =>
                    if (h <=? 23) && (m <=? 59) then
                      Some ((if Ascii.eqb sg "+"%char then 1 else -1)
                            * (h * 60 + m))
                    else None
                | _ => None
                end
            | None => None
            end
        | None => None
        end
      else None
  | EmptyString => None
  end.

(** An optional [:ss] and an optional [.sss] after [HH:mm]. *)
Definition readSeconds (s : string) : option (Z * Z * string) :=
  match s with
  | String ":"%char r =>
      match readDigits 2 0 r with
      | Some (sec, String "."%char r1) =>
          match readDigits 3 0 r1 with
          | Some (ms, r2) => Some (sec, ms, r2)
          | None => None
          end
      | Some (sec, r1) => Some (sec, 0, r1)
      | None => None
      end
  | _ => Some (0, 0, s)
  end.

(** The time of day in milliseconds and the offset in minutes. *)
Definition readTime (s : string) : option (Z * Z) :=
  match readDigits 2 0 s with
  | Some (h, r) =>
      match readChar ":"%char r with
      | Some r1 =>
          match readDigits 2 0 r1 with
          | Some (mi, r2) =>
              match readSeconds r2 with
              | Some (sec, ms, r3) =>
                  match readOffset r3 with
                  | Some off =>
                      if ((h <=? 23) && (mi <=? 59) && (sec <=? 59))
                         || ((h =? 24) && (mi =? 0) && (sec =? 0) && (ms =? 0))
                      then Some (MakeTime h mi sec ms, off)
                      else None
                  | None => None
                  end
              | None => None
              end
          | None => None
          end
      | None => None
      end
  | None => None
  end.

(** The strings of the format that are read without the host, and their
    time value; [None] for every other string. *)
Definition isoParse (s : string) : option jsnum :=
  match readYear s with
  | Some (y, r) =>
      match readMonthDay r with
      | Some (m, d, r2) =>
          if (1 <=? m) && (m <=? 12) && (1 <=? d) && (d <=? DaysInMonth y m)
          then
            match r2 with
            | EmptyString => Some (TimeClip (MakeDate (MakeDay y (m - 1) d) 0))
            | _ =>
                match readChar "T"%char r2 with
                | Some r3 =>
                    match readTime r3 with
                    | Some (tod, off) =>
                        Some (TimeClip (MakeDate (MakeDay y (m - 1) d) tod
                                        - off * msPerMinute))
                    | None => None
                    end
                | None => None
                end
            end
          else None
      | None => None
      end
  | None => None
  end.

(** A number as a time value: out of the time range it is NaN. *)
Definition clip (tv : jsnum) : jsnum :=
  match tv with
  | Num t => TimeClip t
  | NaN => NaN
  end.

Section WithHost.
Context {host : Host}.

(** [new Date(string)]: the time value that [Date.parse] gives, clipped
    to the time range. *)
Definition parse (s : string) : jsnum :=
  match isoParse s with
  | Some tv => tv
  | None => clip (parseOther s)
  end.

End WithHost.

(** ** Methods *)

(** [getTime] / [valueOf]. *)
Definition getTime (tv : jsnum) : jsnum := tv.

Definition getUTCDay (tv : jsnum) : jsnum :=
  match tv with NaN => NaN | Num t => Num (WeekDay t) end.

Definition getUTCDate (tv : jsnum) : jsnum :=
  match tv with NaN => NaN | Num t => Num (DateFromTime t) end.

(** [setUTCDate(dt)]: the new time value of the object. *)
Definition setUTCDate (tv : jsnum) (dt : jsnum) : jsnum :=
  match tv, dt with
  | Num t, Num d =>
      TimeClip (MakeDate (MakeDay (YearFromTime t) (MonthFromTime t) d)
                         (TimeWithinDay t))
  | _, _ => NaN
  end.

(** The relational operators on two Date objects compare their time
    values as numbers; a comparison with NaN is false. *)
Definition lt (a b : jsnum) : bool :=
  match a, b with Num x, Num y => x <? y | _, _ => false end.

Definition le (a b : jsnum) : bool :=
  match a, b with Num x, Num y => x <=? y | _, _ => false end.

(** Number subtraction and addition. *)
Definition sub (a b : jsnum) : jsnum :=
  match a, b with Num x, Num y => Num (x - y) | _, _ => NaN end.

Definition add (a b : jsnum) : jsnum :=
  match a, b with Num x, Num y => Num (x + y) | _, _ => NaN end.

End JSDate.

(* ===================================================================== *)
(** * Exceptions                                                          *)
(* ===================================================================== *)

Inductive Outcome (A : Type) : Type :=
| Returned (a : A)
| Threw (e : exn).
Arguments Returned {A} a.
Arguments Threw {A} e.

Definition bind {A B : Type} (m : Outcome A) (k : A -> Outcome B) : Outcome B :=
  match m with
  | Returned a => k a
  | Threw e => Threw e
  end.

Notation "'try!' x := m 'in' k" := (bind m (fun x => k))
  (at level 10, x name, m at level 100, k at level 200).

(* ===================================================================== *)
(** * src/lib/dateUtils.js                                                *)
(* ===================================================================== *)

(** What the callers pass for a date: a string or a Date object (given by
    its time value).  [None] is [undefined]. *)
Inductive DateInput : Type :=
| StrArg (s : string)
| DateArg (tv : jsnum).

Module DateUtils.
Import Time Str JSDate.

Definition invalidTime : exn := RangeError "Invalid time value".

Definition formatDate (date : DateInput) : Outcome string :=
  match date with
  | StrArg s => Returned (first (split "T"%char s))
  | DateArg tv =>
      match toISOString tv with
      | Some iso => Returned (first (split "T"%char iso))
      | None => Threw invalidTime
      end
  end.

(** [!dateStr] *)
Definition isFalsy (dateStr : option DateInput) : bool :=
  match dateStr with
  | None => true
  | Some (StrArg EmptyString) => true
  | Some _ => false
  end.

(** The template [`${dateStr}T00:00:00.000Z`]. *)
Definition midnightZ (dateStr : string) : string :=
  (dateStr ++ "T00:00:00.000Z")%string.

Section WithHost.
Context {host : Host}.

(** [now] is the time value of [new Date()]. *)
Definition getMonday (now : Z) (dateStr : option DateInput) : Outcome string :=
  try! inputDateStr :=
    match dateStr with
    | Some date => if isFalsy dateStr then formatDate (DateArg (Num now))
                   else formatDate date
    | None => formatDate (DateArg (Num now))
    end in
  let d := parse (midnightZ inputDateStr) in
  let dayOfWeek := getUTCDay d in
  let daysToSubtract :=
    if jsnum_eq_dec dayOfWeek (Num 0) then Num 6 else sub dayOfWeek (Num 1) in
  let monday := setUTCDate d (sub (getUTCDate d) daysToSubtract) in
  formatDate (DateArg monday).

Definition getNextMonday (mondayStr : string) : Outcome string :=
  let monday := parse (midnightZ mondayStr) in
  let nextMonday := setUTCDate monday (add (getUTCDate monday) (Num 7)) in
  formatDate (DateArg nextMonday).

End WithHost.

End DateUtils.

(* ===================================================================== *)
(** * Objects used as string-keyed maps                                   *)
(* ===================================================================== *)

(** An ordinary object whose keys are strings that are not array indices
    (here: dates such as "2025-09-08", repository names such as
    "owner/repo") enumerates its properties in insertion order, and an
    assignment to an existing property keeps the property's position. *)
Module Obj.

Definition t (V : Type) : Type := list (string * V).

Definition empty {V : Type} : t V := [].

Fixpoint get {V : Type} (k : string) (o : t V) : option V :=
  match o with
  | [] => None
  | (k', v) :: r => if String.eqb k' k then Some v else get k r
  end.

(** [o[k] = v] *)
Fixpoint set {V : Type} (k : string) (v : V) (o : t V) : t V :=
  match o with
  | [] => [(k, v)]
  | (k', v') :: r =>
      if String.eqb k' k then (k', v) :: r else (k', v') :: set k v r
  end.

Definition keys {V : Type} (o : t V) : list string := map fst o.
Definition values {V : Type} (o : t V) : list V := map snd o.
Definition entries {V : Type} (o : t V) : list (string * V) := o.

End Obj.

(* ===================================================================== *)
(** * Arrays                                                              *)
(* ===================================================================== *)

Module JSArray.

(** A comparator result counts as "a after b" when it is greater than
    zero; NaN counts as zero. *)
Definition positive (v : jsnum) : bool :=
  match v with Num z => 0 <? z | NaN => false end.

(** [Array.prototype.sort(comparefn)] is a stable sort.  With a
    consistent comparator every stable sort produces the same array; it
    is computed here by inserting each element, last to first, in front
    of the first element it is not after. *)
Fixpoint insert {A : Type} (comparefn : A -> A -> jsnum) (x : A) (l : list A)
  : list A :=
  match l with
  | [] => [x]
  | y :: r =>
      if positive (comparefn x y) then y :: insert comparefn x r
      else x :: y :: r
  end.

Definition sort {A : Type} (comparefn : A -> A -> jsnum) (l : list A)
  : list A :=
  fold_right (insert comparefn) [] l.

(** The default comparator of [sort()] on values converted to strings:
    the order of the code units.  A string is held as its UTF-8 bytes,
    whose order is that of the code points; for strings without
    characters from U+E000 on, as dates and repository names are, this
    is the order of the UTF-16 code units. *)
Definition compareStrings (a b : string) : jsnum :=
  match String.compare a b with
  | Lt => Num (-1)
  | Eq => Num 0
  | Gt => Num 1
  end.

(** [a[a.length - 1]] and [a[0]]: [None] is [undefined]. *)
Definition lastOf {A : Type} (a : list A) : option A :=
  nth_error a (length a - 1).

Definition firstOf {A : Type} (a : list A) : option A := nth_error a 0.

End JSArray.

(* ===================================================================== *)
(** * src/lib/github.js                                                   *)
(* ===================================================================== *)

(** The process: how many times [gh] has been spawned, and the lines
    written with [console.error].  ([console.log] progress lines are not
    modelled.) *)
Record ProcState : Type := mkProcState {
  calls : nat;
  errors : list string
}.

Inductive Result (A : Type) : Type :=
| Ok (a : A) (st : ProcState)        (** normal completion *)
| Thrown (e : exn) (st : ProcState)  (** an exception propagates *)
| Exited (code : Z) (st : ProcState) (** [process.exit(code)] *)
| OutOfFuel.                         (** the loop bound of the model was hit *)
Arguments Ok {A} a st.
Arguments Thrown {A} e st.
Arguments Exited {A} code st.
Arguments OutOfFuel {A}.

Definition Run (A : Type) : Type := ProcState -> Result A.

Definition ret {A : Type} (a : A) : Run A := fun st => Ok a st.

Definition andThen {A B : Type} (m : Run A) (k : A -> Run B) : Run B :=
  fun st =>
    match m st with
    | Ok a st' => k a st'
    | Thrown e st' => Thrown e st'
    | Exited c st' => Exited c st'
    | OutOfFuel => OutOfFuel
    end.

Notation "'run!' x := m 'in' k" := (andThen m (fun x => k))
  (at level 10, x name, m at level 100, k at level 200).

Definition console_error (line : string) : Run unit :=
  fun st => Ok tt (mkProcState (calls st) (errors st ++ [line])).

Definition process_exit {A : Type} (code : Z) : Run A :=
  fun st => Exited code st.

Definition throw {A : Type} (e : exn) : Run A := fun st => Thrown e st.

(** Lift a computation that can only return or throw. *)
Definition lift {A : Type} (o : Outcome A) : Run A :=
  match o with
  | Returned a => ret a
  | Threw e => throw e
  end.

(** A call of node:fs, made after [calls] spawns of [gh]: it throws or
    returns. *)
Definition fsCall (failure : nat -> option exn) : Run unit :=
  fun st =>
    match failure (calls st) with
    | Some e => Thrown e st
    | None => Ok tt st
    end.

Record PageInfo : Type := mkPageInfo {
  hasNextPage : bool;
  endCursor : option string
}.

(** An edge of the stargazers connection; [starredAt] may be null. *)
Record Edge : Type := mkEdge { starredAt : option string }.

Record StargazerData : Type := mkStargazerData {
  edges : list Edge;
  pageInfo : PageInfo
}.

(** The parsed response as far as it is inspected: [result.errors] (its
    printed form, when present) and [result.data?.repository?.stargazers]
    ([None] when any link of the chain is missing). *)
Record GraphQLResult : Type := mkResult {
  result_errors : option string;
  result_stargazers : option StargazerData
}.

(** The variables of stargazersQuery. *)
Record Variables : Type := mkVariables {
  var_owner : string;
  var_name : string;
  var_first : Z;
  var_after : option string
}.

(** What spawning [gh api graphql] yields. *)
Inductive Reply : Type :=
| Failed (status : string) (errorOutput : string)
    (** [status !== 0]; [status] as printed *)
| Garbled (output : string) (message : string)
    (** status 0, [JSON.parse(output)] throws with [message] *)
| Parsed (result : GraphQLResult).
    (** status 0, [output] is JSON *)

(** The environment: the reply to the [n]-th spawn of [gh]. *)
Definition Gh : Type := nat -> string -> Variables -> Reply.

Module Github.

Definition runGraphQL (gh : Gh) (queryFile : string) (variables : Variables)
  : Run GraphQLResult :=
  fun st =>
    let st1 := mkProcState (S (calls st)) (errors st) in
    match gh (calls st) queryFile variables with
    | Failed status errorOutput =>
        (run! _ := console_error
                     ("GraphQL query failed (" ++ status ++ "): "
                      ++ errorOutput)%string in
         process_exit 1) st1
    | Garbled output message =>
        (run! _ := console_error
                     ("Failed to parse GraphQL response: " ++ message)%string in
         run! _ := console_error ("Raw output: " ++ output)%string in
         process_exit 1) st1
    | Parsed result =>
        match result_errors result with
        | Some errs =>
            (run! _ := console_error ("GraphQL errors: " ++ errs)%string in
             process_exit 1) st1
        | None => Ok result st1
        end
    end.

End Github.

(* ===================================================================== *)
(** * src/stars.js                                                        *)
(* ===================================================================== *)

(** A Date object held in the stargazers array: its identity and its time
    value. *)
Record DateObject : Type := mkDate {
  oid : nat;
  timeValue : jsnum
}.

(** One repository's entry of [allData]. *)
Record Repo : Type := mkRepo {
  repo_name : string;
  cumulative : Obj.t Z
}.

Module Stars.
Import Time Str JSDate DateUtils JSArray.

Section WithHost.
Context {host : Host}.

Definition parseRepoString (repoString : string) : Outcome (string * string) :=
  let parts := split "/"%char repoString in
  match parts with
  | [owner; name] => Returned (owner, name)
  | _ => Threw (Error ("Invalid repository format: " ++ repoString
                       ++ ". Expected format: owner/repo")%string)
  end.

(** A string is truthy when it is not empty. *)
Definition truthy (s : option string) : option string :=
  match s with
  | Some EmptyString => None
  | _ => s
  end.

(** The [for (const edge of stargazerData.edges)] loop. *)
Fixpoint pushEdges (es : list Edge) (stargazers : list DateObject)
  : list DateObject :=
  match es with
  | [] => stargazers
  | edge :: rest =>
      match truthy (starredAt edge) with
      | Some at_ =>
          pushEdges rest
            (stargazers ++ [mkDate (length stargazers) (parse at_)])
      | None => pushEdges rest stargazers
      end
  end.

(** The [while (hasNextPage)] loop, entered with [hasNextPage] true. *)
Fixpoint fetchPages (gh : Gh) (fuel : nat) (owner name : string)
  (after : option string) (stargazers : list DateObject)
  : Run (list DateObject) :=
  match fuel with
  | O => fun _ => OutOfFuel
  | S fuel' =>
      let variables := mkVariables owner name 100 (truthy after) in
      run! result := Github.runGraphQL gh "stargazersQuery" variables in
      match result_stargazers result with
      | None =>
          run! _ := console_error
                      ("Failed to fetch stargazers for " ++ owner ++ "/"
                       ++ name)%string in
          ret stargazers
      | Some stargazerData =>
          let stargazers' := pushEdges (edges stargazerData) stargazers in
          if hasNextPage (pageInfo stargazerData)
          then fetchPages gh fuel' owner name
                 (endCursor (pageInfo stargazerData)) stargazers'
          else ret stargazers'
      end
  end.

Definition fetchAllStargazers (gh : Gh) (fuel : nat) (owner name : string)
  : Run (list DateObject) :=
  fetchPages gh fuel owner name None [].

(** [(a, b) => a.getTime() - b.getTime()]; the sort looks at the sign of
    the difference only. *)
Definition byTime (a b : DateObject) : jsnum :=
  sub (getTime (timeValue a)) (getTime (timeValue b)).

(** [stargazers.filter(star => star < upperBound).sort(...)] *)
Definition filteredStargazers (stargazers : list DateObject)
  (upperBound : jsnum) : list DateObject :=
  sort byTime (List.filter (fun star => lt (timeValue star) upperBound) stargazers).

(** The [for (let i = 0; ...)] loop over [filteredStargazers] from index
    [i] on. *)
Fixpoint cumulativeLoop (now : Z) (i : Z) (stars : list DateObject)
  (cumulative : Obj.t Z) : Outcome (Obj.t Z) :=
  match stars with
  | [] => Returned cumulative
  | star :: rest =>
      try! starMonday := getMonday now (Some (DateArg (timeValue star))) in
      let cumulativeCount := i + 1 in
      cumulativeLoop now (i + 1) rest
        (Obj.set starMonday cumulativeCount cumulative)
  end.

Definition generateCumulativeData (now : Z) (stargazers : list DateObject)
  (finalWeek : string) : Outcome (Obj.t Z) :=
  if (length stargazers =? 0)%nat then Returned Obj.empty
  else
    try! finalMonday := getNextMonday finalWeek in
    let upperBound := parse (midnightZ finalMonday) in
    let filtered := filteredStargazers stargazers upperBound in
    if (length filtered =? 0)%nat then Returned Obj.empty
    else cumulativeLoop now 0 filtered Obj.empty.

(** [String(v)] for an integer. *)
Definition showZ (v : Z) : string := NilZero.string_of_int (Z.to_int v).

(** [[...Object.entries(cumulativeData)].sort()]: entries are compared as
    the strings "key,value". *)
Definition entryString (e : string * Z) : string :=
  (fst e ++ "," ++ showZ (snd e))%string.

Definition sortedEntries (cumulativeData : Obj.t Z) : list (string * Z) :=
  sort (fun a b => compareStrings (entryString a) (entryString b))
       (Obj.entries cumulativeData).

(** [Object.fromEntries(new Map(entries))]: later entries with the same
    key overwrite. *)
Definition fromEntries {V : Type} (es : list (string * V)) : Obj.t V :=
  fold_left (fun o e => Obj.set (fst e) (snd e) o) es Obj.empty.

(** The body of the [try] block for one repository: the property of
    [allData] to assign and its value. *)
Definition tryRepository (gh : Gh) (fuel : nat) (now : Z) (finalWeek : string)
  (repoString : string) : Run (string * Repo) :=
  run! on := lift (parseRepoString repoString) in
  let repoName := (fst on ++ "/" ++ snd on)%string in
  run! stargazers := fetchAllStargazers gh fuel (fst on) (snd on) in
  run! cumulativeData := lift (generateCumulativeData now stargazers finalWeek) in
  let sortedCumulative := sortedEntries cumulativeData in
  ret (repoName, mkRepo repoName (fromEntries sortedCumulative)).

(** One iteration of [for (const repoString of repoStrings)]: the [try]
    block and its [catch]. *)
Definition processRepository (gh : Gh) (fuel : nat) (now : Z)
  (finalWeek : string) (repoString : string) (allData : Obj.t Repo)
  : Run (Obj.t Repo) :=
  fun st =>
    match tryRepository gh fuel now finalWeek repoString st with
    | Ok (repoName, repo) st' => Ok (Obj.set repoName repo allData) st'
    | Thrown error st' =>
        (run! _ := console_error
                     (" Error processing repository " ++ repoString ++ ": "
                      ++ exn_message error)%string in
         ret allData) st'
    | Exited c st' => Exited c st'
    | OutOfFuel => OutOfFuel
    end.

Fixpoint processRepositories (gh : Gh) (fuel : nat) (now : Z)
  (finalWeek : string) (repoStrings : list string) (allData : Obj.t Repo)
  : Run (Obj.t Repo) :=
  match repoStrings with
  | [] => ret allData
  | repoString :: rest =>
      run! allData' :=
        processRepository gh fuel now finalWeek repoString allData in
      processRepositories gh fuel now finalWeek rest allData'
  end.

(** ** [String.prototype.trim]

    A string is the sequence of its UTF-8 bytes.  [trim] removes the
    WhiteSpace and LineTerminator code points of ECMA-262: U+0009 to
    U+000D, U+0020, U+00A0, U+1680, U+2000 to U+200A, U+2028, U+2029,
    U+202F, U+205F, U+3000 and U+FEFF. *)
Definition isSpace (c : ascii) : bool :=
  let n := nat_of_ascii c in
  ((9 <=? n)%nat && (n <=? 13)%nat) || (n =? 32)%nat.

(** U+00A0 is the two bytes C2 A0. *)
Definition isSpace2 (c1 c2 : ascii) : bool :=
  (nat_of_ascii c1 =? 194)%nat && (nat_of_ascii c2 =? 160)%nat.

(** The white space of three bytes: E1 9A 80 (U+1680); E2 80 80 to
    E2 80 8A (U+2000 to U+200A); E2 80 A8, A9, AF (U+2028, U+2029,
    U+202F); E2 81 9F (U+205F); E3 80 80 (U+3000); EF BB BF (U+FEFF). *)
Definition isSpace3 (c1 c2 c3 : ascii) : bool :=
  let n1 := nat_of_ascii c1 in
  let n2 := nat_of_ascii c2 in
  let n3 := nat_of_ascii c3 in
  ((n1 =? 225) && (n2 =? 154) && (n3 =? 128))%nat
  || ((n1 =? 226) && (n2 =? 128)
      && (((128 <=? n3) && (n3 <=? 138))
          || (n3 =? 168) || (n3 =? 169) || (n3 =? 175)))%nat
  || ((n1 =? 226) && (n2 =? 129) && (n3 =? 159))%nat
  || ((n1 =? 227) && (n2 =? 128) && (n3 =? 128))%nat
  || ((n1 =? 239) && (n2 =? 187) && (n3 =? 191))%nat.

Fixpoint trimStart (s : string) : string :=
  match s with
  | String c1 r1 =>
      if isSpace c1 then trimStart r1
      else
        match r1 with
        | String c2 r2 =>
            if isSpace2 c1 c2 then trimStart r2
            else
              match r2 with
              | String c3 r3 =>
                  if isSpace3 c1 c2 c3 then trimStart r3 else s
              | EmptyString => s
              end
        | EmptyString => s
        end
  | EmptyString => s
  end.

(** The string is white space throughout. *)
Definition allSpace (s : string) : bool :=
  match trimStart s with
  | EmptyString => true
  | String _ _ => false
  end.

Fixpoint trimEnd (s : string) : string :=
  match s with
  | String c r => if allSpace s then EmptyString else String c (trimEnd r)
  | EmptyString => EmptyString
  end.

Definition trim (s : string) : string := trimEnd (trimStart s).

(** What [main] leaves behind: the file it wrote. *)
Record Written : Type := mkWritten {
  outputPath : string;
  content : list Repo     (** [Object.values(allData)], serialised as JSON *)
}.

(** [main], with [args = process.argv.slice(2)].  [mkdirSync] and
    [writeFileSync] are outside the [try]: what they throw ends main. *)
Definition main (gh : Gh) (fuel : nat) (now : Z) (args : list string)
  : Run Written :=
  match args with
  | reposArg :: outputDir :: rest =>
      run! finalWeek :=
        lift (getMonday now (option_map StrArg (firstOf rest))) in
      let repoStrings := map trim (split ","%char reposArg) in
      run! _ := fsCall (fun n => mkdirSync n outputDir) in
      run! allData :=
        processRepositories gh fuel now finalWeek repoStrings Obj.empty in
      let path := (outputDir ++ "/stargazers.json")%string in
      run! _ := fsCall (fun n => writeFileSync n path) in
      ret (mkWritten path (Obj.values allData))
  | _ =>
      run! _ := console_error
        "Usage: npm run stars <repo1,repo2,...> <output_dir> [date]" in
      run! _ := console_error
        "Example: npm run stars username/repo1,username/repo2 /path/to/output" in
      process_exit 1
  end.

End WithHost.

End Stars.

(* ===================================================================== *)
(** * src/stars.js operating on arrays in a store                         *)
(* ===================================================================== *)

(** Arrays are mutable objects: [filter] allocates a new array, [sort]
    rearranges the array it is called on.  The store maps the address of
    an array to its elements. *)
Module Store.
Import Time Str JSDate DateUtils JSArray.

Abbreviation store := (gmap nat (list DateObject)).

Definition elements (h : store) (a : nat) : list DateObject :=
  default [] (h !! a).

(** [a.filter(p)]: a fresh array. *)
Definition Array_filter (p : DateObject -> bool) (a : nat) (h : store)
  : nat * store :=
  let a' := fresh (dom h) in
  (a', <[a' := List.filter p (elements h a)]> h).

(** [a.sort(comparefn)]: sorts [a] in place and returns [a]. *)
Definition Array_sort (comparefn : DateObject -> DateObject -> jsnum)
  (a : nat) (h : store) : nat * store :=
  (a, <[a := sort comparefn (elements h a)]> h).

Section WithHost.
Context {host : Host}.

Definition generateCumulativeData (now : Z) (stargazers : nat)
  (finalWeek : string) (h : store) : Outcome (Obj.t Z) * store :=
  if (length (elements h stargazers) =? 0)%nat then (Returned Obj.empty, h)
  else
    match getNextMonday finalWeek with
    | Threw e => (Threw e, h)
    | Returned finalMonday =>
        let upperBound := parse (midnightZ finalMonday) in
        let '(kept, h1) :=
          Array_filter (fun star => lt (timeValue star) upperBound)
                       stargazers h in
        let '(filteredStargazers, h2) := Array_sort Stars.byTime kept h1 in
        let filtered := elements h2 filteredStargazers in
        if (length filtered =? 0)%nat then (Returned Obj.empty, h2)
        else (Stars.cumulativeLoop now 0 filtered Obj.empty, h2)
    end.

End WithHost.

End Store.

(* ===================================================================== *)
(** * The earlier revision of stars.js, with the charts                   *)
(* ===================================================================== *)

Record Series : Type := mkSeries {
  title : string;
  data : list Z
}.

Record Summary : Type := mkSummary {
  summary_name : string;
  totalStars : Z;          (** [repo.total] *)
  dataPoints : nat;
  firstDate : option string;
  latestDate : option string
}.

(** What generateChartsMarkdown renders into the markdown file. *)
Record Charts : Type := mkCharts {
  labels : list string;    (** [allMondays] *)
  series : list Series;
  summaries : list Summary
}.

Module StarsCharts.
Import Time Str JSDate DateUtils JSArray.

Section WithHost.
Context {host : Host}.

Section Host.

(** [Date.prototype.toString], which depends on the host's time zone. *)
Variable toString : jsnum -> string.

(** [.sort()] without a comparator compares the elements converted to
    strings. *)
Definition byString (a b : DateObject) : jsnum :=
  compareStrings (toString (timeValue a)) (toString (timeValue b)).

Definition filteredStargazers (stargazers : list DateObject)
  (upperBound : jsnum) : list DateObject :=
  sort byString
       (List.filter (fun star => lt (timeValue star) upperBound) stargazers).

(** [x || 0] *)
Definition orZero (x : option Z) : Z :=
  match x with Some v => v | None => 0 end.

(** The [for (const star of filteredStargazers)] loop. *)
Fixpoint countLoop (now : Z) (stars : list DateObject) (cumulative : Obj.t Z)
  : Outcome (Obj.t Z) :=
  match stars with
  | [] => Returned cumulative
  | star :: rest =>
      try! starMonday := getMonday now (Some (DateArg (timeValue star))) in
      let existingCount := orZero (Obj.get starMonday cumulative) in
      countLoop now rest (Obj.set starMonday (existingCount + 1) cumulative)
  end.

Definition generateCumulativeData (now : Z) (stargazers : list DateObject)
  (finalWeek : string) : Outcome (Obj.t Z) :=
  if (length stargazers =? 0)%nat then Returned Obj.empty
  else
    try! finalMonday := getNextMonday finalWeek in
    let upperBound := parse (midnightZ finalMonday) in
    let filtered := filteredStargazers stargazers upperBound in
    if (length filtered =? 0)%nat then Returned Obj.empty
    else countLoop now filtered Obj.empty.

End Host.

(** [Date.prototype.toString] on a host whose time zone is UTC, e.g.
    "Wed Sep 10 2025 08:00:00 GMT+0000 (Coordinated Universal Time)". *)
Definition dayName (w : Z) : string :=
  match w with
  | 0 => "Sun" | 1 => "Mon" | 2 => "Tue" | 3 => "Wed" | 4 => "Thu"
  | 5 => "Fri" | _ => "Sat"
  end.

Definition monthName (m : Z) : string :=
  match m with
  | 0 => "Jan" | 1 => "Feb" | 2 => "Mar" | 3 => "Apr" | 4 => "May"
  | 5 => "Jun" | 6 => "Jul" | 7 => "Aug" | 8 => "Sep" | 9 => "Oct"
  | 10 => "Nov" | _ => "Dec"
  end.

Definition paddedYear (y : Z) : string :=
  let yearSign := if 0 <=? y then EmptyString else "-"%string in
  let padded := if Z.abs y <=? 9999 then digits 4 (Z.abs y)
                else Stars.showZ (Z.abs y) in
  (yearSign ++ padded)%string.

Definition toStringUTC (tv : jsnum) : string :=
  match tv with
  | NaN => "Invalid Date"
  | Num t =>
      (dayName (WeekDay t) ++ " " ++ monthName (MonthFromTime t) ++ " "
       ++ digits 2 (DateFromTime t) ++ " " ++ paddedYear (YearFromTime t)
       ++ " " ++ digits 2 (HourFromTime t) ++ ":" ++ digits 2 (MinFromTime t)
       ++ ":" ++ digits 2 (SecFromTime t)
       ++ " GMT+0000 (Coordinated Universal Time)")%string
  end.

(** [Set.prototype.add]: a set enumerates in insertion order. *)
Definition setAdd (x : string) (s : list string) : list string :=
  if existsb (String.eqb x) s then s else s ++ [x].

Definition allDates (allData : Obj.t Repo) : list string :=
  fold_left
    (fun dates repo => fold_left (fun ds d => setAdd d ds)
                                 (Obj.keys (cumulative repo)) dates)
    (Obj.values allData) [].

(** [`${x}`] for a value that may be undefined. *)
Definition template (x : option string) : string :=
  match x with Some s => s | None => "undefined"%string end.

(** The [while (current <= endDate)] loop. *)
Fixpoint mondaysLoop (fuel : nat) (current endDate : jsnum)
  : Outcome (list string) :=
  match fuel with
  | O => Returned []
  | S fuel' =>
      if le current endDate then
        try! label := formatDate (DateArg current) in
        let current' := setUTCDate current (add (getUTCDate current) (Num 7)) in
        try! rest := mondaysLoop fuel' current' endDate in
        Returned (label :: rest)
      else Returned []
  end.

(** A bound on the number of iterations: the loop advances by a week. *)
Definition weeksFuel (current endDate : jsnum) : nat :=
  match current, endDate with
  | Num c, Num e => S (S (Z.to_nat ((e - c) / (7 * msPerDay))))
  | _, _ => 1%nat
  end.

Definition allMondays (begin end_ : option string) : Outcome (list string) :=
  let current := parse (midnightZ (template begin)) in
  let endDate := parse (midnightZ (template end_)) in
  mondaysLoop (weeksFuel current endDate) current endDate.

(** The inner [for (const date of allMondays)] loop: the running totals
    pushed to [data], and the final [prev]. *)
Fixpoint runningTotals (cumulative : Obj.t Z) (mondays : list string)
  (prev : Z) : list Z * Z :=
  match mondays with
  | [] => ([], prev)
  | date :: rest =>
      let add := orZero (Obj.get date cumulative) in
      let prev' := prev + add in
      let '(data, total) := runningTotals cumulative rest prev' in
      (prev' :: data, total)
  end.

Definition seriesOf (mondays : list string) (repo : Repo) : Series :=
  mkSeries (repo_name repo) (fst (runningTotals (cumulative repo) mondays 0)).

Definition summaryOf (mondays : list string) (repo : Repo) : Summary :=
  let dates := Obj.keys (cumulative repo) in
  mkSummary (repo_name repo)
            (snd (runningTotals (cumulative repo) mondays 0))
            (length dates) (firstOf dates) (lastOf dates).

Definition generateChartsMarkdown (allData : Obj.t Repo) : Outcome Charts :=
  let sortedDates := sort compareStrings (allDates allData) in
  let begin := firstOf sortedDates in
  let end_ := lastOf sortedDates in
  try! mondays := allMondays begin end_ in
  Returned (mkCharts mondays
                     (map (seriesOf mondays) (Obj.values allData))
                     (map (summaryOf mondays) (Obj.values allData))).

End WithHost.

End StarsCharts.

(* ===================================================================== *)
(** * src/date.js                                                         *)
(* ===================================================================== *)

Module DateScript.
Import DateUtils.

Section WithHost.
Context {host : Host}.

(** [process.argv[2] || new Date], passed to getMonday; the result is
    what the script prints. *)
Definition run (now : Z) (argv2 : option string) : Outcome string :=
  let dateArg :=
    match Stars.truthy argv2 with
    | Some s => StrArg s
    | None => DateArg (Num now)
    end in
  getMonday now (Some dateArg).

End WithHost.

End DateScript.

(* ===================================================================== *)
(** * src/lib/github.js as used by go.js; src/go.js                       *)
(* ===================================================================== *)

(** The variables of contributionsQuery. *)
Record ContributionsVariables : Type := mkContributionsVariables {
  var_login : string;
  var_from : string;
  var_to : string
}.

(** What [gh] is spawned for: [gh api graphql] with a query file and its
    variables, [gh api /users/<username>/events --paginate], or
    [gh api /repos/<repoName>/commits/<sha>]. *)
Inductive Request : Type :=
| GraphQLRequest (queryFile : string) (variables : ContributionsVariables)
| EventsRequest (username : string)
| CommitRequest (repoName sha : string).

(** The process of go.js: the spawns of [gh] so far, the lines of
    [console.error], and the files written with [writeFileSync] (path and
    content, in order). *)
Record GoState : Type := mkGoState {
  requests : list Request;
  stderr : list string;
  files : list (string * string)
}.

Definition spawned (st : GoState) : nat := length (requests st).

Inductive GoResult (A : Type) : Type :=
| GoOk (a : A) (st : GoState)
| GoThrown (e : exn) (st : GoState)
| GoExited (code : Z) (st : GoState).
Arguments GoOk {A} a st.
Arguments GoThrown {A} e st.
Arguments GoExited {A} code st.

Definition GoRun (A : Type) : Type := GoState -> GoResult A.

Definition goRet {A : Type} (a : A) : GoRun A := fun st => GoOk a st.

Definition goBind {A B : Type} (m : GoRun A) (k : A -> GoRun B) : GoRun B :=
  fun st =>
    match m st with
    | GoOk a st' => k a st'
    | GoThrown e st' => GoThrown e st'
    | GoExited c st' => GoExited c st'
    end.

Notation "'go!' x := m 'in' k" := (goBind m (fun x => k))
  (at level 10, x name, m at level 100, k at level 200).

Definition goError (line : string) : GoRun unit :=
  fun st => GoOk tt (mkGoState (requests st) (stderr st ++ [line]) (files st)).

Definition goExit {A : Type} (code : Z) : GoRun A :=
  fun st => GoExited code st.

Definition goLift {A : Type} (o : Outcome A) : GoRun A :=
  fun st => match o with
            | Returned a => GoOk a st
            | Threw e => GoThrown e st
            end.

(** [mkdirSync(dirname(path), { recursive: true }); writeFileSync(path,
    content)]: either call may throw. *)
Definition goWrite {host : Host} (path content : string) : GoRun unit :=
  fun st =>
    match mkdirSync (spawned st) (dirname path) with
    | Some e => GoThrown e st
    | None =>
        match writeFileSync (spawned st) path with
        | Some e => GoThrown e st
        | None =>
            GoOk tt (mkGoState (requests st) (stderr st)
                               (files st ++ [(path, content)]))
        end
    end.

(** One spawn of [gh]: the reply is chosen by the number of the spawn. *)
Definition goSpawn {R : Type} (request : Request) (reply : nat -> R)
  : GoRun R :=
  fun st => GoOk (reply (spawned st))
                 (mkGoState (requests st ++ [request]) (stderr st)
                            (files st)).

(** An item of [...ContributionsByRepository]:
    [item.repository.nameWithOwner] and [item.contributions.totalCount]. *)
Record RepoItem : Type := mkItem {
  nameWithOwner : string;
  totalCount : Z
}.

Record ContributionsCollection : Type := mkCollection {
  commitContributionsByRepository : list RepoItem;
  issueContributionsByRepository : list RepoItem;
  pullRequestContributionsByRepository : list RepoItem;
  pullRequestReviewContributionsByRepository : list RepoItem;
  totalIssueContributions : Z;
  totalCommitContributions : Z;
  totalRepositoryContributions : Z;
  totalPullRequestContributions : Z;
  totalPullRequestReviewContributions : Z
}.

(** The response of contributionsQuery as far as it is inspected:
    [result.errors] and [result.data?.user] (its contributionsCollection). *)
Record ContributionsResult : Type := mkContributions {
  contributions_errors : option string;
  contributions_user : option ContributionsCollection
}.

Inductive ContributionsReply : Type :=
| QueryFailed (status : string) (errorOutput : string)
| QueryGarbled (output : string) (message : string)
| QueryParsed (result : ContributionsResult).

(** An event of [/users/<name>/events]: [type], [created_at],
    [repo.name], [payload.head]. *)
Record Event : Type := mkEvent {
  event_type : string;
  created_at : string;
  event_repo : string;
  payload_head : string
}.

Inductive EventsReply : Type :=
| EventsFailed (status : string) (errorOutput : string)
| EventsGarbled (output : string) (message : string)
| EventsParsed (events : list Event).

(** What [gh api /repos/<repo>/commits/<sha> --jq ...] prints, parsed:
    [message] and [date]; [None] for JSON that is falsy (null). *)
Record CommitData : Type := mkCommitData {
  commit_message : string;
  commit_date : string
}.

Inductive CommitReply : Type :=
| CommitFailed (status : string) (errorOutput : string)
| CommitGarbled (message : string)
| CommitParsed (data : option CommitData).

(** The environment of go.js: the reply to the [n]-th spawn of [gh], for
    each of the three commands. *)
Record GoEnv : Type := mkGoEnv {
  graphqlReply : nat -> string -> ContributionsVariables -> ContributionsReply;
  eventsReply : nat -> string -> EventsReply;
  commitReply : nat -> string -> string -> CommitReply
}.

Module GoGithub.

(** runGraphQL, at the types of contributionsQuery. *)
Definition runGraphQL (env : GoEnv) (queryFile : string)
  (variables : ContributionsVariables) : GoRun ContributionsResult :=
  go! reply := goSpawn (GraphQLRequest queryFile variables)
                       (fun n => graphqlReply env n queryFile variables) in
  match reply with
  | QueryFailed status errorOutput =>
      go! _ := goError ("GraphQL query failed (" ++ status ++ "): "
                        ++ errorOutput)%string in
      goExit 1
  | QueryGarbled output message =>
      go! _ := goError ("Failed to parse GraphQL response: " ++ message)%string in
      go! _ := goError ("Raw output: " ++ output)%string in
      goExit 1
  | QueryParsed result =>
      match contributions_errors result with
      | Some errs =>
          go! _ := goError ("GraphQL errors: " ++ errs)%string in
          goExit 1
      | None => goRet result
      end
  end.

Definition fetchUserEvents (env : GoEnv) (username : string)
  : GoRun (list Event) :=
  go! reply := goSpawn (EventsRequest username)
                       (fun n => eventsReply env n username) in
  match reply with
  | EventsFailed status errorOutput =>
      go! _ := goError ("Failed to fetch events (" ++ status ++ "): "
                        ++ errorOutput)%string in
      goExit 1
  | EventsGarbled output message =>
      go! _ := goError ("Failed to parse events response: " ++ message)%string in
      go! _ := goError ("Raw output: " ++ output)%string in
      goExit 1
  | EventsParsed events => goRet events
  end.

(** [None] is the [null] that fetchCommit returns on failure. *)
Definition fetchCommit (env : GoEnv) (repoName sha : string)
  : GoRun (option CommitData) :=
  go! reply := goSpawn (CommitRequest repoName sha)
                       (fun n => commitReply env n repoName sha) in
  match reply with
  | CommitFailed status errorOutput =>
      go! _ := goError ("Failed to fetch commit " ++ sha ++ " (" ++ status
                        ++ "): " ++ errorOutput)%string in
      goRet None
  | CommitGarbled message =>
      go! _ := goError ("Failed to parse commit response: " ++ message)%string in
      goRet None
  | CommitParsed data => goRet data
  end.

End GoGithub.

(** The statistics kept for one repository. *)
Record Stats : Type := mkStats {
  issues : Z;
  commits : Z;
  prs : Z;
  reviews : Z
}.

Module Go.
Import Time Str JSDate DateUtils JSArray.

Section WithHost.
Context {host : Host}.

Definition newline : string := String (ascii_of_nat 10) EmptyString.

(** [lines.join(sep)] *)
Fixpoint join (sep : string) (lines : list string) : string :=
  match lines with
  | [] => EmptyString
  | [l] => l
  | l :: rest => (l ++ sep ++ join sep rest)%string
  end.

Definition zeroStats : Stats := mkStats 0 0 0 0.

(** The four assignments [repoContributions.get(repoName).<field> = v]. *)
Inductive Field : Type := Commits | Issues | Prs | Reviews.

Definition setField (f : Field) (v : Z) (s : Stats) : Stats :=
  match f with
  | Commits => mkStats (issues s) v (prs s) (reviews s)
  | Issues => mkStats v (commits s) (prs s) (reviews s)
  | Prs => mkStats (issues s) (commits s) v (reviews s)
  | Reviews => mkStats (issues s) (commits s) (prs s) v
  end.

(** One of the four [for (const item of ...)] loops.  The Map
    [repoContributions] keeps its keys in insertion order, the Set
    [repoTags] as well. *)
Fixpoint processItems (f : Field) (items : list RepoItem)
  (repoContributions : Obj.t Stats) (repoTags : list string)
  : Obj.t Stats * list string :=
  match items with
  | [] => (repoContributions, repoTags)
  | item :: rest =>
      let repoName := nameWithOwner item in
      let m1 :=
        match Obj.get repoName repoContributions with
        | Some _ => repoContributions
        | None => Obj.set repoName zeroStats repoContributions
        end in
      let m2 :=
        match Obj.get repoName m1 with
        | Some s => Obj.set repoName (setField f (totalCount item) s) m1
        | None => m1
        end in
      processItems f rest m2
        (StarsCharts.setAdd ("gh-stats/" ++ repoName)%string repoTags)
  end.

(** The Map and the Set after the four loops. *)
Definition aggregate (c : ContributionsCollection)
  : Obj.t Stats * list string :=
  let '(m1, t1) :=
    processItems Commits (commitContributionsByRepository c) Obj.empty [] in
  let '(m2, t2) :=
    processItems Issues (issueContributionsByRepository c) m1 t1 in
  let '(m3, t3) :=
    processItems Prs (pullRequestContributionsByRepository c) m2 t2 in
  processItems Reviews (pullRequestReviewContributionsByRepository c) m3 t3.

Definition total (s : Stats) : Z := issues s + commits s + prs s + reviews s.

(** [(a, b) => totalB - totalA] *)
Definition byTotalDescending (a b : string * Stats) : jsnum :=
  Num (total (snd b) - total (snd a)).

Definition sortedRepos (repoContributions : Obj.t Stats)
  : list (string * Stats) :=
  sort byTotalDescending (Obj.entries repoContributions).

(** [num > 0 ? `**${num}**` : '0'] *)
Definition formatStat (num : Z) : string :=
  if 0 <? num then ("**" ++ Stars.showZ num ++ "**")%string else "0"%string.

Definition tableRow (e : string * Stats) : string :=
  ("| " ++ fst e ++ " | " ++ formatStat (issues (snd e)) ++ " | "
   ++ formatStat (commits (snd e)) ++ " | " ++ formatStat (prs (snd e))
   ++ " | " ++ formatStat (reviews (snd e)) ++ " |")%string.

Definition frontmatter (c : ContributionsCollection) (repoTags : list string)
  : string :=
  join newline
    (app
       [ "---"%string; "contributions:"%string;
         ("  issues: " ++ Stars.showZ (totalIssueContributions c))%string;
         ("  commits: " ++ Stars.showZ (totalCommitContributions c))%string;
         ("  repositories: "
          ++ Stars.showZ (totalRepositoryContributions c))%string;
         ("  pull_requests: "
          ++ Stars.showZ (totalPullRequestContributions c))%string;
         ("  pull_request_reviews: "
          ++ Stars.showZ (totalPullRequestReviewContributions c))%string;
         "tags:"%string ]
       (app (map (fun tag => ("  - " ++ tag)%string)
                 (sort compareStrings repoTags))
            [ "---"%string; EmptyString ])).

Definition body (c : ContributionsCollection)
  (repoContributions : Obj.t Stats) : list string :=
  app
    [ "# Contributions for the week"%string; EmptyString;
      ("- **Total Issue Contributions**: "
       ++ Stars.showZ (totalIssueContributions c))%string;
      ("- **Total Commit Contributions**: "
       ++ Stars.showZ (totalCommitContributions c))%string;
      ("- **Total Repository Contributions**: "
       ++ Stars.showZ (totalRepositoryContributions c))%string;
      ("- **Total Pull Request Contributions**: "
       ++ Stars.showZ (totalPullRequestContributions c))%string;
      ("- **Total Pull Request Review Contributions**: "
       ++ Stars.showZ (totalPullRequestReviewContributions c))%string;
      EmptyString; "### Contributions by Repository"%string; EmptyString;
      "| Repository | Issues | Commits | PRs | PR Reviews |"%string;
      "|------------|--------|---------|-----|------------|"%string ]
    (map tableRow (sortedRepos repoContributions)).

(** The text of the contribution report. *)
Definition markdownContent (c : ContributionsCollection) : string :=
  let '(repoContributions, repoTags) := aggregate c in
  (frontmatter c repoTags ++ join newline (body c repoContributions))%string.

Definition generateMarkdown (outputPath : string)
  (c : ContributionsCollection) : GoRun unit :=
  goWrite outputPath (markdownContent c).

(** [a >= b] on Date objects. *)
Definition ge (a b : jsnum) : bool := le b a.

(** The test that lets an event through the two [continue] statements. *)
Definition selected (weekStart weekEnd : jsnum) (event : Event) : bool :=
  String.eqb (event_type event) "PushEvent"
  && negb (let eventDate := parse (created_at event) in
           lt eventDate weekStart || ge eventDate weekEnd).

(** [commitsByRepo.get(repoName).push({ sha })], after the [has]/[set]. *)
Definition pushCommit (repoName sha : string)
  (commitsByRepo : Obj.t (list string)) : Obj.t (list string) :=
  match Obj.get repoName commitsByRepo with
  | Some shas => Obj.set repoName (shas ++ [sha]) commitsByRepo
  | None => Obj.set repoName [sha] commitsByRepo
  end.

(** The [for (const event of events)] loop. *)
Fixpoint groupPushes (weekStart weekEnd : jsnum) (events : list Event)
  (commitsByRepo : Obj.t (list string)) : Obj.t (list string) :=
  match events with
  | [] => commitsByRepo
  | event :: rest =>
      if selected weekStart weekEnd event then
        groupPushes weekStart weekEnd rest
          (pushCommit (event_repo event) (payload_head event) commitsByRepo)
      else groupPushes weekStart weekEnd rest commitsByRepo
  end.

(** The [for (const { sha } of commits)] loop: the lines pushed. *)
Fixpoint commitLines (env : GoEnv) (repoName : string) (shas : list string)
  : GoRun (list string) :=
  match shas with
  | [] => goRet []
  | sha :: rest =>
      go! commitData := GoGithub.fetchCommit env repoName sha in
      go! more := commitLines env repoName rest in
      match commitData with
      | Some cd =>
          goRet (("- [x] " ++ commit_message cd ++ " (" ++ commit_date cd
                  ++ ")")%string :: more)
      | None => goRet more
      end
  end.

(** The [for (const repoName of sortedRepos)] loop: the lines pushed. *)
Fixpoint repoSections (env : GoEnv) (commitsByRepo : Obj.t (list string))
  (repos : list string) : GoRun (list string) :=
  match repos with
  | [] => goRet []
  | repoName :: rest =>
      let commits :=
        match Obj.get repoName commitsByRepo with
        | Some shas => shas
        | None => []
        end in
      go! entries := commitLines env repoName commits in
      go! more := repoSections env commitsByRepo rest in
      goRet (app [("## " ++ repoName)%string; EmptyString]
                 (app entries (EmptyString :: more)))
  end.

Definition generateActivityMarkdown (env : GoEnv) (outputPath username : string)
  (weekStart weekEnd : jsnum) : GoRun unit :=
  go! events := GoGithub.fetchUserEvents env username in
  let commitsByRepo := groupPushes weekStart weekEnd events Obj.empty in
  let sortedRepos := sort compareStrings (Obj.keys commitsByRepo) in
  go! sections := repoSections env commitsByRepo sortedRepos in
  let lines :=
    app ["# GitHub Activity for the Week"%string; EmptyString]
        (app sections
             (if (length sortedRepos =? 0)%nat
              then ["No push events found for this week."%string]
              else [])) in
  goWrite outputPath (join newline lines).

Section Host.

(** [path.join] of node:path, and [Date.prototype.getFullYear], which
    depends on the host's time zone. *)
Variable pathJoin : list string -> string.
Variable getFullYear : Z -> Z.

Definition timeOf (tv : jsnum) : Z := match tv with Num t => t | NaN => 0 end.

(** The message of the TypeError that [path.join] throws for an argument
    that is undefined. *)
Definition pathTypeError : string :=
  let quote := String (ascii_of_nat 34) EmptyString in
  ("The " ++ quote ++ "path" ++ quote
   ++ " argument must be of type string. Received undefined")%string.

(** [main], with [args = process.argv.slice(2)]. *)
Definition main (env : GoEnv) (now : Z) (args : list string) : GoRun unit :=
  match args with
  | username :: outputDir :: rest =>
      let activityDir := nth_error rest 0 in
      let dateArg := nth_error rest 1 in
      go! weekStartStr := goLift (getMonday now (option_map StrArg dateArg)) in
      let weekStart := parse (midnightZ weekStartStr) in
      go! weekEndStr := goLift (getNextMonday weekStartStr) in
      let weekEnd := parse (midnightZ weekEndStr) in
      go! from := goLift (match toISOString weekStart with
                          | Some iso => Returned iso
                          | None => Threw invalidTime
                          end) in
      go! to := goLift (match toISOString weekEnd with
                        | Some iso => Returned iso
                        | None => Threw invalidTime
                        end) in
      let variables := mkContributionsVariables username from to in
      go! contributions :=
        GoGithub.runGraphQL env "contributionsQuery" variables in
      match contributions_user contributions with
      | None =>
          go! _ := goError "Failed to fetch user data" in
          goExit 1
      | Some collection =>
          let year := getFullYear (timeOf weekStart) in
          let outputPath :=
            pathJoin [outputDir; Stars.showZ year;
                      (weekStartStr ++ "_gh.md")%string] in
          go! _ := generateMarkdown outputPath collection in
          match activityDir with
          | None =>
              goLift (Threw (Error pathTypeError))
          | Some dir =>
              let activityPath := pathJoin [dir; "gh-activity.md"%string] in
              generateActivityMarkdown env activityPath username
                weekStart weekEnd
          end
      end
  | _ =>
      go! _ := goError "Usage: npm run go <username> <output_dir> [date]" in
      goExit 1
  end.

End Host.

End WithHost.

End Go.

(* ===================================================================== *)
(** * Notions used in the statements                                      *)
(* ===================================================================== *)

Section Notions.
Context {host : Host}.

(** [c] does not occur in [s]. *)
Fixpoint absent (c : ascii) (s : string) : Prop :=
  match s with
  | EmptyString => True
  | String c' r => Ascii.eqb c' c = false /\ absent c r
  end.

(** The day number of the Monday on or before day [n] (day 0 is Thursday
    1970-01-01). *)
Definition mondayDay (n : Z) : Z := n - (n + 3) mod 7.

(** The first Monday whose midnight is a time value: -271821-04-26. *)
Definition firstMondayDay : Z := -99999994.

(** The time values whose week has a Monday that is itself a time value:
    from the midnight of [firstMondayDay] to the end of the time range. *)
Definition inWeekRange (t : Z) : Prop :=
  firstMondayDay * Time.msPerDay <= t <= Time.maxTime.

(** A well-formed date and the time value it denotes: a Date object with
    a time value in that range, or a date-only string of the Date Time
    String Format (which denotes midnight UTC of that date). *)
Inductive WellFormedDate : DateInput -> Z -> Prop :=
| wf_date_object (t : Z) :
    inWeekRange t ->
    WellFormedDate (DateArg (Num t)) t
| wf_date_string (s : string) (t : Z) :
    absent "T" s -> JSDate.isoParse s = Some (Num t) -> inWeekRange t ->
    WellFormedDate (StrArg s) t.

(** A date given to getMonday and a time value [t] on its calendar date.
    For a Date object [t] is its time value; for a date-only string, the
    midnight (UTC) of that date.  A full timestamp is a date, a "T" and
    a time: for a timestamp that toISOString produces, and for any
    timestamp whose instant lies on the date as written, [t] is that
    instant; and for every timestamp the midnight of the date as written
    is such a [t]. *)
Inductive DateOf : DateInput -> Z -> Prop :=
| date_of_object (t : Z) :
    inWeekRange t ->
    DateOf (DateArg (Num t)) t
| date_of_string (s : string) (t : Z) :
    absent "T" s -> JSDate.isoParse s = Some (Num t) -> inWeekRange t ->
    DateOf (StrArg s) t
| date_of_iso_string (t : Z) (iso : string) :
    inWeekRange t -> JSDate.toISOString (Num t) = Some iso ->
    DateOf (StrArg iso) t
| date_of_timestamp (p rest : string) (t0 t : Z) :
    absent "T" p -> JSDate.isoParse p = Some (Num t0) -> inWeekRange t0 ->
    JSDate.isoParse (p ++ String "T" rest) = Some (Num t) ->
    Time.Day t = Time.Day t0 ->
    DateOf (StrArg (p ++ String "T" rest)) t
| date_as_written (p rest : string) (t0 : Z) :
    absent "T" p -> JSDate.isoParse p = Some (Num t0) -> inWeekRange t0 ->
    DateOf (StrArg (p ++ String "T" rest)) t0.

(** The scenario of the aggregator: three events, given as the Date
    objects [new Date("2025-09-10")] (twice) and [new Date("2025-09-18")]. *)
Definition scenarioEvents : list DateObject :=
  [ mkDate 0 (JSDate.parse "2025-09-10");
    mkDate 1 (JSDate.parse "2025-09-10");
    mkDate 2 (JSDate.parse "2025-09-18") ].


(** The scenario of the merger: A = {W1:1, W3:3}, B = {W2:2}, with the
    consecutive Mondays W1 = 2025-09-08, W2 = 2025-09-15, W3 = 2025-09-22. *)
Definition scenarioAB : Obj.t Repo :=
  [ ("A", mkRepo "A" [("2025-09-08", 1); ("2025-09-22", 3)]);
    ("B", mkRepo "B" [("2025-09-15", 2)]) ]%string.

(** A full timestamp written with a UTC offset: 01:00 on 15 September at
    +05:00 is 20:00 on 14 September UTC. *)
Definition offsetTimestamp : string := "2025-09-15T01:00:00+05:00".

(** [a] is not after [b], by the [<=] of Date objects (which holds only
    between valid dates). *)
Definition notAfter (a b : DateObject) : Prop :=
  JSDate.le (timeValue a) (timeValue b) = true.

(** The events of an array that carry the time value [tv], in order. *)
Definition eventsAt (tv : jsnum) (l : list DateObject) : list DateObject :=
  List.filter (fun d => if jsnum_eq_dec (timeValue d) tv then true else false) l.

(** The events of an array that carry another time value than [tv]. *)
Definition eventsNotAt (tv : jsnum) (l : list DateObject) : list DateObject :=
  List.filter (fun d => if jsnum_eq_dec (timeValue d) tv then false else true) l.

(** The time value of a Date object is NaN or within the time range. *)
Definition validDate (d : DateObject) : Prop :=
  match timeValue d with
  | NaN => True
  | Num t => - Time.maxTime <= t <= Time.maxTime
  end.

(** The key of the week of time value [t]: the date text of its Monday. *)
Definition weekKey (t : Z) : string :=
  JSDate.dateString (mondayDay (Time.Day t) * Time.msPerDay).

(** Events around the upper bound of the week of 2025-09-15, which is
    2025-09-22T00:00:00.000Z: one at the bound, one a millisecond before
    it, one in the week before. *)
Definition boundaryEvents : list DateObject :=
  [ mkDate 0 (Num 1758499200000);
    mkDate 1 (Num 1758499199999);
    mkDate 2 (JSDate.parse "2025-09-10") ].

(** The distinct elements of a list, each at the place of its first
    occurrence. *)
Definition firstOccurrences (l : list string) : list string :=
  fold_left (fun seen x => if existsb (String.eqb x) seen then seen
                           else seen ++ [x]) l [].

(** The value of the last assignment to [k] in a sequence of assignments. *)
Definition lastWrite {V : Type} (k : string) (ws : list (string * V))
  : option V :=
  fold_left (fun acc w => if String.eqb (fst w) k then Some (snd w) else acc)
            ws None.

(** The assignments to [allData] made by the iterations of main's loop
    over [repoStrings], in order: one for each iteration whose [try]
    block runs to its end. *)
Fixpoint writes (gh : Gh) (fuel : nat) (now : Z) (finalWeek : string)
  (repoStrings : list string) (st : ProcState) : list (string * Repo) :=
  match repoStrings with
  | [] => []
  | repoString :: rest =>
      match Stars.tryRepository gh fuel now finalWeek repoString st with
      | Ok w st' => w :: writes gh fuel now finalWeek rest st'
      | Thrown e st' =>
          writes gh fuel now finalWeek rest
            (mkProcState (calls st')
               (errors st'
                ++ [(" Error processing repository " ++ repoString ++ ": "
                     ++ exn_message e)%string]))
      | _ => []
      end
  end.

(** An environment in which the stargazers of a repository change between
    two fetches: the first spawn of [gh] reports one star, every later
    one reports two. *)
Definition growingGh : Gh :=
  fun n _ _ =>
    Parsed (mkResult None
              (Some (mkStargazerData
                       (if (n =? 0)%nat
                        then [mkEdge (Some "2025-09-10T08:00:00Z"%string)]
                        else [mkEdge (Some "2025-09-10T08:00:00Z"%string);
                              mkEdge (Some "2025-09-11T09:30:00Z"%string)])
                       (mkPageInfo false None)))).

(** An environment in which [gh] fails for the owner "down" and reports
    one star for every other repository. *)
Definition failingGh : Gh :=
  fun _ _ variables =>
    if String.eqb (var_owner variables) "down"
    then Failed "1" "HTTP 502"
    else Parsed (mkResult None
                   (Some (mkStargazerData
                            [mkEdge (Some "2025-09-10T08:00:00Z"%string)]
                            (mkPageInfo false None)))).

(** An environment in which the response for the owner "gone" has no
    [data.repository.stargazers]. *)
Definition missingGh : Gh :=
  fun _ _ variables =>
    if String.eqb (var_owner variables) "gone"
    then Parsed (mkResult None None)
    else Parsed (mkResult None
                   (Some (mkStargazerData
                            [mkEdge (Some "2025-09-10T08:00:00Z"%string)]
                            (mkPageInfo false None)))).

Definition startState : ProcState := mkProcState 0 [].

(** What runGraphQL writes to the error stream for a reply before it
    exits; no line for a reply that is no failure. *)
Definition failureLines (reply : Reply) : list string :=
  match reply with
  | Failed status errorOutput =>
      [("GraphQL query failed (" ++ status ++ "): " ++ errorOutput)%string]
  | Garbled output message =>
      [("Failed to parse GraphQL response: " ++ message)%string;
       ("Raw output: " ++ output)%string]
  | Parsed result =>
      match result_errors result with
      | Some errs => [("GraphQL errors: " ++ errs)%string]
      | None => []
      end
  end.

(** The reply is a failure of the [gh] call: a non-zero exit status,
    output that is not JSON, or GraphQL errors. *)
Definition failedReply (reply : Reply) : Prop := failureLines reply <> [].

(** The environment serves the given pages of stargazers to the spawns
    of [gh] numbered from [n] on, each asked for with the cursor that
    the page before gave and each announcing a next page; the reply to
    the request after them is [reply]. *)
Fixpoint servesUntil (gh : Gh) (owner name : string) (n : nat)
  (after : option string) (pages : list StargazerData) (reply : Reply)
  : Prop :=
  match pages with
  | [] =>
      gh n "stargazersQuery"%string
         (mkVariables owner name 100 (Stars.truthy after))
      = reply
  | page :: rest =>
      gh n "stargazersQuery"%string
         (mkVariables owner name 100 (Stars.truthy after))
      = Parsed (mkResult None (Some page)) /\
      hasNextPage (pageInfo page) = true /\
      servesUntil gh owner name (S n) (endCursor (pageInfo page)) rest reply
  end.

(** The dates of the edges that carry one ([starredAt] neither null nor
    the empty string), in order. *)
Definition starDates (es : list Edge) : list string :=
  flat_map (fun edge => match starredAt edge with
                        | Some (String c r) => [String c r]
                        | _ => []
                        end) es.

(** The Date objects for a list of dates, the first being object
    number [n]. *)
Definition datesFrom (n : nat) (dates : list string) : list DateObject :=
  map (fun p => mkDate (fst p) (JSDate.parse (snd p)))
      (combine (seq n (length dates)) dates).

(** The stars of a sequence of pages: a Date object for each edge that
    carries a date, in the order of the pages and of their edges. *)
Definition collected (pages : list StargazerData) : list DateObject :=
  datesFrom 0 (starDates (concat (map edges pages))).

(** A first page of stargazers: two stars, an edge without a date
    between them, and the cursor "c1" of the next page. *)
Definition firstPage : StargazerData :=
  mkStargazerData
    [mkEdge (Some "2025-09-10T08:00:00Z"%string);
     mkEdge None;
     mkEdge (Some "2025-09-11T09:30:00Z"%string)]
    (mkPageInfo true (Some "c1"%string)).

(** An environment that serves [firstPage] and then fails: the request
    with a cursor ends with a non-zero status. *)
Definition laterFailingGh : Gh :=
  fun _ _ variables =>
    match var_after variables with
    | None => Parsed (mkResult None (Some firstPage))
    | Some _ => Failed "1" "HTTP 502"
    end.

(** An environment that serves [firstPage] and then a response without
    [data.repository.stargazers]. *)
Definition laterMissingGh : Gh :=
  fun _ _ variables =>
    match var_after variables with
    | None => Parsed (mkResult None (Some firstPage))
    | Some _ => Parsed (mkResult None None)
    end.

(** The Date object is valid. *)
Definition hasTime (d : DateObject) : Prop := timeValue d <> NaN.

(** One assignment [allData[name] = repo]. *)
Definition assign (o : Obj.t Repo) (w : string * Repo) : Obj.t Repo :=
  Obj.set (fst w) (snd w) o.

(** The fuel lets the [while] loop over the Mondays run to its exit. *)
Definition enoughFuel (fuel : nat) (current endDate : jsnum) : Prop :=
  match current, endDate with
  | Num c, Num e => c <= e -> (e - c) / (7 * Time.msPerDay) < Z.of_nat fuel
  | _, _ => True
  end.

(** The environment serves the given pages of stargazers to the spawns
    of [gh] numbered from [n] on, when asked with the cursor that the
    page before gave; every page but the last announces a next page. *)
Fixpoint servesPages (gh : Gh) (owner name : string) (n : nat)
  (after : option string) (pages : list StargazerData) : Prop :=
  match pages with
  | [] => True
  | page :: rest =>
      gh n "stargazersQuery"%string
         (mkVariables owner name 100 (Stars.truthy after))
      = Parsed (mkResult None (Some page)) /\
      hasNextPage (pageInfo page)
      = (match rest with [] => false | _ :: _ => true end) /\
      servesPages gh owner name (S n) (endCursor (pageInfo page)) rest
  end.

(** The events of an array before the bound [ub] whose week is the week
    of [t] or an earlier one. *)
Definition eventsUpToWeek (ub t : Z) (l : list DateObject) : list DateObject :=
  List.filter
    (fun s => match timeValue s with
              | Num x => (x <? ub)
                         && (mondayDay (Time.Day x) <=? mondayDay (Time.Day t))
              | NaN => false
              end) l.

(** The events of an array before the bound [ub] in the week of [t]. *)
Definition eventsInWeek (ub t : Z) (l : list DateObject) : list DateObject :=
  List.filter
    (fun s => match timeValue s with
              | Num x => (x <? ub)
                         && (mondayDay (Time.Day x) =? mondayDay (Time.Day t))
              | NaN => false
              end) l.

(** The events of [p] whose week is the week of [t] or an earlier one. *)
Definition upToWeek (t : Z) (p : list DateObject) : list DateObject :=
  List.filter
    (fun s => match timeValue s with
              | Num x => mondayDay (Time.Day x) <=? mondayDay (Time.Day t)
              | NaN => false
              end) p.

(** The time value of a star that has one. *)
Definition timeZ (d : DateObject) : Z :=
  match timeValue d with Num t => t | NaN => 0 end.

(** [a] is not after [b] in the order of the code units. *)
Definition notAfterText (a b : string) : Prop := String.compare a b <> Gt.

(** Two keys of the same length are in strictly ascending order. *)
Definition ascendingKeys (k1 k2 : string) : Prop :=
  String.length k1 = String.length k2 -> String.compare k1 k2 = Lt.

(** U+00A0, the no-break space. *)
Definition nbsp : string :=
  String (ascii_of_nat 194) (String (ascii_of_nat 160) EmptyString).

(** A list of repositories with white space around the names. *)
Definition scenarioRepos : string :=
  ("a/b ," ++ nbsp ++ "c/d,a/b")%string.

(** The file written by a run of main over [scenarioRepos] in the
    environment [growingGh]. *)
Definition scenarioWritten : Stars.Written :=
  Stars.mkWritten "out/stargazers.json"
    [mkRepo "a/b" [("2025-09-08"%string, 2)];
     mkRepo "c/d" [("2025-09-08"%string, 2)]].

(** The events of [p] in the week of [t]. *)
Definition inSameWeek (t : Z) (p : list DateObject) : list DateObject :=
  List.filter
    (fun s => match timeValue s with
              | Num x => mondayDay (Time.Day x) =? mondayDay (Time.Day t)
              | NaN => false
              end) p.



(** The dates of [n] days a week apart, the first at time [c]. *)
Definition mondayLabels (c : Z) (n : nat) : list string :=
  map (fun k => JSDate.dateString (c + 7 * Time.msPerDay * Z.of_nat k))
      (seq 0 n).

(** The repositories named by a list of contribution items. *)
Definition itemNames (items : list RepoItem) : list string :=
  map nameWithOwner items.

(** The count of the last item for repository [k], [d] when there is
    none. *)
Definition lastCount (k : string) (items : list RepoItem) (d : Z) : Z :=
  fold_left (fun acc item => if String.eqb (nameWithOwner item) k
                             then totalCount item else acc)
            items d.

Definition Field_eqb (f g : Go.Field) : bool :=
  match f, g with
  | Go.Commits, Go.Commits | Go.Issues, Go.Issues
  | Go.Prs, Go.Prs | Go.Reviews, Go.Reviews => true
  | _, _ => false
  end.

Definition getField (f : Go.Field) (s : Stats) : Z :=
  match f with
  | Go.Commits => commits s
  | Go.Issues => issues s
  | Go.Prs => prs s
  | Go.Reviews => reviews s
  end.

(** The heads of the events of repository [r] that pass the filter, in
    the order of the events. *)
Definition pushesOf (weekStart weekEnd : jsnum) (r : string)
  (events : list Event) : list string :=
  map payload_head
      (List.filter (fun e => Go.selected weekStart weekEnd e
                             && String.eqb (event_repo e) r) events).

(** The state in which a run of go.js ends. *)
Definition finalState {A : Type} (r : GoResult A) : GoState :=
  match r with
  | GoOk _ st => st
  | GoThrown _ st => st
  | GoExited _ st => st
  end.

(** Events of a user around the week of 2025-09-15: two pushes to
    u/zeta and one to u/alpha in the week, an event that is no push, and
    a push in the week after. *)
Definition scenarioPushes : list Event :=
  [ mkEvent "PushEvent" "2025-09-16T10:00:00Z" "u/zeta" "aaa";
    mkEvent "WatchEvent" "2025-09-16T11:00:00Z" "u/zeta" "bbb";
    mkEvent "PushEvent" "2025-09-17T09:00:00Z" "u/alpha" "ccc";
    mkEvent "PushEvent" "2025-09-23T09:00:00Z" "u/alpha" "ddd";
    mkEvent "PushEvent" "2025-09-18T09:00:00Z" "u/zeta" "eee" ].

(** An environment of go.js: the contributions name one repository, the
    events are [scenarioPushes], and the lookup of commit ccc fails. *)
Definition scenarioGoEnv : GoEnv :=
  mkGoEnv
    (fun _ _ _ =>
       QueryParsed
         (mkContributions None
            (Some (mkCollection [mkItem "u/alpha" 3] [] [] [] 0 3 0 0 0))))
    (fun _ _ => EventsParsed scenarioPushes)
    (fun _ _ sha =>
       if String.eqb sha "ccc" then CommitFailed "1" "HTTP 404"
       else CommitParsed (Some (mkCommitData "fix" "2025-09-16"))).

Definition startGoState : GoState := mkGoState [] [] [].

(** [f] applied to each element of a list and to its number, the first
    element having the number [k]. *)
Fixpoint numbered {A B : Type} (f : nat -> A -> list B) (k : nat)
  (l : list A) : list B :=
  match l with
  | [] => []
  | x :: rest => f k x ++ numbered f (S k) rest
  end.

(** What the lookup of commit [sha] of repository [r] adds to the
    activity report when it is spawn number [k] of [gh]: one line when
    the reply parses to an object, nothing when the call fails, when its
    output does not parse, or when it parses to null. *)
Definition reportLine (env : GoEnv) (r : string) (k : nat) (sha : string)
  : list string :=
  match commitReply env k r sha with
  | CommitParsed (Some cd) =>
      [("- [x] " ++ commit_message cd ++ " (" ++ commit_date cd ++ ")")%string]
  | _ => []
  end.

(** What that lookup writes to the error stream. *)
Definition lookupError (env : GoEnv) (r : string) (k : nat) (sha : string)
  : list string :=
  match commitReply env k r sha with
  | CommitFailed status errorOutput =>
      [("Failed to fetch commit " ++ sha ++ " (" ++ status ++ "): "
        ++ errorOutput)%string]
  | CommitGarbled message =>
      [("Failed to parse commit response: " ++ message)%string]
  | CommitParsed _ => []
  end.

(** The sections of the activity report for the repositories [pushes]
    (each with its commits), the first lookup being spawn number [k]: a
    heading, an empty line, the lines of the commits, an empty line. *)
Fixpoint reportSections (env : GoEnv) (k : nat)
  (pushes : list (string * list string)) : list string :=
  match pushes with
  | [] => []
  | (r, shas) :: rest =>
      [("## " ++ r)%string; EmptyString]
      ++ numbered (reportLine env r) k shas
      ++ [EmptyString]
      ++ reportSections env (k + length shas) rest
  end.

(** The lines that the lookups for [pushes] write to the error stream. *)
Fixpoint reportErrors (env : GoEnv) (k : nat)
  (pushes : list (string * list string)) : list string :=
  match pushes with
  | [] => []
  | (r, shas) :: rest =>
      numbered (lookupError env r) k shas
      ++ reportErrors env (k + length shas) rest
  end.

(** The repositories with a push event that passes the filter, sorted by
    name, each with the heads of its events that pass. *)
Definition weekPushes (weekStart weekEnd : jsnum) (events : list Event)
  : list (string * list string) :=
  map (fun r => (r, pushesOf weekStart weekEnd r events))
      (JSArray.sort JSArray.compareStrings
         (firstOccurrences
            (map event_repo
               (List.filter (Go.selected weekStart weekEnd) events)))).

(** The text of the activity report for [events], the first lookup of a
    commit being spawn number [k]. *)
Definition activityReport (env : GoEnv) (k : nat) (weekStart weekEnd : jsnum)
  (events : list Event) : string :=
  Go.join Go.newline
    (["# GitHub Activity for the Week"%string; EmptyString]
     ++ reportSections env k (weekPushes weekStart weekEnd events)
     ++ match weekPushes weekStart weekEnd events with
        | [] => ["No push events found for this week."%string]
        | _ :: _ => []
        end).

(** The process after the events were fetched and the commits looked up,
    before the report is written: [gh] was asked for the events and then
    for each commit once, by repository and in the order of the events. *)
Definition afterLookups (env : GoEnv) (username : string)
  (weekStart weekEnd : jsnum) (events : list Event) (st : GoState) : GoState :=
  mkGoState
    (requests st
     ++ EventsRequest username
        :: flat_map (fun p => map (CommitRequest (fst p)) (snd p))
                    (weekPushes weekStart weekEnd events))
    (stderr st
     ++ reportErrors env (S (spawned st)) (weekPushes weekStart weekEnd events))
    (files st).

(** The activity report of the scenario [scenarioGoEnv]: the commit of
    u/alpha, whose lookup fails, has no line. *)
Definition scenarioActivity : string :=
  Go.join Go.newline
    [ "# GitHub Activity for the Week"; ""; "## u/alpha"; ""; "";
      "## u/zeta"; ""; "- [x] fix (2025-09-16)"; "- [x] fix (2025-09-16)";
      "" ]%string.

(** An environment that serves the stargazers in two pages: the first
    page, asked for without a cursor, holds two stars (and an edge
    without a date) and announces the cursor "c1"; the second holds one. *)
Definition pagedGh : Gh :=
  fun _ _ variables =>
    match var_after variables with
    | None =>
        Parsed (mkResult None
                  (Some (mkStargazerData
                           [mkEdge (Some "2025-09-10T08:00:00Z"%string);
                            mkEdge None;
                            mkEdge (Some "2025-09-11T09:30:00Z"%string)]
                           (mkPageInfo true (Some "c1"%string)))))
    | Some _ =>
        Parsed (mkResult None
                  (Some (mkStargazerData
                           [mkEdge (Some "2025-09-18T07:00:00Z"%string)]
                           (mkPageInfo false None))))
    end.

Definition pagedPages : list StargazerData :=
  [ mkStargazerData
      [mkEdge (Some "2025-09-10T08:00:00Z"%string);
       mkEdge None;
       mkEdge (Some "2025-09-11T09:30:00Z"%string)]
      (mkPageInfo true (Some "c1"%string));
    mkStargazerData
      [mkEdge (Some "2025-09-18T07:00:00Z"%string)]
      (mkPageInfo false None) ].

End Notions.

(** A host for the scenarios: an engine without heuristics, for which
    every string that is not read by [JSDate.isoParse] is an Invalid
    Date, and a file system in which every call succeeds.  Its [dirname]
    is the path without its last segment. *)
Definition plainHost : Host :=
  {| parseOther := fun _ => NaN;
     mkdirSync := fun _ _ => None;
     writeFileSync := fun _ _ => None;
     dirname := fun path =>
       Go.join "/" (removelast (Str.split "/" path)) |}.

(* ===================================================================== *)
(** * Calendar facts                                                      *)
(* ===================================================================== *)

(** Linear arithmetic with floor division and remainder by literals. *)
Ltac dlia := Z.to_euclidean_division_equations; lia.

Section CalendarFacts.
Import Time.

Context {host : Host}.

Lemma DayFromYear_succ (y : Z) :
  DayFromYear (y + 1) = DayFromYear y + DaysInYear y.
Proof.
  unfold DayFromYear, DaysInYear, isLeapYear.
  destruct (y mod 4 =? 0) eqn:E4; simpl;
    [destruct (y mod 100 =? 0) eqn:E100; simpl;
     [destruct (y mod 400 =? 0) eqn:E400; simpl|]|];
    rewrite ?Z.eqb_eq, ?Z.eqb_neq in *; dlia.
Qed.

Lemma YearFromDay_spec (d : Z) :
  DayFromYear (YearFromDay d) <= d < DayFromYear (YearFromDay d + 1).
Proof.
  unfold YearFromDay.
  set (y := 1970 + (400 * d) / 146097).
  destruct (DayFromYear (y + 1) <=? d) eqn:E1.
  - apply Z.leb_le in E1. split; [exact E1|].
    unfold DayFromYear in *. subst y. dlia.
  - apply Z.leb_gt in E1.
    destruct (DayFromYear y <=? d) eqn:E2.
    + apply Z.leb_le in E2. lia.
    + apply Z.leb_gt in E2. replace (y - 1 + 1) with y by lia.
      split; [|exact E2].
      unfold DayFromYear in *. subst y. dlia.
Qed.

Lemma DayWithinYear_bounds (t : Z) :
  0 <= DayWithinYear t < DaysInYear (YearFromTime t).
Proof.
  unfold DayWithinYear, YearFromTime.
  pose proof (YearFromDay_spec (Day t)) as H.
  rewrite DayFromYear_succ in H. lia.
Qed.

Lemma InLeapYear_cases (t : Z) :
  (InLeapYear t = 0 /\ DaysInYear (YearFromTime t) = 365) \/
  (InLeapYear t = 1 /\ DaysInYear (YearFromTime t) = 366).
Proof.
  unfold InLeapYear, DaysInYear. destruct (isLeapYear _); auto.
Qed.

Ltac split_month :=
  unfold monthOfDayWithinYear;
  repeat match goal with
         | |- context [if ?a <? ?b then _ else _] =>
             destruct (Z.ltb_spec a b)
         end.

Lemma MonthFromTime_bounds (t : Z) : 0 <= MonthFromTime t <= 11.
Proof. unfold MonthFromTime. split_month; lia. Qed.

Lemma DateFromTime_bounds (t : Z) :
  1 <= DateFromTime t <=
  JSDate.DaysInMonth (YearFromTime t) (MonthFromTime t + 1).
Proof.
  unfold DateFromTime, MonthFromTime, JSDate.DaysInMonth.
  pose proof (DayWithinYear_bounds t) as Hd.
  fold (InLeapYear t).
  destruct (InLeapYear_cases t) as [[-> Hy]|[-> Hy]]; rewrite Hy in Hd;
    split_month; simpl; lia.
Qed.

Lemma DateFromTime_le_31 (t : Z) : 1 <= DateFromTime t <= 31.
Proof.
  pose proof (DateFromTime_bounds t) as H.
  assert (JSDate.DaysInMonth (YearFromTime t) (MonthFromTime t + 1) <= 31).
  { unfold JSDate.DaysInMonth.
    destruct (isLeapYear _); destruct (MonthFromTime t + 1) as [|p|p];
      try lia; do 4 (try (destruct p as [p|p|]; try lia)). }
  lia.
Qed.

(** [MakeDay] on the year and month of [t] counts days from the first of
    that month. *)
Lemma MakeDay_YearMonth (t k : Z) :
  MakeDay (YearFromTime t) (MonthFromTime t) k = Day t - DateFromTime t + k.
Proof.
  pose proof (MonthFromTime_bounds t) as Hm.
  unfold MakeDay.
  replace (MonthFromTime t / 12) with 0 by dlia.
  replace (MonthFromTime t mod 12) with (MonthFromTime t) by dlia.
  rewrite Z.add_0_r. fold (InLeapYear t).
  unfold DateFromTime, DayWithinYear. lia.
Qed.

Lemma MakeDay_civil (t : Z) :
  MakeDay (YearFromTime t) (MonthFromTime t) (DateFromTime t) = Day t.
Proof. rewrite MakeDay_YearMonth. lia. Qed.

Lemma Day_mul (n : Z) : Day (n * msPerDay) = n.
Proof. unfold Day, msPerDay. dlia. Qed.

Lemma Day_MakeDate (n r : Z) :
  0 <= r < msPerDay -> Day (MakeDate n r) = n.
Proof. unfold Day, MakeDate, msPerDay. intros. dlia. Qed.

Lemma TimeWithinDay_bounds (t : Z) : 0 <= TimeWithinDay t < msPerDay.
Proof. unfold TimeWithinDay, msPerDay. dlia. Qed.

Lemma Day_TimeWithinDay (t : Z) : t = MakeDate (Day t) (TimeWithinDay t).
Proof. unfold MakeDate, Day, TimeWithinDay, msPerDay. dlia. Qed.

Lemma Day_mono (a b : Z) : a <= b -> Day a <= Day b.
Proof. unfold Day, msPerDay. intros. dlia. Qed.

Lemma YearFromDay_bounds (d : Z) :
  -100000001 <= d <= 100000000 -> -271821 <= YearFromDay d <= 275760.
Proof.
  intros Hd. pose proof (YearFromDay_spec d) as H.
  unfold DayFromYear in H. dlia.
Qed.

End CalendarFacts.

(* ===================================================================== *)
(** * String facts                                                        *)
(* ===================================================================== *)

Section StringFacts.
Import Str.

Context {host : Host}.

Lemma append_cons (c : ascii) (a b : string) :
  (String c a ++ b)%string = String c (a ++ b).
Proof. reflexivity. Qed.

Lemma append_nil_l (b : string) : (EmptyString ++ b)%string = b.
Proof. reflexivity. Qed.

Lemma append_nil_r (a : string) : (a ++ EmptyString)%string = a.
Proof.
  induction a as [|x a IH]; [reflexivity|].
  rewrite append_cons, IH. reflexivity.
Qed.

Lemma append_assoc (a b c : string) :
  ((a ++ b) ++ c)%string = (a ++ (b ++ c))%string.
Proof.
  induction a as [|x a IH]; [reflexivity|].
  rewrite !append_cons, IH. reflexivity.
Qed.

Lemma absent_app (c : ascii) (a b : string) :
  absent c a -> absent c b -> absent c (a ++ b)%string.
Proof. induction a; simpl; intuition. Qed.

Lemma split_absent (sep : ascii) (a : string) :
  absent sep a -> split sep a = [a].
Proof.
  induction a as [|c a IH]; simpl; [reflexivity|].
  intros [-> Ha]. rewrite (IH Ha). reflexivity.
Qed.

Lemma first_split_app (sep : ascii) (a b : string) :
  absent sep a -> first (split sep (a ++ String sep b)) = a.
Proof.
  induction a as [|c a IH]; simpl.
  - rewrite Ascii.eqb_refl. reflexivity.
  - intros [-> Ha]. specialize (IH Ha).
    destruct (split sep (a ++ String sep b)) as [|h tl]; simpl in *;
      congruence.
Qed.

Lemma first_split_absent (sep : ascii) (a : string) :
  absent sep a -> first (split sep a) = a.
Proof. intros H. rewrite split_absent by assumption. reflexivity. Qed.

(** The text before the first separator has no separator. *)
Lemma first_split_is_absent (sep : ascii) (s : string) :
  absent sep (first (split sep s)).
Proof.
  induction s as [|c s IH]; simpl; [exact I|].
  destruct (Ascii.eqb c sep) eqn:E; simpl; [exact I|].
  destruct (split sep s) as [|h tl]; simpl in *; auto.
Qed.

Lemma digit_cases (d : Z) :
  0 <= d <= 9 ->
  d = 0 \/ d = 1 \/ d = 2 \/ d = 3 \/ d = 4 \/ d = 5 \/ d = 6 \/ d = 7
  \/ d = 8 \/ d = 9.
Proof. lia. Qed.

Ltac each_digit H :=
  apply digit_cases in H;
  repeat (destruct H as [H|H]; [subst; try reflexivity|]);
  subst; try reflexivity.

Lemma isDigit_digitChar (d : Z) : 0 <= d <= 9 -> isDigit (digitChar d) = true.
Proof. intros H. each_digit H. Qed.

Lemma digitVal_digitChar (d : Z) : 0 <= d <= 9 -> digitVal (digitChar d) = d.
Proof. intros H. each_digit H. Qed.

Lemma digitChar_not (c : ascii) (d : Z) :
  isDigit c = false -> 0 <= d <= 9 -> Ascii.eqb (digitChar d) c = false.
Proof.
  intros Hc H. destruct (Ascii.eqb_spec (digitChar d) c) as [<-|]; auto.
  rewrite isDigit_digitChar in Hc by assumption. discriminate.
Qed.

Lemma mod10_bounds (n : Z) : 0 <= n mod 10 <= 9.
Proof. dlia. Qed.

Lemma absent_digits (c : ascii) (k : nat) (n : Z) :
  isDigit c = false -> absent c (digits k n).
Proof.
  intros Hc. induction k; cbn [digits absent]; [exact I|].
  split; [|assumption]. apply digitChar_not; auto using mod10_bounds.
Qed.

Lemma readDigits_digits (k : nat) (acc n : Z) (rest : string) :
  readDigits k acc (digits k n ++ rest) =
  Some (acc * 10 ^ Z.of_nat k + n mod 10 ^ Z.of_nat k, rest).
Proof.
  revert acc. induction k as [|k IH]; intros acc.
  - simpl. rewrite Z.mod_1_r. do 2 f_equal. lia.
  - cbn [digits]. rewrite append_cons. cbn [readDigits].
    rewrite isDigit_digitChar, digitVal_digitChar by apply mod10_bounds.
    rewrite IH. do 2 f_equal.
    rewrite Nat2Z.inj_succ, Z.pow_succ_r by lia.
    set (p := 10 ^ Z.of_nat k).
    assert (0 < p) by (apply Z.pow_pos_nonneg; lia).
    rewrite (Z.mul_comm 10 p), (Z.rem_mul_r n p 10) by lia.
    lia.
Qed.

Lemma readDigits_digits_small (k : nat) (n : Z) (rest : string) :
  0 <= n < 10 ^ Z.of_nat k ->
  readDigits k 0 (digits k n ++ rest) = Some (n, rest).
Proof.
  intros H. rewrite readDigits_digits, Z.mod_small by assumption.
  reflexivity.
Qed.

(** Reading digits does not look past them. *)
Lemma readDigits_app (k : nat) (acc v : Z) (s r suffix : string) :
  readDigits k acc s = Some (v, r) ->
  readDigits k acc (s ++ suffix) = Some (v, (r ++ suffix)%string).
Proof.
  revert acc s. induction k as [|k IH]; intros acc s; simpl.
  - intros [= <- <-]. reflexivity.
  - destruct s as [|c s]; [discriminate|]. rewrite append_cons.
    destruct (isDigit c); [apply IH|discriminate].
Qed.

End StringFacts.

(* ===================================================================== *)
(** * Date facts: formatting and parsing agree                            *)
(* ===================================================================== *)

Section DateFacts.
Import Time Str JSDate DateUtils.

Context {host : Host}.

Lemma absent_yearString (c : ascii) (y : Z) :
  isDigit c = false -> Ascii.eqb "+" c = false -> Ascii.eqb "-" c = false ->
  absent c (yearString y).
Proof.
  intros Hd Hp Hm. unfold yearString.
  destruct ((0 <=? y) && (y <=? 9999)).
  - apply absent_digits; assumption.
  - cbn [absent]. split; [destruct (0 <=? y); assumption|].
    apply absent_digits; assumption.
Qed.

Lemma absent_T_dateString (t : Z) : absent "T" (dateString t).
Proof.
  unfold dateString.
  repeat apply absent_app;
    try apply absent_yearString; try apply absent_digits;
    try reflexivity; repeat split.
Qed.

Lemma formatDate_Date (t : Z) :
  formatDate (DateArg (Num t)) = Returned (dateString t).
Proof.
  unfold formatDate, toISOString.
  change (dateString t ++ "T" ++ timeString t)%string
    with (dateString t ++ String "T" (timeString t))%string.
  rewrite first_split_app by apply absent_T_dateString. reflexivity.
Qed.

Lemma readChar_digit (c x : ascii) (r : string) :
  isDigit c = false -> isDigit x = true -> readChar c (String x r) = None.
Proof.
  intros Hc Hx. unfold readChar.
  destruct (Ascii.eqb_spec x c) as [->|]; [congruence|reflexivity].
Qed.

Lemma readYear_digit (c : ascii) (r : string) :
  isDigit c = true -> readYear (String c r) = readDigits 4 0 (String c r).
Proof.
  intros Hc. unfold readYear.
  rewrite !(readChar_digit _ c) by (assumption || reflexivity).
  reflexivity.
Qed.

Lemma readYear_yearString (y : Z) (rest : string) :
  -999999 <= y <= 999999 ->
  readYear (yearString y ++ rest) = Some (y, rest).
Proof.
  intros Hy. unfold yearString.
  destruct ((0 <=? y) && (y <=? 9999)) eqn:E.
  - apply andb_true_iff in E as [E1 E2].
    apply Z.leb_le in E1. apply Z.leb_le in E2.
    assert (Hr : readDigits 4 0 (digits 4 y ++ rest) = Some (y, rest))
      by (apply readDigits_digits_small; simpl; lia).
    revert Hr. cbn [digits]. rewrite append_cons. intros Hr.
    rewrite readYear_digit; [exact Hr|].
    apply isDigit_digitChar, mod10_bounds.
  - rewrite append_cons.
    assert (Hr : readDigits 6 0 (digits 6 (Z.abs y) ++ rest)
                 = Some (Z.abs y, rest))
      by (apply readDigits_digits_small; simpl; lia).
    destruct (Z.leb_spec 0 y) as [Hp|Hn].
    + unfold readYear. cbn [readChar Ascii.eqb Bool.eqb].
      rewrite Hr. f_equal. f_equal. lia.
    + unfold readYear. cbn [readChar Ascii.eqb Bool.eqb].
      rewrite Hr.
      destruct (Z.eqb_spec (Z.abs y) 0); [lia|]. f_equal. f_equal. lia.
Qed.

Lemma TimeClip_in_range (t : Z) :
  - maxTime <= t <= maxTime -> TimeClip t = Num t.
Proof.
  intros H. unfold TimeClip.
  destruct (Z.leb_spec (Z.abs t) maxTime); [reflexivity|lia].
Qed.

(** A string that is read without the host gets its time value from
    [isoParse]. *)
Lemma parse_iso (s : string) (tv : jsnum) :
  isoParse s = Some tv -> parse s = tv.
Proof. unfold parse. intros ->. reflexivity. Qed.

(** Parsing the date text of [t] followed by anything: the date fields
    are those of [t]. *)
Lemma isoParse_dateString_app (t : Z) (suffix : string) :
  -999999 <= YearFromTime t <= 999999 ->
  isoParse (dateString t ++ suffix) =
  match suffix with
  | EmptyString => Some (TimeClip (MakeDate (Day t) 0))
  | _ =>
      match readChar "T" suffix with
      | Some r3 =>
          match readTime r3 with
          | Some (tod, off) =>
              Some (TimeClip (MakeDate (Day t) tod - off * msPerMinute))
          | None => None
          end
      | None => None
      end
  end.
Proof.
  intros Hy. unfold dateString, isoParse.
  rewrite !append_assoc, readYear_yearString by assumption.
  rewrite append_cons, append_nil_l.
  unfold readMonthDay. cbn [readChar Ascii.eqb Bool.eqb].
  pose proof (MonthFromTime_bounds t) as Hm.
  pose proof (DateFromTime_bounds t) as Hd.
  pose proof (DateFromTime_le_31 t) as Hd'.
  rewrite readDigits_digits_small by (simpl; lia).
  rewrite append_cons, append_nil_l. cbn [readChar Ascii.eqb Bool.eqb].
  rewrite readDigits_digits_small by (simpl; lia).
  destruct (Z.leb_spec 1 (MonthFromTime t + 1)); [|lia].
  destruct (Z.leb_spec (MonthFromTime t + 1) 12); [|lia].
  destruct (Z.leb_spec 1 (DateFromTime t)); [|lia].
  destruct (Z.leb_spec (DateFromTime t)
              (DaysInMonth (YearFromTime t) (MonthFromTime t + 1))); [|lia].
  cbn [andb].
  replace (MonthFromTime t + 1 - 1) with (MonthFromTime t) by lia.
  rewrite MakeDay_civil. reflexivity.
Qed.

(** Parsing the date text of [t], taken at midnight, gives the start of
    the UTC day of [t]. *)
Lemma parse_midnightZ_dateString (t : Z) :
  -999999 <= YearFromTime t <= 999999 ->
  parse (midnightZ (dateString t)) = TimeClip (Day t * msPerDay).
Proof.
  intros Hy. unfold midnightZ. apply parse_iso.
  rewrite isoParse_dateString_app by assumption.
  cbn [readChar Ascii.eqb Bool.eqb].
  change (readTime "00:00:00.000Z") with (Some (MakeTime 0 0 0 0, 0)).
  do 2 f_equal. unfold MakeDate, MakeTime. lia.
Qed.

Lemma isoParse_dateString (t : Z) :
  -999999 <= YearFromTime t <= 999999 ->
  isoParse (dateString t) = Some (TimeClip (Day t * msPerDay)).
Proof.
  intros Hy. rewrite <- (append_nil_r (dateString t)).
  rewrite isoParse_dateString_app by assumption.
  do 2 f_equal. unfold MakeDate. lia.
Qed.

Lemma parse_dateString (t : Z) :
  -999999 <= YearFromTime t <= 999999 ->
  parse (dateString t) = TimeClip (Day t * msPerDay).
Proof. intros Hy. apply parse_iso, isoParse_dateString, Hy. Qed.

End DateFacts.

(* ===================================================================== *)
(** * getMonday and getNextMonday                                         *)
(* ===================================================================== *)

Section WeekFacts.
Import Time Str JSDate DateUtils.

Context {host : Host}.

Lemma mondayDay_is_monday (n : Z) : (mondayDay n + 4) mod 7 = 1.
Proof. unfold mondayDay. dlia. Qed.

Lemma mondayDay_bounds (n : Z) : mondayDay n <= n < mondayDay n + 7.
Proof. unfold mondayDay. dlia. Qed.

Lemma mondayDay_mono (a b : Z) : a <= b -> mondayDay a <= mondayDay b.
Proof. unfold mondayDay. intros. dlia. Qed.

Lemma valid_time_year (t : Z) :
  - maxTime <= t <= maxTime -> -999999 <= YearFromTime t <= 999999.
Proof.
  intros H. unfold YearFromTime.
  assert (-100000001 <= Day t <= 100000000)
    by (unfold Day, msPerDay, maxTime in *; dlia).
  pose proof (YearFromDay_bounds (Day t)). lia.
Qed.

Lemma dateString_Day (a b : Z) : Day a = Day b -> dateString a = dateString b.
Proof.
  intros H. unfold dateString, DateFromTime, MonthFromTime, InLeapYear,
    DayWithinYear, YearFromTime. rewrite H. reflexivity.
Qed.

(** The body of getMonday after [d] has been parsed: walking back to
    Monday keeps the time within the day and moves the day to
    [mondayDay]. *)
Lemma walk_back_to_monday (t0 : Z) :
  let dayOfWeek := getUTCDay (Num t0) in
  let daysToSubtract :=
    if jsnum_eq_dec dayOfWeek (Num 0) then Num 6 else sub dayOfWeek (Num 1) in
  setUTCDate (Num t0) (sub (getUTCDate (Num t0)) daysToSubtract)
  = TimeClip (MakeDate (mondayDay (Day t0)) (TimeWithinDay t0)).
Proof.
  cbn [getUTCDay getUTCDate].
  assert (Hk : (if jsnum_eq_dec (Num (WeekDay t0)) (Num 0)
                then Num 6 else sub (Num (WeekDay t0)) (Num 1))
               = Num ((Day t0 + 3) mod 7)).
  { unfold WeekDay.
    destruct (jsnum_eq_dec _ _) as [E|E].
    - injection E as E. f_equal. dlia.
    - cbn [sub]. f_equal.
      assert ((Day t0 + 4) mod 7 <> 0) by congruence. dlia. }
  rewrite Hk. cbn [sub setUTCDate]. rewrite MakeDay_YearMonth.
  unfold mondayDay. do 2 f_equal. lia.
Qed.

Lemma getMonday_parsed (now : Z) (date : DateInput) (p : string) (t0 : Z) :
  isFalsy (Some date) = false ->
  formatDate date = Returned p ->
  parse (midnightZ p) = Num t0 ->
  firstMondayDay <= Day t0 ->
  - maxTime <= t0 <= maxTime ->
  getMonday now (Some date)
  = Returned (dateString (mondayDay (Day t0) * msPerDay)).
Proof.
  intros Hf Hp Hd Hlo Hr. unfold getMonday. rewrite Hf, Hp. cbn [bind].
  rewrite Hd, walk_back_to_monday.
  pose proof (mondayDay_bounds (Day t0)) as Hm.
  pose proof (TimeWithinDay_bounds t0) as Hw.
  assert (Hmon : firstMondayDay <= mondayDay (Day t0)).
  { pose proof (mondayDay_mono _ _ Hlo) as H0.
    replace (mondayDay firstMondayDay) with firstMondayDay in H0
      by reflexivity.
    exact H0. }
  rewrite TimeClip_in_range.
  - rewrite formatDate_Date. f_equal. apply dateString_Day.
    rewrite Day_MakeDate, Day_mul by assumption. reflexivity.
  - pose proof (Day_TimeWithinDay t0) as Ht.
    unfold MakeDate, firstMondayDay, maxTime, msPerDay in *. lia.
Qed.

Lemma setUTCDate_next_week (c : Z) :
  setUTCDate (Num c) (add (getUTCDate (Num c)) (Num 7))
  = TimeClip (c + 7 * msPerDay).
Proof.
  cbn [getUTCDate add setUTCDate]. rewrite MakeDay_YearMonth. f_equal.
  pose proof (Day_TimeWithinDay c) as H. unfold MakeDate in *. lia.
Qed.

End WeekFacts.

(* ===================================================================== *)
(** * Date-only strings                                                   *)
(* ===================================================================== *)

Section DateOnlyFacts.
Import Time Str JSDate DateUtils.

Context {host : Host}.

Lemma readDigits_absent (c : ascii) (k : nat) (acc v : Z) (s r : string) :
  readDigits k acc s = Some (v, r) -> absent c s -> absent c r.
Proof.
  revert acc s. induction k as [|k IH]; intros acc s; cbn [readDigits].
  - intros [= _ <-]. auto.
  - destruct s as [|x s]; [discriminate|].
    destruct (isDigit x); [|discriminate].
    intros H [_ Ha]. eapply IH; eauto.
Qed.

Lemma readChar_absent (c x : ascii) (s r : string) :
  readChar x s = Some r -> absent c s -> absent c r.
Proof.
  destruct s as [|y s]; cbn [readChar]; [discriminate|].
  destruct (Ascii.eqb y x); [|discriminate].
  intros [= <-] [_ Ha]. exact Ha.
Qed.

Lemma readChar_app (x : ascii) (s r suffix : string) :
  readChar x s = Some r ->
  readChar x (s ++ suffix) = Some (r ++ suffix)%string.
Proof.
  destruct s as [|y s]; cbn [readChar]; [discriminate|].
  rewrite append_cons. cbn [readChar].
  destruct (Ascii.eqb y x); [|discriminate].
  intros [= <-]. reflexivity.
Qed.

Lemma readChar_app_None (x : ascii) (s suffix : string) :
  readChar x s = None -> readChar x suffix = None ->
  readChar x (s ++ suffix) = None.
Proof.
  destruct s as [|y s]; [rewrite append_nil_l; auto|].
  rewrite append_cons. cbn [readChar].
  destruct (Ascii.eqb y x); [discriminate|reflexivity].
Qed.

Lemma readYear_absent (c : ascii) (s r : string) (y : Z) :
  readYear s = Some (y, r) -> absent c s -> absent c r.
Proof.
  unfold readYear. intros H Ha.
  destruct (readChar "+" s) as [r0|] eqn:Ep.
  { eapply readDigits_absent; eauto using readChar_absent. }
  destruct (readChar "-" s) as [r0|] eqn:Em.
  { destruct (readDigits 6 0 r0) as [[y0 r']|] eqn:Ed; [|discriminate].
    destruct (y0 =? 0); [discriminate|]. injection H as _ <-.
    eapply readDigits_absent; eauto using readChar_absent. }
  eapply readDigits_absent; eauto.
Qed.

Lemma readYear_app (s r suffix : string) (y : Z) :
  readYear s = Some (y, r) ->
  readChar "+" suffix = None -> readChar "-" suffix = None ->
  readYear (s ++ suffix) = Some (y, (r ++ suffix)%string).
Proof.
  unfold readYear. intros H Hp Hm.
  destruct (readChar "+" s) as [r0|] eqn:Ep.
  { rewrite (readChar_app _ _ _ _ Ep). apply readDigits_app, H. }
  rewrite readChar_app_None by assumption.
  destruct (readChar "-" s) as [r0|] eqn:Em.
  { rewrite (readChar_app _ _ _ _ Em).
    destruct (readDigits 6 0 r0) as [[y0 r']|] eqn:Ed; [|discriminate].
    rewrite (readDigits_app _ _ _ _ _ _ Ed).
    destruct (y0 =? 0); [discriminate|]. injection H as <- <-. reflexivity. }
  rewrite readChar_app_None by assumption.
  apply readDigits_app, H.
Qed.

Lemma readMonthDay_absent (c : ascii) (s r : string) (m d : Z) :
  readMonthDay s = Some (m, d, r) -> absent c s -> absent c r.
Proof.
  unfold readMonthDay. intros H Ha.
  destruct (readChar "-" s) as [r0|] eqn:E0; [|injection H as _ _ <-; auto].
  destruct (readDigits 2 0 r0) as [[m0 r1]|] eqn:E1; [|discriminate].
  assert (absent c r1)
    by (eapply readDigits_absent; eauto using readChar_absent).
  destruct (readChar "-" r1) as [r1'|] eqn:E2; [|injection H as _ _ <-; auto].
  destruct (readDigits 2 0 r1') as [[d0 r2]|] eqn:E3; [|discriminate].
  injection H as _ _ <-.
  eapply readDigits_absent; eauto using readChar_absent.
Qed.

Lemma readMonthDay_app (s r suffix : string) (m d : Z) :
  readMonthDay s = Some (m, d, r) -> readChar "-" suffix = None ->
  readMonthDay (s ++ suffix) = Some (m, d, (r ++ suffix)%string).
Proof.
  unfold readMonthDay. intros H Hs.
  destruct (readChar "-" s) as [r0|] eqn:E0.
  - rewrite (readChar_app _ _ _ _ E0).
    destruct (readDigits 2 0 r0) as [[m0 r1]|] eqn:E1; [|discriminate].
    rewrite (readDigits_app _ _ _ _ _ _ E1).
    destruct (readChar "-" r1) as [r1'|] eqn:E2.
    + rewrite (readChar_app _ _ _ _ E2).
      destruct (readDigits 2 0 r1') as [[d0 r2]|] eqn:E3; [|discriminate].
      rewrite (readDigits_app _ _ _ _ _ _ E3).
      injection H as <- <- <-. reflexivity.
    + rewrite readChar_app_None by assumption.
      injection H as <- <- <-. reflexivity.
  - rewrite readChar_app_None by assumption.
    injection H as <- <- <-. reflexivity.
Qed.

(** A date-only string denotes midnight UTC: appending the midnight time
    does not change what it parses to. *)
Lemma parse_midnightZ_dateOnly (s : string) (t : Z) :
  absent "T" s -> isoParse s = Some (Num t) -> parse (midnightZ s) = Num t.
Proof.
  intros Ha H. apply parse_iso. revert H. unfold midnightZ, isoParse.
  destruct (readYear s) as [[y r]|] eqn:Ey; [|discriminate].
  rewrite (readYear_app _ _ "T00:00:00.000Z" _ Ey) by reflexivity.
  pose proof (readYear_absent _ _ _ _ Ey Ha) as Har.
  destruct (readMonthDay r) as [[[m d] r2]|] eqn:Em; [|discriminate].
  rewrite (readMonthDay_app _ _ "T00:00:00.000Z" _ _ Em) by reflexivity.
  pose proof (readMonthDay_absent _ _ _ _ _ Em Har) as Ha2.
  destruct ((1 <=? m) && (m <=? 12) && (1 <=? d) && (d <=? DaysInMonth y m));
    [|discriminate].
  destruct r2 as [|x r2].
  - rewrite append_nil_l. cbn [readChar Ascii.eqb Bool.eqb].
    change (readTime "00:00:00.000Z") with (Some (MakeTime 0 0 0 0, 0)).
    intros [= <-]. do 2 f_equal. unfold MakeDate, MakeTime. lia.
  - destruct Ha2 as [Hx _]. cbn [readChar]. rewrite Hx. discriminate.
Qed.

End DateOnlyFacts.

(* ===================================================================== *)
(** * The Week Boundary Calculator                                        *)
(* ===================================================================== *)

Section WeekBoundary.
Import Time Str JSDate DateUtils.

Context {host : Host}.

Lemma TimeClip_range (x t : Z) :
  TimeClip x = Num t -> x = t /\ - maxTime <= t <= maxTime.
Proof.
  unfold TimeClip. destruct (Z.leb_spec (Z.abs x) maxTime); [|discriminate].
  intros [= <-]. split; [reflexivity|lia].
Qed.

Lemma isoParse_range (s : string) (t : Z) :
  isoParse s = Some (Num t) -> - maxTime <= t <= maxTime.
Proof.
  unfold isoParse.
  repeat match goal with
         | |- context [match ?x with _ => _ end] => destruct x
         end; try discriminate; intros [= H]; apply TimeClip_range in H;
    tauto.
Qed.

Lemma parse_range (s : string) (t : Z) :
  parse s = Num t -> - maxTime <= t <= maxTime.
Proof.
  unfold parse. destruct (isoParse s) as [tv|] eqn:E.
  - intros ->. eapply isoParse_range, E.
  - unfold clip. destruct (parseOther s); [discriminate|].
    intros H. apply TimeClip_range in H. tauto.
Qed.

Lemma getMonday_Date (now t : Z) :
  - maxTime <= t <= maxTime -> firstMondayDay <= Day t ->
  getMonday now (Some (DateArg (Num t)))
  = Returned (dateString (mondayDay (Day t) * msPerDay)).
Proof.
  intros Hr Hlo.
  assert (Hd : - maxTime <= Day t * msPerDay <= maxTime).
  { pose proof (Day_TimeWithinDay t). pose proof (TimeWithinDay_bounds t).
    unfold MakeDate, firstMondayDay, maxTime, msPerDay in *. lia. }
  rewrite (getMonday_parsed now _ (dateString t) (Day t * msPerDay)).
  - rewrite Day_mul. reflexivity.
  - reflexivity.
  - apply formatDate_Date.
  - rewrite parse_midnightZ_dateString by (apply valid_time_year, Hr).
    apply TimeClip_in_range, Hd.
  - rewrite Day_mul. exact Hlo.
  - exact Hd.
Qed.

Lemma getMonday_dateOnly (now : Z) (s : string) (t : Z) :
  absent "T" s -> isoParse s = Some (Num t) -> firstMondayDay <= Day t ->
  getMonday now (Some (StrArg s))
  = Returned (dateString (mondayDay (Day t) * msPerDay)).
Proof.
  intros Ha Hp Hlo.
  apply (getMonday_parsed now _ s t).
  - destruct s; [discriminate Hp|reflexivity].
  - cbn [formatDate]. rewrite first_split_absent by assumption. reflexivity.
  - apply parse_midnightZ_dateOnly; assumption.
  - exact Hlo.
  - eapply isoParse_range; eauto.
Qed.

Lemma isoParse_mondayDay (n : Z) :
  firstMondayDay <= n <= 100000000 ->
  isoParse (dateString (mondayDay n * msPerDay))
  = Some (Num (mondayDay n * msPerDay)).
Proof.
  intros Hn. pose proof (mondayDay_bounds n) as Hb.
  assert (Hlo : firstMondayDay <= mondayDay n).
  { pose proof (mondayDay_mono firstMondayDay n (proj1 Hn)) as H0.
    replace (mondayDay firstMondayDay) with firstMondayDay in H0
      by reflexivity.
    exact H0. }
  assert (Hr : - maxTime <= mondayDay n * msPerDay <= maxTime)
    by (unfold firstMondayDay, maxTime, msPerDay in *; lia).
  rewrite isoParse_dateString by (apply valid_time_year, Hr).
  rewrite Day_mul. f_equal. apply TimeClip_in_range, Hr.
Qed.

Lemma parse_mondayDay (n : Z) :
  firstMondayDay <= n <= 100000000 ->
  parse (dateString (mondayDay n * msPerDay))
  = Num (mondayDay n * msPerDay).
Proof. intros Hn. apply parse_iso, isoParse_mondayDay, Hn. Qed.

Lemma inWeekRange_valid (t : Z) :
  inWeekRange t -> - maxTime <= t <= maxTime /\ firstMondayDay <= Day t.
Proof.
  unfold inWeekRange, firstMondayDay, maxTime, Day, msPerDay. intros H.
  split; [lia|dlia].
Qed.

(** getNextMonday of a week key is the date text seven days later, and
    the upper bound built from it is the midnight of that day. *)
Lemma getNextMonday_weekKey (t : Z) :
  inWeekRange t -> mondayDay (Day t) + 7 <= 100000000 ->
  getNextMonday (weekKey t)
  = Returned (dateString ((mondayDay (Day t) + 7) * msPerDay)) /\
  parse (midnightZ (dateString ((mondayDay (Day t) + 7) * msPerDay)))
  = Num ((mondayDay (Day t) + 7) * msPerDay).
Proof.
  intros Hin Hhi. destruct (inWeekRange_valid _ Hin) as [Hr Hlo].
  pose proof (mondayDay_bounds (Day t)) as Hb.
  assert (Hm : firstMondayDay <= mondayDay (Day t)).
  { pose proof (mondayDay_mono _ _ Hlo) as H0.
    replace (mondayDay firstMondayDay) with firstMondayDay in H0
      by reflexivity.
    exact H0. }
  assert (R1 : - maxTime <= mondayDay (Day t) * msPerDay <= maxTime)
    by (unfold firstMondayDay, maxTime, msPerDay in *; lia).
  assert (R2 : - maxTime <= (mondayDay (Day t) + 7) * msPerDay <= maxTime)
    by (unfold firstMondayDay, maxTime, msPerDay in *; lia).
  split.
  - unfold getNextMonday, weekKey.
    rewrite parse_midnightZ_dateString by (apply valid_time_year, R1).
    rewrite Day_mul, TimeClip_in_range by exact R1.
    rewrite setUTCDate_next_week.
    replace (mondayDay (Day t) * msPerDay + 7 * msPerDay)
      with ((mondayDay (Day t) + 7) * msPerDay) by lia.
    rewrite TimeClip_in_range by exact R2.
    apply formatDate_Date.
  - rewrite parse_midnightZ_dateString by (apply valid_time_year, R2).
    rewrite Day_mul. apply TimeClip_in_range, R2.
Qed.

End WeekBoundary.

(* ===================================================================== *)
(** * Time of day and time zone in getMonday                              *)
(* ===================================================================== *)

Section CalendarDate.
Import Time Str JSDate DateUtils.

Context {host : Host}.

Lemma getMonday_Date_same_day (now t1 t2 : Z) :
  Day t1 = Day t2 ->
  getMonday now (Some (DateArg (Num t1)))
  = getMonday now (Some (DateArg (Num t2))).
Proof.
  intros H. unfold getMonday. cbn [isFalsy].
  rewrite !formatDate_Date, (dateString_Day t1 t2 H). reflexivity.
Qed.

Lemma getMonday_text_before_T (now : Z) (p rest : string) :
  absent "T" p -> p <> EmptyString ->
  getMonday now (Some (StrArg (p ++ String "T" rest)))
  = getMonday now (Some (StrArg p)).
Proof.
  intros Ha Hne. unfold getMonday.
  assert (E1 : isFalsy (Some (StrArg (p ++ String "T" rest))) = false).
  { destruct p; [congruence|reflexivity]. }
  assert (E2 : isFalsy (Some (StrArg p)) = false).
  { destruct p; [congruence|reflexivity]. }
  rewrite E1, E2. cbn [formatDate].
  rewrite first_split_app, first_split_absent by assumption. reflexivity.
Qed.

Lemma getMonday_ISO_string (now t : Z) (iso : string) :
  toISOString (Num t) = Some iso ->
  getMonday now (Some (StrArg iso)) = getMonday now (Some (DateArg (Num t))).
Proof.
  cbn [toISOString]. intros [= <-].
  change (dateString t ++ "T" ++ timeString t)%string
    with (dateString t ++ String "T" (timeString t))%string.
  assert (Hne : dateString t <> EmptyString).
  { unfold dateString, yearString.
    destruct ((0 <=? YearFromTime t) && (YearFromTime t <=? 9999));
      cbn [digits]; rewrite append_cons; discriminate. }
  rewrite getMonday_text_before_T by (apply absent_T_dateString || exact Hne).
  unfold getMonday.
  replace (isFalsy (Some (StrArg (dateString t)))) with false
    by (destruct (dateString t); [congruence|reflexivity]).
  cbn [isFalsy]. rewrite !formatDate_Date.
  replace (formatDate (StrArg (dateString t)))
    with (Returned (A:=string) (dateString t)); [reflexivity|].
  cbn [formatDate].
  rewrite first_split_absent by apply absent_T_dateString. reflexivity.
Qed.

End CalendarDate.

Section OffsetTimestamp.
Import Time Str JSDate DateUtils.

#[local] Existing Instance plainHost.

(** C8, as stated, fails: a full timestamp with a UTC offset is not
    brought to its UTC calendar date.  [offsetTimestamp] is the instant
    2025-09-14T20:00:00Z, a Sunday whose week starts on 2025-09-08, but
    getMonday answers 2025-09-15, the Monday of the date as written. *)
Lemma getMonday_ignores_utc_offset :
  parse offsetTimestamp = Num 1757880000000 /\
  toISOString (parse offsetTimestamp) = Some "2025-09-14T20:00:00.000Z"%string /\
  getMonday 0 (Some (DateArg (parse offsetTimestamp)))
    = Returned "2025-09-08"%string /\
  getMonday 0 (Some (StrArg offsetTimestamp)) = Returned "2025-09-15"%string /\
  getMonday 0 (Some (StrArg offsetTimestamp))
    <> getMonday 0 (Some (DateArg (parse offsetTimestamp))).
Proof.
  repeat split; try (vm_compute; reflexivity).
  vm_compute. discriminate.
Qed.

End OffsetTimestamp.

Section CalendarDateOnly.
Import Time Str JSDate DateUtils.

Context {host : Host}.

(** C8, amended.  getMonday discards the time of day and looks only at a
    calendar date: for a Date object the UTC calendar date of its time
    value; for a string the text before the first "T", as written and
    without time-zone conversion.  For a timestamp in the UTC form that
    toISOString produces both agree. *)
Theorem getMonday_calendar_date_only (now : Z) :
  (forall t1 t2 : Z,
      Day t1 = Day t2 ->
      getMonday now (Some (DateArg (Num t1)))
      = getMonday now (Some (DateArg (Num t2)))) /\
  (forall p rest : string,
      absent "T" p -> p <> EmptyString ->
      getMonday now (Some (StrArg (p ++ String "T" rest)))
      = getMonday now (Some (StrArg p))) /\
  (forall (t : Z) (iso : string),
      toISOString (Num t) = Some iso ->
      getMonday now (Some (StrArg iso))
      = getMonday now (Some (DateArg (Num t)))).
Proof.
  split; [|split].
  - intros. apply getMonday_Date_same_day. assumption.
  - intros. apply getMonday_text_before_T; assumption.
  - intros. apply getMonday_ISO_string. assumption.
Qed.

End CalendarDateOnly.

Section CalendarDateOnlyScenario.
Import Time Str JSDate DateUtils.

#[local] Existing Instance plainHost.

Lemma getMonday_calendar_date_only_witness :
  (Day 1757505600000 = Day 1757548799999 /\
   getMonday 0 (Some (DateArg (Num 1757505600000)))
   = getMonday 0 (Some (DateArg (Num 1757548799999)))) /\
  (absent "T" "2025-09-15" /\ "2025-09-15"%string <> EmptyString /\
   getMonday 0 (Some (StrArg ("2025-09-15" ++ String "T" "01:00:00+05:00")))
   = getMonday 0 (Some (StrArg "2025-09-15"))) /\
  (toISOString (Num 1757505600000) = Some "2025-09-10T12:00:00.000Z"%string /\
   getMonday 0 (Some (StrArg "2025-09-10T12:00:00.000Z"))
   = getMonday 0 (Some (DateArg (Num 1757505600000)))).
Proof.
  pose proof (getMonday_calendar_date_only 0) as [H1 [H2 H3]].
  assert (E1 : Day 1757505600000 = Day 1757548799999) by reflexivity.
  assert (E2 : absent "T" "2025-09-15") by (simpl; tauto).
  assert (E3 : "2025-09-15"%string <> EmptyString) by discriminate.
  assert (E4 : toISOString (Num 1757505600000)
               = Some "2025-09-10T12:00:00.000Z"%string) by reflexivity.
  split; [|split].
  - split; [exact E1|]. exact (H1 _ _ E1).
  - split; [exact E2|]. split; [exact E3|]. exact (H2 _ _ E2 E3).
  - split; [exact E4|]. exact (H3 _ _ E4).
Defined.

End CalendarDateOnlyScenario.

(* ===================================================================== *)
(** * The Monday of the week of a date                                    *)
(* ===================================================================== *)

Section MondayOfWeek.
Import Time Str JSDate DateUtils.

Context {host : Host}.

Lemma isoParse_nonempty (s : string) (tv : jsnum) :
  isoParse s = Some tv -> s <> EmptyString.
Proof. intros H ->. discriminate H. Qed.

(** The Monday of the week of day [Day t0], seen from a time value [t]
    on that day. *)
Lemma monday_of_day (t0 t : Z) :
  inWeekRange t0 -> Day t = Day t0 ->
  let tm := mondayDay (Day t0) * msPerDay in
  parse (dateString tm) = Num tm /\
  WeekDay tm = 1 /\
  TimeWithinDay tm = 0 /\
  tm <= t /\ t - tm < 7 * msPerDay.
Proof.
  intros Hin Hd. cbv zeta.
  destruct (inWeekRange_valid _ Hin) as [Hr Hlo].
  assert (Hday : firstMondayDay <= Day t0 <= 100000000)
    by (split; [assumption|unfold Day, maxTime, msPerDay in *; dlia]).
  pose proof (mondayDay_bounds (Day t0)) as Hb.
  pose proof (Day_TimeWithinDay t) as Ht.
  pose proof (TimeWithinDay_bounds t) as Hw.
  rewrite Hd in Ht.
  repeat split.
  - apply parse_mondayDay, Hday.
  - unfold WeekDay. rewrite Day_mul. apply mondayDay_is_monday.
  - unfold TimeWithinDay, msPerDay. dlia.
  - unfold MakeDate, msPerDay in *. lia.
  - unfold MakeDate, msPerDay in *. lia.
Qed.

(** C7, amended.  For every well-formed date [d] (a Date object, a
    date-only string, or a full timestamp) getMonday returns the text of
    a date that is a Monday, at midnight UTC, not after [t] and less
    than seven days before it, where [t] is: the time value of a Date
    object; the midnight of a date-only string; the instant of a
    timestamp that toISOString produces, or whose instant lies on the
    date written before its "T"; and, for any timestamp, the midnight of
    the date as written. *)
Theorem getMonday_is_monday_of_week (now : Z) (d : DateInput) (t : Z) :
  DateOf d t ->
  exists (m : string) (tm : Z),
    getMonday now (Some d) = Returned m /\
    parse m = Num tm /\
    WeekDay tm = 1 /\
    TimeWithinDay tm = 0 /\
    tm <= t /\ t - tm < 7 * msPerDay.
Proof.
  intros Hd.
  assert (Hex : exists t0 : Z,
             inWeekRange t0 /\ Day t = Day t0 /\
             getMonday now (Some d)
             = Returned (dateString (mondayDay (Day t0) * msPerDay))).
  { destruct Hd as [t Hin|s t Ha Hp Hin|t iso Hin Hiso
                   |p rest t0 t Ha Hp Hin Hpt Hday|p rest t Ha Hp Hin].
    - exists t. destruct (inWeekRange_valid _ Hin) as [Hr Hlo].
      split; [exact Hin|]. split; [reflexivity|].
      apply getMonday_Date; assumption.
    - exists t. destruct (inWeekRange_valid _ Hin) as [Hr Hlo].
      split; [exact Hin|]. split; [reflexivity|].
      apply getMonday_dateOnly; assumption.
    - exists t. destruct (inWeekRange_valid _ Hin) as [Hr Hlo].
      split; [exact Hin|]. split; [reflexivity|].
      rewrite (getMonday_ISO_string now t iso Hiso).
      apply getMonday_Date; assumption.
    - exists t0. destruct (inWeekRange_valid _ Hin) as [Hr Hlo].
      split; [exact Hin|]. split; [exact Hday|].
      rewrite getMonday_text_before_T
        by (assumption || eapply isoParse_nonempty; eassumption).
      apply getMonday_dateOnly; assumption.
    - exists t. destruct (inWeekRange_valid _ Hin) as [Hr Hlo].
      split; [exact Hin|]. split; [reflexivity|].
      rewrite getMonday_text_before_T
        by (assumption || eapply isoParse_nonempty; eassumption).
      apply getMonday_dateOnly; assumption. }
  destruct Hex as (t0 & Hin & Hday & Hm).
  exists (dateString (mondayDay (Day t0) * msPerDay)),
         (mondayDay (Day t0) * msPerDay).
  split; [exact Hm|]. exact (monday_of_day t0 t Hin Hday).
Qed.

End MondayOfWeek.

Section MondayOfWeekScenarios.
Import Time Str JSDate DateUtils.

#[local] Existing Instance plainHost.

(** C7, as stated, fails for a timestamp with a UTC offset:
    [offsetTimestamp] is the instant 2025-09-14T20:00:00Z, whose UTC
    calendar date is 14 September, and getMonday answers 2025-09-15,
    the day after. *)
Lemma getMonday_after_utc_date :
  parse offsetTimestamp = Num 1757880000000 /\
  toISOString (Num 1757880000000) = Some "2025-09-14T20:00:00.000Z"%string /\
  getMonday 0 (Some (StrArg offsetTimestamp)) = Returned "2025-09-15"%string /\
  ~ (exists (m : string) (tm : Z),
        getMonday 0 (Some (StrArg offsetTimestamp)) = Returned m /\
        parse m = Num tm /\
        Day tm <= Day 1757880000000).
Proof.
  split; [vm_compute; reflexivity|]. split; [vm_compute; reflexivity|].
  split; [vm_compute; reflexivity|].
  intros (m & tm & Hm & Hp & Hle).
  vm_compute in Hm. injection Hm as <-.
  vm_compute in Hp. injection Hp as <-.
  vm_compute in Hle. apply Hle. reflexivity.
Qed.

Lemma getMonday_is_monday_of_week_witness :
  (DateOf (StrArg "2025-09-18") 1758153600000 /\
   exists (m : string) (tm : Z),
     getMonday 0 (Some (StrArg "2025-09-18")) = Returned m /\
     parse m = Num tm /\
     WeekDay tm = 1 /\
     TimeWithinDay tm = 0 /\
     tm <= 1758153600000 /\ 1758153600000 - tm < 7 * msPerDay) /\
  (DateOf (StrArg ("2025-09-18" ++ String "T" "07:00:00Z")) 1758178800000 /\
   exists (m : string) (tm : Z),
     getMonday 0 (Some (StrArg "2025-09-18T07:00:00Z")) = Returned m /\
     parse m = Num tm /\
     WeekDay tm = 1 /\
     TimeWithinDay tm = 0 /\
     tm <= 1758178800000 /\ 1758178800000 - tm < 7 * msPerDay) /\
  (DateOf (StrArg ("2025-09-15" ++ String "T" "01:00:00+05:00"))
          1757894400000 /\
   exists (m : string) (tm : Z),
     getMonday 0 (Some (StrArg offsetTimestamp)) = Returned m /\
     parse m = Num tm /\
     WeekDay tm = 1 /\
     TimeWithinDay tm = 0 /\
     tm <= 1757894400000 /\ 1757894400000 - tm < 7 * msPerDay) /\
  (DateOf (StrArg "2025-09-10T12:00:00.000Z") 1757505600000 /\
   exists (m : string) (tm : Z),
     getMonday 0 (Some (StrArg "2025-09-10T12:00:00.000Z")) = Returned m /\
     parse m = Num tm /\
     WeekDay tm = 1 /\
     TimeWithinDay tm = 0 /\
     tm <= 1757505600000 /\ 1757505600000 - tm < 7 * msPerDay).
Proof.
  assert (R1 : inWeekRange 1758153600000) by (vm_compute; split; discriminate).
  assert (R3 : inWeekRange 1757894400000) by (vm_compute; split; discriminate).
  assert (H1 : DateOf (StrArg "2025-09-18") 1758153600000).
  { apply date_of_string; [simpl; tauto|reflexivity|exact R1]. }
  assert (H2 : DateOf (StrArg ("2025-09-18" ++ String "T" "07:00:00Z"))
                      1758178800000).
  { apply (date_of_timestamp "2025-09-18" "07:00:00Z" 1758153600000);
      [simpl; tauto|reflexivity|exact R1|reflexivity|reflexivity]. }
  assert (H3 : DateOf (StrArg ("2025-09-15" ++ String "T" "01:00:00+05:00"))
                      1757894400000).
  { apply date_as_written; [simpl; tauto|reflexivity|exact R3]. }
  assert (H4 : DateOf (StrArg "2025-09-10T12:00:00.000Z") 1757505600000).
  { apply date_of_iso_string; [vm_compute; split; discriminate|reflexivity]. }
  split; [|split; [|split]].
  - split; [exact H1|]. exact (getMonday_is_monday_of_week 0 _ _ H1).
  - split; [exact H2|]. exact (getMonday_is_monday_of_week 0 _ _ H2).
  - split; [exact H3|]. exact (getMonday_is_monday_of_week 0 _ _ H3).
  - split; [exact H4|]. exact (getMonday_is_monday_of_week 0 _ _ H4).
Defined.

End MondayOfWeekScenarios.

(* ===================================================================== *)
(** * Scenarios                                                           *)
(* ===================================================================== *)

Section Scenarios.
Import Time Str JSDate DateUtils.

Context {host : Host}.



(** The loop over the Mondays does not depend on the fuel, once there is
    enough of it; [weeksFuel] is enough. *)
Lemma mondaysLoop_fuel (fuel1 : nat) :
  forall (fuel2 : nat) (current endDate : jsnum),
    enoughFuel fuel1 current endDate -> enoughFuel fuel2 current endDate ->
    StarsCharts.mondaysLoop fuel1 current endDate
    = StarsCharts.mondaysLoop fuel2 current endDate.
Proof.
  induction fuel1 as [|f1 IH]; intros fuel2 current endDate H1 H2.
  - destruct fuel2 as [|f2]; [reflexivity|]. cbn [StarsCharts.mondaysLoop].
    destruct current as [|c], endDate as [|e]; try reflexivity.
    cbn [le]. destruct (Z.leb_spec c e) as [Hle|]; [|reflexivity].
    cbn [enoughFuel] in H1. specialize (H1 Hle).
    unfold msPerDay in H1. dlia.
  - destruct fuel2 as [|f2]; cbn [StarsCharts.mondaysLoop].
    + destruct current as [|c], endDate as [|e]; try reflexivity.
      cbn [le]. destruct (Z.leb_spec c e) as [Hle|]; [|reflexivity].
      cbn [enoughFuel] in H2. specialize (H2 Hle).
      unfold msPerDay in H2. dlia.
    + destruct current as [|c], endDate as [|e]; try reflexivity.
      cbn [le]. destruct (Z.leb_spec c e) as [Hle|]; [|reflexivity].
      rewrite formatDate_Date. cbn [bind].
      rewrite setUTCDate_next_week.
      rewrite (IH f2 (TimeClip (c + 7 * msPerDay)) (Num e)); [reflexivity| |].
      * cbn [enoughFuel] in H1. specialize (H1 Hle).
        unfold TimeClip. destruct (_ <=? _); [|exact I].
        cbn [enoughFuel]. intros Hc. unfold msPerDay in *. dlia.
      * cbn [enoughFuel] in H2. specialize (H2 Hle).
        unfold TimeClip. destruct (_ <=? _); [|exact I].
        cbn [enoughFuel]. intros Hc. unfold msPerDay in *. dlia.
Qed.

Lemma weeksFuel_enough (current endDate : jsnum) :
  enoughFuel (StarsCharts.weeksFuel current endDate) current endDate.
Proof.
  destruct current as [|c], endDate as [|e]; try exact I.
  cbn [enoughFuel StarsCharts.weeksFuel]. intros Hle.
  unfold msPerDay. dlia.
Qed.

End Scenarios.

Section EarlierRevisionScenarios.
Import Time Str JSDate DateUtils.

#[local] Existing Instance plainHost.


(** C5.  The earlier revision sorts the filtered events with [sort()],
    without a comparator: by the text of the dates, which starts with
    the name of the weekday.  On a host in UTC, of the two events
    2025-09-10T08:00:00Z and 2025-09-18T08:00:00Z, both before the upper
    bound of the week of 2025-09-15, the later one ("Thu Sep 18 ...")
    comes before the earlier one ("Wed Sep 10 ..."): the filtered events
    are not in ascending order of their timestamps.  src/stars.js, with
    its comparator, has them in ascending order. *)
Theorem earlier_sort_is_by_text :
  let earlier := mkDate 0 (parse "2025-09-10T08:00:00Z") in
  let later := mkDate 1 (parse "2025-09-18T08:00:00Z") in
  let upperBound := parse (midnightZ "2025-09-22") in
  StarsCharts.toStringUTC (timeValue earlier)
  = "Wed Sep 10 2025 08:00:00 GMT+0000 (Coordinated Universal Time)"%string /\
  StarsCharts.toStringUTC (timeValue later)
  = "Thu Sep 18 2025 08:00:00 GMT+0000 (Coordinated Universal Time)"%string /\
  lt (timeValue earlier) (timeValue later) = true /\
  StarsCharts.filteredStargazers StarsCharts.toStringUTC [earlier; later]
    upperBound
  = [later; earlier] /\
  Stars.filteredStargazers [earlier; later] upperBound = [earlier; later].
Proof. cbv zeta. repeat split; vm_compute; reflexivity. Qed.

End EarlierRevisionScenarios.

Section MergerAsStated.
Import Time Str JSDate DateUtils.

#[local] Existing Instance plainHost.

(** C3, as stated, fails: for A = {W1:1, W3:3} the merger does not
    produce the totals [1,1,3] and the final total 3. *)
Lemma merger_scenario_not_as_stated :
  ~ exists c : Charts,
      StarsCharts.generateChartsMarkdown scenarioAB = Returned c /\
      labels c = ["2025-09-08"; "2025-09-15"; "2025-09-22"]%string /\
      map data (series c) = [[1; 1; 3]; [0; 2; 2]] /\
      map totalStars (summaries c) = [3; 2].
Proof.
  intros [c [Hc [_ [Hd _]]]].
  vm_compute in Hc. injection Hc as <-. vm_compute in Hd. discriminate Hd.
Qed.

End MergerAsStated.

Section MergerScenario.
Import Time Str JSDate DateUtils.

Context {host : Host}.

(** C3, amended.  For A = {W1:1, W3:3} and B = {W2:2} the merger produces
    the contiguous axis [W1, W2, W3] and adds each stored value to the
    running total of its resource as that week's increment: A = [1,1,4],
    B = [0,2,2], final totals A = 4 and B = 2. *)
Theorem merger_scenario :
  StarsCharts.generateChartsMarkdown scenarioAB
  = Returned
      (mkCharts
         ["2025-09-08"; "2025-09-15"; "2025-09-22"]%string
         [mkSeries "A" [1; 1; 4]; mkSeries "B" [0; 2; 2]]
         [mkSummary "A" 4 2 (Some "2025-09-08"%string)
                    (Some "2025-09-22"%string);
          mkSummary "B" 2 1 (Some "2025-09-15"%string)
                    (Some "2025-09-15"%string)]).
Proof. vm_compute. reflexivity. Qed.

End MergerScenario.

(* ===================================================================== *)
(** * Sorting                                                             *)
(* ===================================================================== *)

Section SortFacts.
Import JSDate JSArray.

Context {host : Host}.

Variable A : Type.
Variable comparefn : A -> A -> jsnum.

Lemma insert_Permutation (x : A) (l : list A) :
  Permutation (insert comparefn x l) (x :: l).
Proof.
  induction l as [|y l IH]; cbn [insert]; [reflexivity|].
  destruct (positive (comparefn x y)); [|reflexivity].
  rewrite IH. apply perm_swap.
Qed.

Lemma sort_Permutation (l : list A) : Permutation (sort comparefn l) l.
Proof.
  induction l as [|x l IH]; cbn [sort fold_right]; [reflexivity|].
  fold (sort comparefn l). rewrite insert_Permutation, IH. reflexivity.
Qed.

Lemma sort_length (l : list A) : length (sort comparefn l) = length l.
Proof. apply Permutation_length, sort_Permutation. Qed.

(** Inserting [x] moves it only past elements it is after: the elements
    selected by a test that rejects those keep their order with [x]. *)
Lemma insert_filter (p : A -> bool) (x : A) (l : list A) :
  (forall y, p x = true -> positive (comparefn x y) = true -> p y = false) ->
  List.filter p (insert comparefn x l) = List.filter p (x :: l).
Proof.
  intros Hp. induction l as [|y l IH]; cbn [insert]; [reflexivity|].
  destruct (positive (comparefn x y)) eqn:E; [|reflexivity].
  cbn [List.filter] in *. rewrite IH.
  destruct (p x) eqn:Ex; [|reflexivity].
  rewrite (Hp y eq_refl E). reflexivity.
Qed.

End SortFacts.

Section SortByTime.
Import JSDate JSArray Stars.

Context {host : Host}.

Lemma positive_byTime (a b : DateObject) :
  positive (byTime a b) = lt (timeValue b) (timeValue a).
Proof.
  unfold byTime, getTime, sub, positive, lt.
  destruct (timeValue a), (timeValue b); try reflexivity.
  destruct (Z.ltb_spec 0 (z - z0)), (Z.ltb_spec z0 z); lia || reflexivity.
Qed.

Lemma eventsAt_sort (tv : jsnum) (l : list DateObject) :
  eventsAt tv (sort byTime l) = eventsAt tv l.
Proof.
  induction l as [|x l IH]; [reflexivity|].
  cbn [sort fold_right]. fold (sort byTime l).
  unfold eventsAt in *. rewrite insert_filter.
  - cbn [List.filter]. rewrite IH. reflexivity.
  - intros y Hx Hpos. rewrite positive_byTime in Hpos.
    destruct (jsnum_eq_dec (timeValue x) tv) as [Ex|]; [|discriminate].
    destruct (jsnum_eq_dec (timeValue y) tv) as [Ey|]; [|reflexivity].
    rewrite Ex, Ey in Hpos. unfold lt in Hpos.
    destruct tv; [discriminate|]. apply Z.ltb_lt in Hpos. lia.
Qed.

Lemma notAfter_intro (a b : DateObject) (ta tb : Z) :
  timeValue a = Num ta -> timeValue b = Num tb -> ta <= tb -> notAfter a b.
Proof.
  unfold notAfter. intros -> -> H. cbn [le]. apply Z.leb_le, H.
Qed.

Lemma notAfter_elim (a b : DateObject) :
  notAfter a b ->
  exists ta tb, timeValue a = Num ta /\ timeValue b = Num tb /\ ta <= tb.
Proof.
  unfold notAfter. destruct (timeValue a) as [|ta]; [discriminate|].
  destruct (timeValue b) as [|tb]; [discriminate|].
  cbn [le]. intros H. apply Z.leb_le in H. eauto.
Qed.

Lemma insert_sorted (x : DateObject) (l : list DateObject) :
  hasTime x -> Forall hasTime l ->
  StronglySorted notAfter l ->
  StronglySorted notAfter (insert byTime x l).
Proof.
  intros Hx Hl Hs. induction Hs as [|y l Hs IH Hy]; cbn [insert].
  - constructor; constructor.
  - apply List.Forall_cons_iff in Hl as [Hty Hl].
    specialize (IH Hl).
    rewrite positive_byTime.
    destruct (timeValue x) as [|tx] eqn:Ex; [contradiction Hx; exact Ex|].
    destruct (timeValue y) as [|ty] eqn:Ey; [contradiction Hty; exact Ey|].
    cbn [lt]. destruct (Z.ltb_spec ty tx) as [Hlt|Hge].
    + apply SSorted_cons; [exact IH|].
      eapply Permutation_Forall;
        [symmetry; apply insert_Permutation|].
      apply List.Forall_cons; [|exact Hy].
      apply (notAfter_intro y x ty tx); auto; lia.
    + apply SSorted_cons; [apply SSorted_cons; assumption|].
      apply List.Forall_cons.
      * apply (notAfter_intro x y tx ty); auto.
      * eapply List.Forall_impl; [|exact Hy].
        intros z Hz. apply notAfter_elim in Hz as (ty' & tz & E1 & E2 & Hle).
        rewrite Ey in E1. injection E1 as <-.
        apply (notAfter_intro x z tx tz); auto; lia.
Qed.

Lemma sort_sorted (l : list DateObject) :
  Forall hasTime l -> StronglySorted notAfter (sort byTime l).
Proof.
  induction l as [|x l IH]; intros H; cbn [sort fold_right].
  - constructor.
  - apply List.Forall_cons_iff in H as [Hx Hl].
    fold (sort byTime l). apply insert_sorted; auto.
    eapply Permutation_Forall; [symmetry; apply sort_Permutation|].
    assumption.
Qed.

Lemma kept_hasTime (upperBound : jsnum) (l : list DateObject) :
  Forall hasTime (List.filter (fun star => lt (timeValue star) upperBound) l).
Proof.
  apply List.Forall_forall. intros d Hd. apply filter_In in Hd as [_ Hd].
  unfold hasTime. destruct (timeValue d); [discriminate|congruence].
Qed.

(** X26. In src/stars.js the aggregator's filteredStargazers holds the
    events before the upper bound, in ascending order of their
    timestamps, and events with the same timestamp are in the order they
    had in the fetched array. *)
Theorem filteredStargazers_sorted_stable
  (stargazers : list DateObject) (upperBound : jsnum) :
  let kept := List.filter (fun star => lt (timeValue star) upperBound) stargazers in
  let sorted := filteredStargazers stargazers upperBound in
  Permutation sorted kept /\
  StronglySorted notAfter sorted /\
  (forall tv : jsnum, eventsAt tv sorted = eventsAt tv kept).
Proof.
  cbv zeta. unfold filteredStargazers. split; [|split].
  - apply sort_Permutation.
  - apply sort_sorted, kept_hasTime.
  - intros tv. apply eventsAt_sort.
Qed.

End SortByTime.

(* ===================================================================== *)
(** * Objects                                                             *)
(* ===================================================================== *)

Section ObjFacts.

Context {host : Host}.
Variable V : Type.
Implicit Types (o : Obj.t V) (k : string) (v : V).

Lemma get_set_eq k v o : Obj.get k (Obj.set k v o) = Some v.
Proof.
  induction o as [|[k' v'] o IH]; cbn [Obj.set Obj.get].
  - rewrite String.eqb_refl. reflexivity.
  - destruct (String.eqb k' k) eqn:E; cbn [Obj.get]; rewrite E; auto.
Qed.

Lemma get_set_ne k k' v o :
  k' <> k -> Obj.get k' (Obj.set k v o) = Obj.get k' o.
Proof.
  intros Hne. induction o as [|[k0 v0] o IH]; cbn [Obj.set Obj.get].
  - destruct (String.eqb_spec k k'); [congruence|reflexivity].
  - destruct (String.eqb_spec k0 k) as [->|]; cbn [Obj.get].
    + destruct (String.eqb_spec k k'); [congruence|reflexivity].
    + destruct (String.eqb k0 k'); auto.
Qed.

Lemma In_set k v k' v' o :
  In (k', v') (Obj.set k v o) -> (k' = k /\ v' = v) \/ In (k', v') o.
Proof.
  induction o as [|[k0 v0] o IH]; cbn [Obj.set].
  - intros [[= <- <-]|[]]. auto.
  - destruct (String.eqb_spec k0 k) as [->|].
    + intros [[= <- <-]|H]; [auto|right; right; exact H].
    + intros [[= <- <-]|H]; [right; left; reflexivity|].
      destruct (IH H); [auto|right; right; assumption].
Qed.

Lemma In_keys k v o : In (k, v) o -> In k (Obj.keys o).
Proof. intros H. apply (in_map fst) in H. exact H. Qed.

Lemma get_In k v o : Obj.get k o = Some v -> In (k, v) o.
Proof.
  induction o as [|[k0 v0] o IH]; cbn [Obj.get]; [discriminate|].
  destruct (String.eqb_spec k0 k) as [->|].
  - intros [= ->]. left. reflexivity.
  - intros H. right. auto.
Qed.

Lemma get_None_keys k o : Obj.get k o = None -> ~ In k (Obj.keys o).
Proof.
  induction o as [|[k0 v0] o IH]; cbn [Obj.get Obj.keys map fst];
    [tauto|].
  destruct (String.eqb_spec k0 k) as [->|]; [discriminate|].
  intros H [E|Hin]; [congruence|]. exact (IH H Hin).
Qed.

(** Assigning to a property that exists keeps the order of the
    properties; assigning to a new one appends it. *)
Lemma keys_set k v o :
  Obj.keys (Obj.set k v o) =
  match Obj.get k o with
  | Some _ => Obj.keys o
  | None => Obj.keys o ++ [k]
  end.
Proof.
  induction o as [|[k0 v0] o IH]; cbn [Obj.set Obj.get]; [reflexivity|].
  destruct (String.eqb_spec k0 k) as [->|]; [reflexivity|].
  unfold Obj.keys in *. cbn [map fst]. rewrite IH.
  destruct (Obj.get k o); reflexivity.
Qed.

Lemma NoDup_keys_set k v o :
  List.NoDup (Obj.keys o) -> List.NoDup (Obj.keys (Obj.set k v o)).
Proof.
  intros H. rewrite keys_set. destruct (Obj.get k o) eqn:E; [exact H|].
  apply List.NoDup_app; [exact H|repeat constructor; intros []|].
  intros x Hx [<-|[]]. exact (get_None_keys _ _ E Hx).
Qed.

Lemma NoDup_keys_functional k v1 v2 o :
  List.NoDup (Obj.keys o) -> In (k, v1) o -> In (k, v2) o -> v1 = v2.
Proof.
  induction o as [|[k0 v0] o IH]; [intros _ []|].
  unfold Obj.keys. cbn [map fst]. intros Hnd.
  apply List.NoDup_cons_iff in Hnd as [Hni Hnd].
  intros [E1|H1] [E2|H2].
  - congruence.
  - injection E1 as -> ->. exfalso. apply Hni. eapply In_keys; eauto.
  - injection E2 as -> ->. exfalso. apply Hni. eapply In_keys; eauto.
  - exact (IH Hnd H1 H2).
Qed.

End ObjFacts.

(* ===================================================================== *)
(** * The Cumulative Aggregator (src/stars.js)                            *)
(* ===================================================================== *)

Section AggregatorFacts.
Import Time Str JSDate DateUtils JSArray Stars.

Context {host : Host}.

(** Before the first representable Monday getMonday throws; when it
    returns, it returns the key of the week. *)
Lemma getMonday_Date_inv (now t : Z) (k : string) :
  - maxTime <= t <= maxTime ->
  getMonday now (Some (DateArg (Num t))) = Returned k ->
  firstMondayDay <= Day t /\ k = weekKey t.
Proof.
  intros Hr H.
  destruct (Z.le_gt_cases firstMondayDay (Day t)) as [Hlo|Hlo].
  - rewrite getMonday_Date in H by assumption.
    injection H as <-. split; [assumption|reflexivity].
  - exfalso. revert H. unfold getMonday. cbn [isFalsy].
    rewrite formatDate_Date. cbn [bind].
    rewrite parse_midnightZ_dateString by (apply valid_time_year, Hr).
    assert (Hd : -100000000 <= Day t)
      by (unfold Day, maxTime, msPerDay in *; dlia).
    rewrite TimeClip_in_range
      by (unfold firstMondayDay, maxTime, msPerDay in *; lia).
    rewrite walk_back_to_monday, Day_mul.
    replace (TimeWithinDay (Day t * msPerDay)) with 0
      by (unfold TimeWithinDay, msPerDay; dlia).
    assert (Hm : mondayDay (Day t) < -100000000)
      by (unfold mondayDay, firstMondayDay in *; dlia).
    unfold TimeClip, MakeDate.
    destruct (Z.leb_spec (Z.abs (mondayDay (Day t) * msPerDay + 0)) maxTime);
      [unfold maxTime, msPerDay in *; lia|].
    cbn [formatDate toISOString]. discriminate.
Qed.

Lemma weekKey_isoParse (t : Z) :
  - maxTime <= t <= maxTime -> firstMondayDay <= Day t ->
  isoParse (weekKey t) = Some (Num (mondayDay (Day t) * msPerDay)).
Proof.
  intros Hr Hlo. unfold weekKey. apply isoParse_mondayDay.
  split; [assumption|unfold Day, maxTime, msPerDay in *; dlia].
Qed.

Lemma weekKey_parse (t : Z) :
  - maxTime <= t <= maxTime -> firstMondayDay <= Day t ->
  parse (weekKey t) = Num (mondayDay (Day t) * msPerDay).
Proof. intros Hr Hlo. apply parse_iso, weekKey_isoParse; assumption. Qed.

Lemma cumulativeLoop_app (now i : Z) (a b : list DateObject) (c : Obj.t Z) :
  cumulativeLoop now i (a ++ b) c =
  try! c1 := cumulativeLoop now i a c in
  cumulativeLoop now (i + Z.of_nat (length a)) b c1.
Proof.
  revert i c. induction a as [|x a IH]; intros i c.
  - cbn [app cumulativeLoop bind length].
    replace (i + Z.of_nat 0) with i by lia. reflexivity.
  - cbn [app cumulativeLoop length].
    destruct (getMonday now (Some (DateArg (timeValue x)))) as [k|e];
      cbn [bind]; [|reflexivity].
    rewrite IH.
    replace (i + Z.of_nat (S (length a))) with (i + 1 + Z.of_nat (length a))
      by lia.
    reflexivity.
Qed.


Lemma cumulativeLoop_NoDup (now : Z) (stars : list DateObject) :
  forall (i : Z) (c c' : Obj.t Z),
    cumulativeLoop now i stars c = Returned c' ->
    List.NoDup (Obj.keys c) -> List.NoDup (Obj.keys c').
Proof.
  induction stars as [|x stars IH]; intros i c c' H Hnd.
  - injection H as <-. exact Hnd.
  - cbn [cumulativeLoop] in H.
    destruct (getMonday now (Some (DateArg (timeValue x)))) as [k0|e];
      cbn [bind] in H; [|discriminate].
    eapply IH; [exact H|]. apply NoDup_keys_set, Hnd.
Qed.

(** The key of the last event holds the count of all events. *)
Lemma cumulativeLoop_last (now i : Z) (init : list DateObject)
  (last : DateObject) (c c' : Obj.t Z) :
  cumulativeLoop now i (init ++ [last]) c = Returned c' ->
  exists k,
    getMonday now (Some (DateArg (timeValue last))) = Returned k /\
    Obj.get k c' = Some (i + Z.of_nat (length (init ++ [last]))).
Proof.
  rewrite cumulativeLoop_app.
  destruct (cumulativeLoop now i init c) as [c1|e]; cbn [bind];
    [|discriminate].
  cbn [cumulativeLoop].
  destruct (getMonday now (Some (DateArg (timeValue last)))) as [k|e];
    cbn [bind]; [|discriminate].
  intros [= <-]. exists k. split; [reflexivity|].
  rewrite get_set_eq, length_app. cbn [length]. f_equal. lia.
Qed.

(** What generateCumulativeData computes when it gets past its guards. *)
Lemma generateCumulativeData_unfold (now : Z) (stargazers : list DateObject)
  (finalWeek finalMonday : string) :
  getNextMonday finalWeek = Returned finalMonday ->
  generateCumulativeData now stargazers finalWeek =
  cumulativeLoop now 0
    (filteredStargazers stargazers (parse (midnightZ finalMonday)))
    Obj.empty.
Proof.
  intros Hn. unfold generateCumulativeData.
  destruct stargazers as [|s0 rest] eqn:Es.
  - reflexivity.
  - cbn [length Nat.eqb]. rewrite Hn. cbn [bind].
    destruct (filteredStargazers (s0 :: rest) (parse (midnightZ finalMonday)));
      reflexivity.
Qed.


Lemma filteredStargazers_valid (stargazers : list DateObject)
  (upperBound : jsnum) :
  Forall validDate stargazers ->
  Forall validDate (filteredStargazers stargazers upperBound).
Proof.
  intros H. unfold filteredStargazers.
  eapply Permutation_Forall; [symmetry; apply sort_Permutation|].
  rewrite List.Forall_forall in *. intros d Hd.
  apply filter_In in Hd as [Hd _]. auto.
Qed.

End AggregatorFacts.

Section AggregatorProperties.
Import Time Str JSDate DateUtils JSArray Stars.

Context {host : Host}.

Lemma generateCumulativeData_cases (now : Z) (stargazers : list DateObject)
  (finalWeek : string) (series : Obj.t Z) :
  generateCumulativeData now stargazers finalWeek = Returned series ->
  series = Obj.empty \/
  exists finalMonday,
    getNextMonday finalWeek = Returned finalMonday /\
    cumulativeLoop now 0
      (filteredStargazers stargazers (parse (midnightZ finalMonday)))
      Obj.empty = Returned series.
Proof.
  unfold generateCumulativeData.
  destruct (length stargazers =? 0)%nat; [intros [= <-]; auto|].
  destruct (getNextMonday finalWeek) as [fm|e]; cbn [bind]; [|discriminate].
  destruct (length (filteredStargazers _ _) =? 0)%nat;
    [intros [= <-]; auto|].
  intros H. right. exists fm. auto.
Qed.



End AggregatorProperties.

Section HalfOpenWindow.
Import Time Str JSDate DateUtils JSArray Stars.

Context {host : Host}.

Lemma filter_before_eventsNotAt (ub : Z) (l : list DateObject) :
  List.filter (fun star => lt (timeValue star) (Num ub))
              (eventsNotAt (Num ub) l)
  = List.filter (fun star => lt (timeValue star) (Num ub)) l.
Proof.
  unfold eventsNotAt. induction l as [|x l IH]; [reflexivity|].
  cbn [List.filter].
  destruct (jsnum_eq_dec (timeValue x) (Num ub)) as [E|E].
  - rewrite E. cbn [lt]. rewrite Z.ltb_irrefl. exact IH.
  - cbn [List.filter]. rewrite IH. reflexivity.
Qed.

Lemma StronglySorted_last (R : DateObject -> DateObject -> Prop)
  (init : list DateObject) (last x : DateObject) :
  StronglySorted R (init ++ [last]) -> In x init -> R x last.
Proof.
  induction init as [|y init IH]; [intros _ []|].
  cbn [app]. intros Hs [->|Hx].
  - apply StronglySorted_inv in Hs as [_ Hf].
    rewrite List.Forall_forall in Hf. apply Hf, in_or_app.
    right. left. reflexivity.
  - apply StronglySorted_inv in Hs as [Hs _]. auto.
Qed.

(** C6. The window of the aggregator is half-open.  With [ub] the time
    value of the upper bound (midnight of the Monday after the reference
    week): an event at [ub] is not among the filtered events, an event is
    among them exactly when it is earlier than [ub], and taking the
    events at [ub] out of the input leaves the series as it is; an event
    one millisecond before [ub] is among the filtered events, and the key
    of its week holds the count of all events before [ub]. *)
Theorem window_is_half_open (now : Z) (stargazers : list DateObject)
  (finalWeek finalMonday : string) (ub : Z) (series : Obj.t Z) :
  getNextMonday finalWeek = Returned finalMonday ->
  parse (midnightZ finalMonday) = Num ub ->
  generateCumulativeData now stargazers finalWeek = Returned series ->
  (forall star, timeValue star = Num ub ->
     ~ In star (filteredStargazers stargazers (Num ub))) /\
  (forall star t, In star stargazers -> timeValue star = Num t ->
     (In star (filteredStargazers stargazers (Num ub)) <-> t < ub)) /\
  generateCumulativeData now (eventsNotAt (Num ub) stargazers) finalWeek
    = Returned series /\
  (forall star, In star stargazers -> timeValue star = Num (ub - 1) ->
     In star (filteredStargazers stargazers (Num ub)) /\
     exists k,
       getMonday now (Some (DateArg (Num (ub - 1)))) = Returned k /\
       Obj.get k series =
       Some (Z.of_nat
               (length (List.filter
                          (fun s => lt (timeValue s) (Num ub)) stargazers)))).
Proof.
  intros Hfm Hub Hgen.
  assert (Hperm : forall l,
             Permutation (filteredStargazers l (Num ub))
               (List.filter (fun s => lt (timeValue s) (Num ub)) l))
    by (intros l; apply sort_Permutation).
  split; [|split; [|split]].
  - intros star Ht Hin.
    apply (Permutation_in _ (Hperm stargazers)) in Hin.
    apply filter_In in Hin as [_ Hlt].
    rewrite Ht in Hlt. cbn [lt] in Hlt. rewrite Z.ltb_irrefl in Hlt.
    discriminate.
  - intros star t Hin Ht. split.
    + intros Hf. apply (Permutation_in _ (Hperm stargazers)) in Hf.
      apply filter_In in Hf as [_ Hlt].
      rewrite Ht in Hlt. cbn [lt] in Hlt. apply Z.ltb_lt, Hlt.
    + intros Hlt.
      apply (Permutation_in _ (Permutation_sym (Hperm stargazers))).
      apply filter_In. split; [exact Hin|].
      rewrite Ht. cbn [lt]. apply Z.ltb_lt, Hlt.
  - rewrite <- Hgen.
    rewrite !(generateCumulativeData_unfold _ _ _ _ Hfm), Hub.
    unfold filteredStargazers. rewrite filter_before_eventsNotAt.
    reflexivity.
  - intros star Hin Ht.
    assert (Hf : In star (filteredStargazers stargazers (Num ub))).
    { apply (Permutation_in _ (Permutation_sym (Hperm stargazers))).
      apply filter_In. split; [exact Hin|].
      rewrite Ht. cbn [lt]. apply Z.ltb_lt. lia. }
    split; [exact Hf|].
    rewrite (generateCumulativeData_unfold _ _ _ _ Hfm), Hub in Hgen.
    rewrite <- (Permutation_length (Hperm stargazers)).
    pose proof (sort_sorted _ (kept_hasTime (Num ub) stargazers)) as Hs.
    fold (filteredStargazers stargazers (Num ub)) in Hs.
    destruct (exists_last (l := filteredStargazers stargazers (Num ub)))
      as (init & last & Hl).
    { intros E. rewrite E in Hf. destruct Hf. }
    rewrite Hl in *.
    destruct (cumulativeLoop_last _ _ _ _ _ _ Hgen) as (k & Hk & Hget).
    assert (Hlast : timeValue last = Num (ub - 1)).
    { assert (Hlt : lt (timeValue last) (Num ub) = true).
      { assert (Hlin : In last (init ++ [last]))
          by (apply in_or_app; right; left; reflexivity).
        rewrite <- Hl in Hlin.
        apply (Permutation_in _ (Hperm stargazers)) in Hlin.
        apply filter_In in Hlin. tauto. }
      apply in_app_or in Hf as [Hinit|[->|[]]]; [|exact Ht].
      pose proof (StronglySorted_last _ _ _ _ Hs Hinit) as Hna.
      apply notAfter_elim in Hna as (a & b & Ea & Eb & Hab).
      rewrite Ht in Ea. injection Ea as <-.
      rewrite Eb in *. cbn [lt] in Hlt. apply Z.ltb_lt in Hlt.
      f_equal. lia. }
    exists k. rewrite <- Hlast. split; [exact Hk|].
    rewrite Hget. reflexivity.
Qed.

End HalfOpenWindow.

Section HalfOpenWindowScenario.
Import Time Str JSDate DateUtils JSArray Stars.

#[local] Existing Instance plainHost.

Lemma window_is_half_open_witness :
  getNextMonday "2025-09-15" = Returned "2025-09-22"%string /\
  parse (midnightZ "2025-09-22") = Num 1758499200000 /\
  generateCumulativeData 0 boundaryEvents "2025-09-15"
  = Returned [("2025-09-08", 1); ("2025-09-15", 2)]%string /\
  (forall star, timeValue star = Num 1758499200000 ->
     ~ In star (filteredStargazers boundaryEvents (Num 1758499200000))) /\
  (forall star t, In star boundaryEvents -> timeValue star = Num t ->
     (In star (filteredStargazers boundaryEvents (Num 1758499200000))
      <-> t < 1758499200000)) /\
  generateCumulativeData 0 (eventsNotAt (Num 1758499200000) boundaryEvents)
    "2025-09-15"
    = Returned [("2025-09-08", 1); ("2025-09-15", 2)]%string /\
  (forall star, In star boundaryEvents ->
     timeValue star = Num (1758499200000 - 1) ->
     In star (filteredStargazers boundaryEvents (Num 1758499200000)) /\
     exists k,
       getMonday 0 (Some (DateArg (Num (1758499200000 - 1)))) = Returned k /\
       Obj.get k [("2025-09-08", 1); ("2025-09-15", 2)]%string =
       Some (Z.of_nat
               (length (List.filter
                          (fun s => lt (timeValue s) (Num 1758499200000))
                          boundaryEvents)))).
Proof.
  assert (H1 : getNextMonday "2025-09-15" = Returned "2025-09-22"%string)
    by (vm_compute; reflexivity).
  assert (H2 : parse (midnightZ "2025-09-22") = Num 1758499200000)
    by (vm_compute; reflexivity).
  assert (H3 : generateCumulativeData 0 boundaryEvents "2025-09-15"
               = Returned [("2025-09-08", 1); ("2025-09-15", 2)]%string)
    by (vm_compute; reflexivity).
  split; [exact H1|]. split; [exact H2|]. split; [exact H3|].
  exact (window_is_half_open 0 boundaryEvents _ _ _ _ H1 H2 H3).
Defined.

End HalfOpenWindowScenario.

Section AggregatorReturns.
Import Time Str JSDate DateUtils JSArray Stars.

Context {host : Host}.

(** The aggregator returns a series whenever the reference week has a
    next Monday and the week of every event has a representable Monday. *)
Lemma generateCumulativeData_returns (now : Z) (stargazers : list DateObject)
  (finalWeek finalMonday : string) :
  getNextMonday finalWeek = Returned finalMonday ->
  Forall validDate stargazers ->
  Forall (fun d => forall t, timeValue d = Num t -> firstMondayDay <= Day t)
         stargazers ->
  exists series,
    generateCumulativeData now stargazers finalWeek = Returned series.
Proof.
  intros Hfm Hv Hlo.
  rewrite (generateCumulativeData_unfold _ _ _ _ Hfm).
  set (f := filteredStargazers stargazers (parse (midnightZ finalMonday))).
  assert (Hf : forall d, In d f ->
             exists t, timeValue d = Num t /\ - maxTime <= t <= maxTime /\
                       firstMondayDay <= Day t).
  { intros d Hd. unfold f, filteredStargazers in Hd.
    apply (Permutation_in _ (sort_Permutation _ _ _)) in Hd.
    pose proof (kept_hasTime (parse (midnightZ finalMonday)) stargazers) as Hk.
    rewrite List.Forall_forall in Hk, Hv, Hlo.
    pose proof (Hk _ Hd) as Ht. apply filter_In in Hd as [Hd _].
    specialize (Hv _ Hd). specialize (Hlo _ Hd).
    unfold hasTime, validDate in *.
    destruct (timeValue d) as [|t]; [congruence|]. eauto. }
  clearbody f. generalize 0 (Obj.empty (V:=Z)).
  induction f as [|x f IH]; intros i c; cbn [cumulativeLoop]; [eauto|].
  destruct (Hf x (or_introl eq_refl)) as (t & -> & Hr & Hd).
  rewrite getMonday_Date by assumption. cbn [bind].
  apply IH. intros d Hd'. apply Hf. right. exact Hd'.
Qed.

End AggregatorReturns.

(* ===================================================================== *)
(** * The aggregator and the caller's array                               *)
(* ===================================================================== *)

Section StoreFacts.
Import Time Str JSDate DateUtils JSArray.

Context {host : Host}.

(** C10. generateCumulativeData leaves the caller's array as it was:
    after the call the array [stargazers] (and every other array that
    existed before) holds the same elements in the same order; the
    result is the one computed from those elements. *)
Theorem generateCumulativeData_keeps_input (now : Z) (stargazers : nat)
  (finalWeek : string) (h : Store.store) (events : list DateObject) :
  h !! stargazers = Some events ->
  let r := Store.generateCumulativeData now stargazers finalWeek h in
  snd r !! stargazers = Some events /\
  (forall a : nat, is_Some (h !! a) -> snd r !! a = h !! a) /\
  fst r = Stars.generateCumulativeData now events finalWeek.
Proof.
  intros Hs. cbv zeta.
  unfold Store.generateCumulativeData, Stars.generateCumulativeData.
  assert (He : Store.elements h stargazers = events)
    by (unfold Store.elements; rewrite Hs; reflexivity).
  rewrite He.
  destruct (length events =? 0)%nat; [cbn [fst snd]; auto|].
  destruct (getNextMonday finalWeek) as [finalMonday|e];
    [|cbn [fst snd bind]; auto].
  cbn [bind]. unfold Store.Array_filter, Store.Array_sort.
  pose proof (is_fresh (dom h)) as Hnew.
  generalize dependent (fresh (dom h)). intros a' Hnew.
  assert (Hfresh : forall a : nat, is_Some (h !! a) -> a' <> a).
  { intros a Ha E. apply elem_of_dom in Ha. rewrite <- E in Ha.
    exact (Hnew Ha). }
  rewrite He.
  set (kept := List.filter _ events).
  assert (Hk : Store.elements (<[a':=kept]> h) a' = kept)
    by (unfold Store.elements; rewrite lookup_insert_eq; reflexivity).
  rewrite Hk.
  assert (Hf : Store.elements
                 (<[a':=JSArray.sort Stars.byTime kept]> (<[a':=kept]> h)) a'
               = Stars.filteredStargazers events
                   (parse (midnightZ finalMonday))).
  { unfold Store.elements. rewrite lookup_insert_eq. reflexivity. }
  rewrite Hf.
  assert (Hkeep : forall a : nat, is_Some (h !! a) ->
            (<[a':=JSArray.sort Stars.byTime kept]> (<[a':=kept]> h)) !! a
            = h !! a).
  { intros a Ha. rewrite !lookup_insert_ne by (apply Hfresh, Ha).
    reflexivity. }
  destruct (length (Stars.filteredStargazers events _) =? 0)%nat;
    cbn [fst snd]; (split; [rewrite Hkeep by (rewrite Hs; eauto); exact Hs|]);
    (split; [exact Hkeep|reflexivity]).
Qed.

End StoreFacts.

Section StoreScenario.
Import Time Str JSDate DateUtils JSArray.

#[local] Existing Instance plainHost.

Lemma generateCumulativeData_keeps_input_witness :
  ({[ 0%nat := scenarioEvents ]} : Store.store) !! 0%nat = Some scenarioEvents /\
  let r := Store.generateCumulativeData 0 0 "2025-09-15"
             ({[ 0%nat := scenarioEvents ]} : Store.store) in
  snd r !! 0%nat = Some scenarioEvents /\
  (forall a : nat,
      is_Some (({[ 0%nat := scenarioEvents ]} : Store.store) !! a) ->
      snd r !! a = ({[ 0%nat := scenarioEvents ]} : Store.store) !! a) /\
  fst r = Stars.generateCumulativeData 0 scenarioEvents "2025-09-15".
Proof.
  assert (H : ({[ 0%nat := scenarioEvents ]} : Store.store) !! 0%nat
              = Some scenarioEvents) by reflexivity.
  split; [exact H|].
  exact (generateCumulativeData_keeps_input 0 0 "2025-09-15" _ _ H).
Defined.

End StoreScenario.

Section SortInPlace.
Import Time Str JSDate DateUtils JSArray.

Context {host : Host}.

(** Sorting the caller's array itself would not leave it as it was: the
    store operation [Array_sort] does rearrange the array it is given. *)
Lemma Array_sort_rearranges :
  snd (Store.Array_sort Stars.byTime 0
         ({[ 0%nat := [mkDate 0 (Num 2); mkDate 1 (Num 1)] ]} : Store.store))
    !! 0%nat
  = Some [mkDate 1 (Num 1); mkDate 0 (Num 2)].
Proof. reflexivity. Qed.

End SortInPlace.

(* ===================================================================== *)
(** * main: the loop over the repositories                                *)
(* ===================================================================== *)

Section MainFacts.
Import Time Str JSDate DateUtils JSArray Stars.

Context {host : Host}.

Variable gh : Gh.
Variables (fuel : nat) (now : Z) (finalWeek : string).

(** The loop does nothing to [allData] but the assignments of [writes]. *)
Lemma processRepositories_writes (repoStrings : list string) :
  forall (allData allData' : Obj.t Repo) (st st' : ProcState),
    processRepositories gh fuel now finalWeek repoStrings allData st
    = Ok allData' st' ->
    allData' = fold_left assign (writes gh fuel now finalWeek repoStrings st)
                         allData.
Proof.
  induction repoStrings as [|r rest IH]; intros allData allData' st st'.
  - cbn [processRepositories writes fold_left]. unfold ret.
    intros [= <- _]. reflexivity.
  - cbn [processRepositories writes]. unfold andThen, processRepository.
    destruct (tryRepository gh fuel now finalWeek r st)
      as [[repoName repo] st1|e st1|c st1|]; try discriminate.
    + intros H. apply IH in H. exact H.
    + unfold andThen, console_error, ret. intros H. apply IH in H. exact H.
Qed.

Lemma existsb_keys (k : string) (o : Obj.t Repo) :
  existsb (String.eqb k) (Obj.keys o) =
  match Obj.get k o with Some _ => true | None => false end.
Proof.
  induction o as [|[k0 v0] o IH]; [reflexivity|].
  unfold Obj.keys in *. cbn [map fst existsb Obj.get].
  rewrite (String.eqb_sym k k0).
  destruct (String.eqb k0 k); [reflexivity|exact IH].
Qed.

Lemma keys_fold_assign (ws : list (string * Repo)) :
  forall o : Obj.t Repo,
    Obj.keys (fold_left assign ws o) =
    fold_left (fun seen x => if existsb (String.eqb x) seen then seen
                             else seen ++ [x])
              (map fst ws) (Obj.keys o).
Proof.
  induction ws as [|[k v] ws IH]; intros o; [reflexivity|].
  cbn [fold_left map fst]. rewrite IH. f_equal.
  unfold assign. cbn [fst snd]. rewrite keys_set, existsb_keys.
  destruct (Obj.get k o); reflexivity.
Qed.

Lemma get_fold_assign (k : string) (ws : list (string * Repo)) :
  forall o : Obj.t Repo,
    Obj.get k (fold_left assign ws o) =
    fold_left (fun acc w => if String.eqb (fst w) k then Some (snd w) else acc)
              ws (Obj.get k o).
Proof.
  induction ws as [|[k0 v0] ws IH]; intros o; [reflexivity|].
  cbn [fold_left fst snd]. rewrite IH. f_equal.
  unfold assign. cbn [fst snd].
  destruct (String.eqb_spec k0 k) as [->|Hne].
  - apply get_set_eq.
  - apply get_set_ne. congruence.
Qed.

Lemma NoDup_fold_assign (ws : list (string * Repo)) :
  forall o : Obj.t Repo,
    List.NoDup (Obj.keys o) -> List.NoDup (Obj.keys (fold_left assign ws o)).
Proof.
  induction ws as [|w ws IH]; intros o H; [exact H|].
  cbn [fold_left]. apply IH. unfold assign. apply NoDup_keys_set, H.
Qed.

Lemma split_nonempty (sep : ascii) (r : string) : split sep r <> [].
Proof.
  destruct r as [|c r]; cbn [split]; [discriminate|].
  destruct (Ascii.eqb c sep); [discriminate|].
  destruct (split sep r); discriminate.
Qed.

Lemma split_one (sep : ascii) (r x : string) : split sep r = [x] -> r = x.
Proof.
  revert x. induction r as [|c r IH]; intros x; cbn [split].
  - intros [= <-]. reflexivity.
  - destruct (Ascii.eqb c sep).
    + intros [= _ H]. destruct (split_nonempty _ _ H).
    + destruct (split sep r) as [|h t] eqn:E;
        [destruct (split_nonempty _ _ E)|].
      intros [= <- ->]. f_equal. apply IH. reflexivity.
Qed.

Lemma split_two (sep : ascii) (r o n : string) :
  split sep r = [o; n] -> r = (o ++ String sep n)%string.
Proof.
  revert o. induction r as [|c r IH]; intros o; cbn [split];
    [discriminate|].
  destruct (Ascii.eqb_spec c sep) as [->|Hne].
  - intros [= <- H]. apply split_one in H. subst r. reflexivity.
  - destruct (split sep r) as [|h t] eqn:E; [discriminate|].
    intros [= <- ->]. rewrite append_cons. f_equal. apply IH. reflexivity.
Qed.

Lemma parseRepoString_name (repoString owner name : string) :
  parseRepoString repoString = Returned (owner, name) ->
  (owner ++ "/" ++ name)%string = repoString.
Proof.
  unfold parseRepoString.
  destruct (split "/" repoString) as [|o [|n [|x t]]] eqn:E;
    try discriminate.
  intros [= <- <-]. symmetry. apply split_two in E. exact E.
Qed.

Lemma tryRepository_name (repoString : string) (st st' : ProcState)
  (w : string * Repo) :
  tryRepository gh fuel now finalWeek repoString st = Ok w st' ->
  fst w = repoString /\ repo_name (snd w) = repoString.
Proof.
  unfold tryRepository, andThen, lift.
  destruct (parseRepoString repoString) as [[owner name]|e] eqn:Ep;
    [|discriminate].
  unfold ret at 1. cbn [fst snd].
  destruct (fetchAllStargazers gh fuel owner name st)
    as [stargazers st1|e st1|c st1|]; try discriminate.
  destruct (generateCumulativeData now stargazers finalWeek) as [cd|e];
    [|discriminate].
  unfold ret. intros [= <- _]. cbn [fst snd repo_name].
  rewrite (parseRepoString_name _ _ _ Ep). auto.
Qed.

Lemma writes_names (repoStrings : list string) :
  forall (st : ProcState) (w : string * Repo),
    In w (writes gh fuel now finalWeek repoStrings st) ->
    In (fst w) repoStrings /\ repo_name (snd w) = fst w.
Proof.
  induction repoStrings as [|r rest IH]; intros st w; cbn [writes].
  - intros [].
  - destruct (tryRepository gh fuel now finalWeek r st)
      as [w0 st1|e st1|c st1|] eqn:Et; [| |intros []|intros []].
    + intros [<-|Hin].
      * destruct (tryRepository_name _ _ _ _ Et) as [-> ->].
        split; [left|]; reflexivity.
      * destruct (IH _ _ Hin). split; [right|]; assumption.
    + intros Hin. destruct (IH _ _ Hin). split; [right|]; assumption.
Qed.

Lemma runGraphQL_calls (q : string) (v : Variables) (st st' : ProcState)
  (r : GraphQLResult) :
  Github.runGraphQL gh q v st = Ok r st' -> calls st' = S (calls st).
Proof.
  unfold Github.runGraphQL.
  destruct (gh (calls st) q v) as [status errorOutput|output message|result];
    try discriminate.
  destruct (result_errors result); [discriminate|].
  intros [= _ <-]. reflexivity.
Qed.

Lemma runGraphQL_no_throw (q : string) (v : Variables) (st st' : ProcState)
  (e : exn) :
  Github.runGraphQL gh q v st <> Thrown e st'.
Proof.
  unfold Github.runGraphQL.
  destruct (gh (calls st) q v) as [status errorOutput|output message|result];
    try discriminate.
  destruct (result_errors result); discriminate.
Qed.

(** A fetch that completes has spawned [gh] at least once, and a fetch
    never throws. *)
Lemma fetchPages_calls (owner name : string) (n : nat) :
  forall (after : option string) (acc : list DateObject) (st st' : ProcState)
         (r : list DateObject),
    fetchPages gh n owner name after acc st = Ok r st' ->
    (calls st < calls st')%nat.
Proof.
  induction n as [|n IH]; intros after acc st st' r; cbn [fetchPages];
    [discriminate|].
  unfold andThen at 1.
  destruct (Github.runGraphQL gh "stargazersQuery" _ st)
    as [result st1|e st1|c st1|] eqn:Er; try discriminate.
  apply runGraphQL_calls in Er.
  destruct (result_stargazers result) as [sd|].
  - destruct (hasNextPage (pageInfo sd)).
    + intros H. apply IH in H. lia.
    + unfold ret. intros [= _ <-]. lia.
  - unfold andThen, console_error, ret. intros [= _ <-]. cbn [calls]. lia.
Qed.

Lemma fetchPages_no_throw (owner name : string) (n : nat) :
  forall (after : option string) (acc : list DateObject) (st st' : ProcState)
         (e : exn),
    fetchPages gh n owner name after acc st <> Thrown e st'.
Proof.
  induction n as [|n IH]; intros after acc st st' e; cbn [fetchPages];
    [discriminate|].
  unfold andThen at 1.
  destruct (Github.runGraphQL gh "stargazersQuery" _ st)
    as [result st1|e1 st1|c st1|] eqn:Er; try discriminate.
  - destruct (result_stargazers result) as [sd|].
    + destruct (hasNextPage (pageInfo sd)); [apply IH|discriminate].
    + discriminate.
  - exfalso. exact (runGraphQL_no_throw _ _ _ _ _ Er).
Qed.

Lemma tryRepository_calls (repoString : string) (st : ProcState) :
  match tryRepository gh fuel now finalWeek repoString st with
  | Ok _ st' => (calls st < calls st')%nat
  | Thrown _ st' => (calls st <= calls st')%nat
  | _ => True
  end.
Proof.
  unfold tryRepository, andThen, lift.
  destruct (parseRepoString repoString) as [[owner name]|e];
    [|unfold throw; lia].
  unfold ret at 1. cbn [fst snd]. unfold fetchAllStargazers.
  destruct (fetchPages gh fuel owner name None [] st)
    as [stargazers st1|e st1|c st1|] eqn:Ef; try exact I.
  - apply fetchPages_calls in Ef.
    destruct (generateCumulativeData now stargazers finalWeek) as [cd|e];
      unfold ret, throw; lia.
  - exfalso. exact (fetchPages_no_throw _ _ _ _ _ _ _ _ Ef).
Qed.

Lemma writes_calls (repoStrings : list string) :
  forall (allData allData' : Obj.t Repo) (st st' : ProcState),
    processRepositories gh fuel now finalWeek repoStrings allData st
    = Ok allData' st' ->
    (calls st + length (writes gh fuel now finalWeek repoStrings st)
     <= calls st')%nat.
Proof.
  induction repoStrings as [|r rest IH]; intros allData allData' st st'.
  - cbn [processRepositories writes length]. unfold ret.
    intros [= _ <-]. lia.
  - cbn [processRepositories writes]. unfold andThen, processRepository.
    pose proof (tryRepository_calls r st) as Hc.
    destruct (tryRepository gh fuel now finalWeek r st)
      as [[repoName repo] st1|e st1|c st1|]; try discriminate.
    + intros H. apply IH in H. cbn [length]. lia.
    + unfold andThen, console_error, ret. intros H. apply IH in H.
      cbn [calls] in H. lia.
Qed.

Lemma writes_length (repoStrings : list string) :
  forall st : ProcState,
    (length (writes gh fuel now finalWeek repoStrings st)
     <= length repoStrings)%nat.
Proof.
  induction repoStrings as [|r rest IH]; intros st; cbn [writes length];
    [lia|].
  destruct (tryRepository gh fuel now finalWeek r st)
    as [w st1|e st1|c st1|]; cbn [length]; try lia.
  - specialize (IH st1). lia.
  - match goal with |- (length (writes _ _ _ _ _ ?s) <= _)%nat =>
      specialize (IH s) end. lia.
Qed.

(** When every iteration makes its assignment, the assigned names are
    the input. *)
Lemma writes_all (repoStrings : list string) :
  forall st : ProcState,
    length (writes gh fuel now finalWeek repoStrings st) = length repoStrings ->
    map fst (writes gh fuel now finalWeek repoStrings st) = repoStrings.
Proof.
  induction repoStrings as [|r rest IH]; intros st; cbn [writes length];
    [reflexivity|].
  destruct (tryRepository gh fuel now finalWeek r st)
    as [w st1|e st1|c st1|] eqn:Et; cbn [length map]; try discriminate.
  - intros [= H]. rewrite (IH _ H).
    destruct (tryRepository_name _ _ _ _ Et) as [-> _]. reflexivity.
  - intros H.
    match type of H with length (writes _ _ _ _ _ ?s) = _ =>
      pose proof (writes_length rest s) end. lia.
Qed.

(** C9. When main's loop over the repositories completes, [allData]
    holds the assignments of the iterations in order: each name once, at
    the place of its first assignment, with the value of its last one.
    Every occurrence of a repository in the input is an iteration of its
    own, which fetches (spawns [gh]) and aggregates again; so a repeated
    name is overwritten by its later result and keeps the place of its
    first occurrence. *)
Theorem duplicate_repository_last_write_wins (repoStrings : list string)
  (st st' : ProcState) (allData' : Obj.t Repo) :
  processRepositories gh fuel now finalWeek repoStrings Obj.empty st
  = Ok allData' st' ->
  let ws := writes gh fuel now finalWeek repoStrings st in
  Obj.keys allData' = firstOccurrences (map fst ws) /\
  List.NoDup (Obj.keys allData') /\
  (forall k, Obj.get k allData' = lastWrite k ws) /\
  (forall w, In w ws -> In (fst w) repoStrings /\ repo_name (snd w) = fst w) /\
  (calls st + length ws <= calls st')%nat /\
  (length ws = length repoStrings ->
   Obj.keys allData' = firstOccurrences repoStrings).
Proof.
  intros H. cbv zeta. pose proof (writes_calls _ _ _ _ _ H) as Hcalls.
  apply processRepositories_writes in H. subst allData'.
  split; [|split; [|split; [|split; [|split]]]].
  - apply keys_fold_assign.
  - apply NoDup_fold_assign. constructor.
  - intros k. apply get_fold_assign.
  - apply writes_names.
  - exact Hcalls.
  - intros Hlen. rewrite <- (writes_all _ _ Hlen) at 2.
    apply keys_fold_assign.
Qed.

End MainFacts.

Section MainScenarios.
Import Time Str JSDate DateUtils JSArray Stars.

#[local] Existing Instance plainHost.

Lemma duplicate_repository_last_write_wins_witness :
  processRepositories growingGh 5 0 "2025-09-15" ["a/b"; "c/d"; "a/b"]%string
    Obj.empty startState
  = Ok [("a/b", mkRepo "a/b" [("2025-09-08", 2)]);
        ("c/d", mkRepo "c/d" [("2025-09-08", 2)])]%string
       (mkProcState 3 []) /\
  let ws := writes growingGh 5 0 "2025-09-15" ["a/b"; "c/d"; "a/b"]%string
              startState in
  ws = [("a/b", mkRepo "a/b" [("2025-09-08", 1)]);
        ("c/d", mkRepo "c/d" [("2025-09-08", 2)]);
        ("a/b", mkRepo "a/b" [("2025-09-08", 2)])]%string /\
  Obj.keys [("a/b", mkRepo "a/b" [("2025-09-08", 2)]);
            ("c/d", mkRepo "c/d" [("2025-09-08", 2)])]%string
  = firstOccurrences (map fst ws) /\
  List.NoDup (Obj.keys [("a/b", mkRepo "a/b" [("2025-09-08", 2)]);
                        ("c/d", mkRepo "c/d" [("2025-09-08", 2)])]%string) /\
  (forall k, Obj.get k [("a/b", mkRepo "a/b" [("2025-09-08", 2)]);
                        ("c/d", mkRepo "c/d" [("2025-09-08", 2)])]%string
             = lastWrite k ws) /\
  (forall w, In w ws ->
     In (fst w) ["a/b"; "c/d"; "a/b"]%string /\ repo_name (snd w) = fst w) /\
  (calls startState + length ws <= 3)%nat /\
  (length ws = length ["a/b"; "c/d"; "a/b"]%string ->
   Obj.keys [("a/b", mkRepo "a/b" [("2025-09-08", 2)]);
             ("c/d", mkRepo "c/d" [("2025-09-08", 2)])]%string
   = firstOccurrences ["a/b"; "c/d"; "a/b"]%string).
Proof.
  assert (H : processRepositories growingGh 5 0 "2025-09-15"
                ["a/b"; "c/d"; "a/b"]%string Obj.empty startState
              = Ok [("a/b", mkRepo "a/b" [("2025-09-08", 2)]);
                    ("c/d", mkRepo "c/d" [("2025-09-08", 2)])]%string
                   (mkProcState 3 []))
    by (vm_compute; reflexivity).
  split; [exact H|]. cbv zeta. split; [vm_compute; reflexivity|].
  exact (duplicate_repository_last_write_wins growingGh 5 0 "2025-09-15"
           _ _ _ _ H).
Defined.

End MainScenarios.

(* ===================================================================== *)
(** * Failures while fetching                                             *)
(* ===================================================================== *)

Section FetchFailures.
Import Time Str JSDate DateUtils JSArray Stars.

Context {host : Host}.

Variable gh : Gh.
Variables (fuel : nat) (now : Z) (finalWeek : string).

Lemma datesFrom_cons (n : nat) (s : string) (dates : list string) :
  datesFrom n (s :: dates) = mkDate n (parse s) :: datesFrom (S n) dates.
Proof. reflexivity. Qed.

(** The loop over the edges appends the stars of the edges that carry a
    date. *)
Lemma pushEdges_spec (es : list Edge) :
  forall acc : list DateObject,
    pushEdges es acc = acc ++ datesFrom (length acc) (starDates es).
Proof.
  induction es as [|e es IH]; intros acc.
  - cbn [pushEdges starDates flat_map]. unfold datesFrom. cbn.
    rewrite app_nil_r. reflexivity.
  - cbn [pushEdges starDates flat_map].
    destruct (starredAt e) as [[|c r]|]; cbn [truthy app]; try apply IH.
    rewrite IH, length_app, <- app_assoc. cbn [length app].
    rewrite Nat.add_1_r, datesFrom_cons. reflexivity.
Qed.

Lemma pushEdges_collected (pages : list StargazerData) :
  pushEdges (concat (map edges pages)) [] = collected pages.
Proof. rewrite pushEdges_spec. reflexivity. Qed.

Lemma pushEdges_concat (page : StargazerData) (rest : list StargazerData)
  (acc : list DateObject) :
  pushEdges (concat (map edges (page :: rest))) acc
  = pushEdges (concat (map edges rest)) (pushEdges (edges page) acc).
Proof.
  cbn [map concat]. revert acc.
  induction (edges page) as [|e es IH]; intros acc; [reflexivity|].
  cbn [app pushEdges]. destruct (truthy (starredAt e)); apply IH.
Qed.

Lemma runGraphQL_failed (variables : Variables) (st : ProcState) :
  failedReply (gh (calls st) "stargazersQuery"%string variables) ->
  Github.runGraphQL gh "stargazersQuery"%string variables st
  = Exited 1
      (mkProcState (S (calls st))
         (errors st
          ++ failureLines (gh (calls st) "stargazersQuery"%string variables))).
Proof.
  unfold failedReply, failureLines, Github.runGraphQL.
  destruct (gh (calls st) "stargazersQuery"%string variables)
    as [status errorOutput|output message|result]; intros H.
  - reflexivity.
  - unfold andThen, console_error, process_exit. cbn [calls errors].
    rewrite <- app_assoc. reflexivity.
  - destruct (result_errors result) as [errs|]; [reflexivity|congruence].
Qed.

(** A failure of the [gh] call after any number of pages ends the
    process. *)
Lemma fetchPages_failed (owner name : string) (reply : Reply)
  (pages : list StargazerData) :
  forall (n : nat) (after : option string) (acc : list DateObject)
         (st : ProcState),
    failedReply reply ->
    servesUntil gh owner name (calls st) after pages reply ->
    (length pages < n)%nat ->
    fetchPages gh n owner name after acc st
    = Exited 1 (mkProcState (calls st + length pages + 1)
                            (errors st ++ failureLines reply)).
Proof.
  induction pages as [|page rest IH]; intros n after acc st Hf Hs Hn;
    (destruct n as [|n]; [cbn [length] in Hn; lia|]);
    cbn [servesUntil] in Hs; cbn [fetchPages]; unfold andThen at 1.
  - rewrite runGraphQL_failed by (rewrite Hs; exact Hf).
    rewrite Hs. cbn [length]. do 2 f_equal. lia.
  - destruct Hs as (Hg & Hnext & Hrest).
    unfold Github.runGraphQL. rewrite Hg.
    cbn [result_errors result_stargazers]. rewrite Hnext.
    rewrite (IH n); cbn [calls errors]; try assumption.
    + do 2 f_equal. cbn [length]. lia.
    + cbn [length] in Hn. lia.
Qed.

(** A response without the stargazers after any number of pages ends
    the fetch with the stars of those pages. *)
Lemma fetchPages_missing (owner name : string) (pages : list StargazerData) :
  forall (n : nat) (after : option string) (acc : list DateObject)
         (st : ProcState),
    servesUntil gh owner name (calls st) after pages
                (Parsed (mkResult None None)) ->
    (length pages < n)%nat ->
    fetchPages gh n owner name after acc st
    = Ok (pushEdges (concat (map edges pages)) acc)
         (mkProcState (calls st + length pages + 1)
            (errors st ++ [("Failed to fetch stargazers for " ++ owner ++ "/"
                            ++ name)%string])).
Proof.
  induction pages as [|page rest IH]; intros n after acc st Hs Hn;
    (destruct n as [|n]; [cbn [length] in Hn; lia|]);
    cbn [servesUntil] in Hs; cbn [fetchPages]; unfold andThen at 1.
  - unfold Github.runGraphQL. rewrite Hs.
    cbn [result_errors result_stargazers].
    unfold andThen, console_error, ret. cbn [calls errors map concat
      pushEdges length].
    do 2 f_equal. lia.
  - destruct Hs as (Hg & Hnext & Hrest).
    unfold Github.runGraphQL. rewrite Hg.
    cbn [result_errors result_stargazers]. rewrite Hnext.
    rewrite (IH n); cbn [calls errors]; try assumption.
    + rewrite pushEdges_concat. do 2 f_equal. cbn [length]. lia.
    + cbn [length] in Hn. lia.
Qed.

(** C4, amended.  (1) When the [gh] call for a repository fails (non-zero
    exit status, unparseable output, GraphQL errors), on the first page
    or after any number of pages, runGraphQL reports it and exits the
    process with status 1: the run ends there and the remaining
    repositories are not processed.  (2) A response without
    [data.repository.stargazers] is reported and ends the fetch of that
    repository, which stays in the output with the series of the events
    of the pages fetched so far (none, when it is the first page), and
    the loop goes on.  (3) An exception thrown while one repository is
    processed is caught and reported, that repository gets no entry, and
    the loop goes on.  (4) When the loop ends with an exit, main ends
    with it: nothing is written. *)
Theorem fetch_failure_handling :
  (forall (repoString owner name : string) (rest : list string)
          (allData : Obj.t Repo) (st : ProcState)
          (pages : list StargazerData) (reply : Reply),
      parseRepoString repoString = Returned (owner, name) ->
      servesUntil gh owner name (calls st) None pages reply ->
      failedReply reply ->
      (length pages < fuel)%nat ->
      processRepositories gh fuel now finalWeek (repoString :: rest)
        allData st
      = Exited 1 (mkProcState (calls st + length pages + 1)
                              (errors st ++ failureLines reply))) /\
  (forall (repoString owner name : string) (rest : list string)
          (allData : Obj.t Repo) (st : ProcState)
          (pages : list StargazerData) (series : Obj.t Z),
      parseRepoString repoString = Returned (owner, name) ->
      servesUntil gh owner name (calls st) None pages
                  (Parsed (mkResult None None)) ->
      (length pages < fuel)%nat ->
      generateCumulativeData now (collected pages) finalWeek
      = Returned series ->
      processRepositories gh fuel now finalWeek (repoString :: rest)
        allData st
      = processRepositories gh fuel now finalWeek rest
          (Obj.set repoString
             (mkRepo repoString (fromEntries (sortedEntries series)))
             allData)
          (mkProcState (calls st + length pages + 1)
             (errors st ++ [("Failed to fetch stargazers for " ++ owner
                             ++ "/" ++ name)%string]))) /\
  (forall (repoString : string) (rest : list string) (allData : Obj.t Repo)
          (st st1 : ProcState) (e : exn),
      tryRepository gh fuel now finalWeek repoString st = Thrown e st1 ->
      processRepositories gh fuel now finalWeek (repoString :: rest)
        allData st
      = processRepositories gh fuel now finalWeek rest allData
          (mkProcState (calls st1)
             (errors st1 ++ [(" Error processing repository " ++ repoString
                              ++ ": " ++ exn_message e)%string]))) /\
  (forall (reposArg outputDir : string) (rest : list string)
          (st st' : ProcState) (code : Z),
      getMonday now (option_map StrArg (firstOf rest)) = Returned finalWeek ->
      mkdirSync (calls st) outputDir = None ->
      processRepositories gh fuel now finalWeek
        (map trim (split "," reposArg)) Obj.empty st
      = Exited code st' ->
      main gh fuel now (reposArg :: outputDir :: rest) st = Exited code st').
Proof.
  split; [|split; [|split]].
  4:{ intros reposArg outputDir rest st st' code Hm Hk Hp.
      cbn [main]. unfold andThen at 1. rewrite Hm. cbn [lift].
      unfold ret at 1. unfold andThen at 1, fsCall. rewrite Hk.
      unfold andThen at 1. rewrite Hp. reflexivity. }
  - intros repoString owner name rest allData st pages reply Hp Hs Hf Hn.
    cbn [processRepositories]. unfold andThen at 1, processRepository.
    unfold tryRepository, andThen at 1. rewrite Hp.
    cbn [lift]. unfold ret at 1. cbn [fst snd].
    unfold andThen at 1, fetchAllStargazers.
    rewrite (fetchPages_failed owner name reply pages fuel None [] st Hf Hs Hn).
    reflexivity.
  - intros repoString owner name rest allData st pages series Hp Hs Hn Hg.
    cbn [processRepositories]. unfold andThen at 1, processRepository.
    unfold tryRepository, andThen at 1. rewrite Hp.
    cbn [lift]. unfold ret at 1. cbn [fst snd].
    unfold andThen at 1, fetchAllStargazers.
    rewrite (fetchPages_missing owner name pages fuel None [] st Hs Hn).
    rewrite pushEdges_collected. unfold andThen at 1. rewrite Hg.
    cbn [lift]. unfold ret.
    rewrite (parseRepoString_name _ _ _ Hp). reflexivity.
  - intros repoString rest allData st st1 e Ht.
    cbn [processRepositories]. unfold andThen, processRepository.
    rewrite Ht. reflexivity.
Qed.

End FetchFailures.

Section FetchFailureScenarios.
Import Time Str JSDate DateUtils JSArray Stars.

#[local] Existing Instance plainHost.

(** C4, as stated, fails: the fetch of the first of two repositories
    fails, and the run ends with exit status 1 after that one call,
    without an output file; without the failing repository the same run
    completes and writes the other one. *)
Lemma fetch_failure_ends_the_run :
  main failingGh 5 0 ["down/x,c/d"; "out"; "2025-09-15"]%string startState
  = Exited 1 (mkProcState 1 ["GraphQL query failed (1): HTTP 502"%string]) /\
  main failingGh 5 0 ["c/d"; "out"; "2025-09-15"]%string startState
  = Ok (mkWritten "out/stargazers.json"
          [mkRepo "c/d" [("2025-09-08", 1)]]%string)
       (mkProcState 1 []).
Proof. split; vm_compute; reflexivity. Qed.

Lemma fetch_failure_handling_witness :
  (parseRepoString "a/b" = Returned ("a", "b")%string /\
   servesUntil laterFailingGh "a" "b" (calls startState) None [firstPage]
     (Failed "1" "HTTP 502") /\
   failedReply (Failed "1" "HTTP 502") /\
   (length [firstPage] < 5)%nat /\
   processRepositories laterFailingGh 5 0 "2025-09-15" ["a/b"; "c/d"]%string
     Obj.empty startState
   = Exited 1 (mkProcState 2 ["GraphQL query failed (1): HTTP 502"%string])) /\
  (parseRepoString "a/b" = Returned ("a", "b")%string /\
   servesUntil laterMissingGh "a" "b" (calls startState) None [firstPage]
     (Parsed (mkResult None None)) /\
   (length [firstPage] < 5)%nat /\
   generateCumulativeData 0 (collected [firstPage]) "2025-09-15"
   = Returned [("2025-09-08"%string, 2)] /\
   processRepositories laterMissingGh 5 0 "2025-09-15" ["a/b"; "nonsense"]%string
     Obj.empty startState
   = processRepositories laterMissingGh 5 0 "2025-09-15" ["nonsense"]%string
       (Obj.set "a/b" (mkRepo "a/b" [("2025-09-08"%string, 2)]) Obj.empty)
       (mkProcState 2 ["Failed to fetch stargazers for a/b"%string])) /\
  (tryRepository missingGh 5 0 "2025-09-15" "nonsense" startState
   = Thrown (Error "Invalid repository format: nonsense. Expected format: owner/repo")
            startState /\
   processRepositories missingGh 5 0 "2025-09-15" ["nonsense"; "c/d"]%string
     Obj.empty startState
   = processRepositories missingGh 5 0 "2025-09-15" ["c/d"]%string Obj.empty
       (mkProcState 0
          [" Error processing repository nonsense: Invalid repository format: nonsense. Expected format: owner/repo"%string])).
Proof.
  destruct (fetch_failure_handling laterFailingGh 5 0 "2025-09-15")
    as [H1 _].
  destruct (fetch_failure_handling laterMissingGh 5 0 "2025-09-15")
    as [_ [H2 _]].
  destruct (fetch_failure_handling missingGh 5 0 "2025-09-15")
    as [_ [_ [H3 _]]].
  assert (P1 : parseRepoString "a/b" = Returned ("a", "b")%string)
    by reflexivity.
  assert (S1 : servesUntil laterFailingGh "a" "b" (calls startState) None
                 [firstPage] (Failed "1" "HTTP 502"))
    by (cbn; repeat split).
  assert (F1 : failedReply (Failed "1" "HTTP 502")) by discriminate.
  assert (L1 : (length [firstPage] < 5)%nat) by (cbn; lia).
  assert (S2 : servesUntil laterMissingGh "a" "b" (calls startState) None
                 [firstPage] (Parsed (mkResult None None)))
    by (cbn; repeat split).
  assert (G2 : generateCumulativeData 0 (collected [firstPage]) "2025-09-15"
               = Returned [("2025-09-08"%string, 2)])
    by (vm_compute; reflexivity).
  assert (T3 : tryRepository missingGh 5 0 "2025-09-15" "nonsense" startState
               = Thrown (Error "Invalid repository format: nonsense. Expected format: owner/repo")
                        startState) by reflexivity.
  split; [|split].
  - split; [exact P1|]. split; [exact S1|]. split; [exact F1|].
    split; [exact L1|].
    exact (H1 _ _ _ ["c/d"%string] Obj.empty startState _ _ P1 S1 F1 L1).
  - split; [exact P1|]. split; [exact S2|]. split; [exact L1|].
    split; [exact G2|].
    exact (H2 _ _ _ ["nonsense"%string] Obj.empty startState _ _ P1 S2 L1 G2).
  - split; [exact T3|].
    exact (H3 _ ["c/d"%string] Obj.empty startState _ _ T3).
Defined.

End FetchFailureScenarios.

(* ===================================================================== *)
(** * More on the week boundaries (src/lib/dateUtils.js, src/date.js)     *)
(* ===================================================================== *)

Section NextMonday.
Import Time Str JSDate DateUtils.

Context {host : Host}.

Lemma mondayDay_idem (n : Z) : mondayDay (mondayDay n) = mondayDay n.
Proof. unfold mondayDay. dlia. Qed.

Lemma mondayDay_lower (n : Z) :
  firstMondayDay <= n -> firstMondayDay <= mondayDay n.
Proof.
  intros H. pose proof (mondayDay_mono _ _ H) as H0.
  replace (mondayDay firstMondayDay) with firstMondayDay in H0 by reflexivity.
  exact H0.
Qed.

Lemma getMonday_wellFormed (now : Z) (d : DateInput) (t : Z) :
  WellFormedDate d t -> getMonday now (Some d) = Returned (weekKey t).
Proof.
  intros Hwf. unfold weekKey. destruct Hwf as [t Hin|s t Ha Hp Hin];
    destruct (inWeekRange_valid _ Hin) as [Hr Hlo].
  - apply getMonday_Date; assumption.
  - apply getMonday_dateOnly; assumption.
Qed.

Lemma weekKey_absent_T (t : Z) : absent "T" (weekKey t).
Proof. apply absent_T_dateString. Qed.

Lemma weekKey_wellFormed (t : Z) :
  inWeekRange t ->
  WellFormedDate (StrArg (weekKey t)) (mondayDay (Day t) * msPerDay).
Proof.
  intros Hin. destruct (inWeekRange_valid _ Hin) as [Hr Hlo].
  apply wf_date_string.
  - apply weekKey_absent_T.
  - apply weekKey_isoParse; assumption.
  - pose proof (mondayDay_lower _ Hlo). pose proof (mondayDay_bounds (Day t)).
    pose proof (Day_TimeWithinDay t). pose proof (TimeWithinDay_bounds t).
    unfold inWeekRange, MakeDate, firstMondayDay, maxTime, msPerDay in *. lia.
Qed.

(** X1. getNextMonday of the Monday that getMonday returns is the date
    exactly seven days later, again a Monday at midnight UTC. *)
Theorem getNextMonday_is_seven_days_later (now : Z) (d : DateInput) (t : Z) :
  WellFormedDate d t ->
  mondayDay (Day t) + 7 <= 100000000 ->
  exists (m m' : string) (tm : Z),
    getMonday now (Some d) = Returned m /\
    getNextMonday m = Returned m' /\
    parse m = Num tm /\
    parse m' = Num (tm + 7 * msPerDay) /\
    parse (midnightZ m') = Num (tm + 7 * msPerDay) /\
    WeekDay (tm + 7 * msPerDay) = 1.
Proof.
  intros Hwf Hhi.
  assert (Hin : inWeekRange t) by (destruct Hwf; assumption).
  destruct (inWeekRange_valid _ Hin) as [Hr Hlo].
  destruct (getNextMonday_weekKey _ Hin Hhi) as [Hn Hp].
  pose proof (mondayDay_lower _ Hlo) as Hm.
  assert (R2 : - maxTime <= (mondayDay (Day t) + 7) * msPerDay <= maxTime)
    by (unfold firstMondayDay, maxTime, msPerDay in *; lia).
  exists (weekKey t), (dateString ((mondayDay (Day t) + 7) * msPerDay)),
         (mondayDay (Day t) * msPerDay).
  replace (mondayDay (Day t) * msPerDay + 7 * msPerDay)
    with ((mondayDay (Day t) + 7) * msPerDay) by lia.
  split; [apply getMonday_wellFormed, Hwf|].
  split; [exact Hn|].
  split; [apply weekKey_parse; assumption|].
  split.
  { rewrite parse_dateString by (apply valid_time_year, R2).
    rewrite Day_mul. apply TimeClip_in_range, R2. }
  split; [exact Hp|].
  unfold WeekDay. rewrite Day_mul.
  pose proof (mondayDay_is_monday (Day t)). dlia.
Qed.

End NextMonday.

Section NextMondayScenario.
Import Time Str JSDate DateUtils.

#[local] Existing Instance plainHost.

Lemma getNextMonday_is_seven_days_later_witness :
  WellFormedDate (StrArg "2025-12-31") 1767139200000 /\
  mondayDay (Day 1767139200000) + 7 <= 100000000 /\
  exists (m m' : string) (tm : Z),
    getMonday 0 (Some (StrArg "2025-12-31")) = Returned m /\
    getNextMonday m = Returned m' /\
    parse m = Num tm /\
    parse m' = Num (tm + 7 * msPerDay) /\
    parse (midnightZ m') = Num (tm + 7 * msPerDay) /\
    WeekDay (tm + 7 * msPerDay) = 1.
Proof.
  assert (Hwf : WellFormedDate (StrArg "2025-12-31") 1767139200000).
  { apply wf_date_string; [simpl; tauto|reflexivity|].
    vm_compute. split; discriminate. }
  assert (Hhi : mondayDay (Day 1767139200000) + 7 <= 100000000)
    by (vm_compute; discriminate).
  split; [exact Hwf|]. split; [exact Hhi|].
  exact (getNextMonday_is_seven_days_later 0 _ _ Hwf Hhi).
Defined.

End NextMondayScenario.

Section Idempotence.
Import Time Str JSDate DateUtils.

Context {host : Host}.

(** X2. getMonday is idempotent: given the Monday it returned for a
    well-formed date, it returns that Monday again. *)
Theorem getMonday_idempotent (now : Z) (d : DateInput) (t : Z) (m : string) :
  WellFormedDate d t ->
  getMonday now (Some d) = Returned m ->
  getMonday now (Some (StrArg m)) = Returned m.
Proof.
  intros Hwf Hm.
  assert (Hin : inWeekRange t) by (destruct Hwf; assumption).
  rewrite (getMonday_wellFormed _ _ _ Hwf) in Hm. injection Hm as <-.
  rewrite (getMonday_wellFormed now _ _ (weekKey_wellFormed _ Hin)).
  unfold weekKey. rewrite Day_mul, mondayDay_idem. reflexivity.
Qed.

End Idempotence.

Section IdempotenceScenario.
Import Time Str JSDate DateUtils.

#[local] Existing Instance plainHost.

Lemma getMonday_idempotent_witness :
  WellFormedDate (DateArg (Num 1758190000000)) 1758190000000 /\
  getMonday 0 (Some (DateArg (Num 1758190000000)))
  = Returned "2025-09-15"%string /\
  getMonday 0 (Some (StrArg "2025-09-15")) = Returned "2025-09-15"%string.
Proof.
  assert (Hwf : WellFormedDate (DateArg (Num 1758190000000)) 1758190000000).
  { apply wf_date_object. vm_compute. split; discriminate. }
  assert (Hm : getMonday 0 (Some (DateArg (Num 1758190000000)))
               = Returned "2025-09-15"%string) by (vm_compute; reflexivity).
  split; [exact Hwf|]. split; [exact Hm|].
  exact (getMonday_idempotent 0 _ _ _ Hwf Hm).
Defined.

End IdempotenceScenario.

Section RoundTrip.
Import Time Str JSDate DateUtils.

Context {host : Host}.

(** X3. formatDate and the Date constructor round-trip on dates: the
    text formatDate gives for a valid Date object parses to the midnight
    that starts the object's UTC day, and formatDate of that text, or of
    the Date parsed from it, is the text again. *)
Theorem formatDate_round_trip (t : Z) :
  - maxTime <= t <= maxTime ->
  exists s : string,
    formatDate (DateArg (Num t)) = Returned s /\
    parse s = Num (t - TimeWithinDay t) /\
    formatDate (StrArg s) = Returned s /\
    formatDate (DateArg (parse s)) = Returned s.
Proof.
  intros Hr. exists (dateString t).
  pose proof (Day_TimeWithinDay t) as Ht.
  pose proof (TimeWithinDay_bounds t) as Hw.
  assert (Hd : - maxTime <= Day t * msPerDay <= maxTime).
  { assert (-100000000 <= Day t)
      by (unfold Day, maxTime, msPerDay in *; dlia).
    unfold MakeDate, maxTime, msPerDay in *. lia. }
  assert (Hp : parse (dateString t) = Num (t - TimeWithinDay t)).
  { rewrite parse_dateString by (apply valid_time_year, Hr).
    rewrite TimeClip_in_range by exact Hd.
    f_equal. unfold MakeDate in Ht. lia. }
  split; [apply formatDate_Date|]. split; [exact Hp|]. split.
  - cbn [formatDate].
    rewrite first_split_absent by apply absent_T_dateString. reflexivity.
  - rewrite Hp, formatDate_Date. f_equal. apply dateString_Day.
    replace (t - TimeWithinDay t) with (Day t * msPerDay)
      by (unfold MakeDate in Ht; lia).
    apply Day_mul.
Qed.

End RoundTrip.

Section RoundTripScenario.
Import Time Str JSDate DateUtils.

#[local] Existing Instance plainHost.

Lemma formatDate_round_trip_witness :
  - maxTime <= 1758190000000 <= maxTime /\
  exists s : string,
    formatDate (DateArg (Num 1758190000000)) = Returned s /\
    parse s = Num (1758190000000 - TimeWithinDay 1758190000000) /\
    formatDate (StrArg s) = Returned s /\
    formatDate (DateArg (parse s)) = Returned s.
Proof.
  assert (H : - maxTime <= 1758190000000 <= maxTime)
    by (vm_compute; split; discriminate).
  split; [exact H|]. exact (formatDate_round_trip _ H).
Defined.

End RoundTripScenario.

Section MalformedDates.
Import Time Str JSDate DateUtils.

Context {host : Host}.

Lemma monday_of_invalid_throws (d : jsnum) :
  d = NaN ->
  formatDate
    (DateArg
       (setUTCDate d
          (sub (getUTCDate d)
             (if jsnum_eq_dec (getUTCDay d) (Num 0) then Num 6
              else sub (getUTCDay d) (Num 1)))))
  = Threw invalidTime.
Proof. intros ->. reflexivity. Qed.

(** X4. A date string whose text before the first "T", followed by
    T00:00:00.000Z, the engine's Date constructor does not read as a
    date (its time value is NaN) makes getMonday throw the RangeError of
    toISOString, and so does such a Monday given to getNextMonday:
    neither returns a value. *)
Theorem malformed_date_throws (now : Z) :
  (forall s : string,
      s <> EmptyString ->
      parse (midnightZ (first (split "T" s))) = NaN ->
      getMonday now (Some (StrArg s)) = Threw invalidTime) /\
  (forall mondayStr : string,
      parse (midnightZ mondayStr) = NaN ->
      getNextMonday mondayStr = Threw invalidTime).
Proof.
  split.
  - intros s Hne Hp. unfold getMonday.
    replace (isFalsy (Some (StrArg s))) with false
      by (destruct s; [congruence|reflexivity]).
    cbn [formatDate bind]. apply monday_of_invalid_throws, Hp.
  - intros mondayStr Hp. unfold getNextMonday. rewrite Hp. reflexivity.
Qed.

End MalformedDates.

Section MalformedDatesScenario.
Import Time Str JSDate DateUtils.

#[local] Existing Instance plainHost.

Lemma malformed_date_throws_witness :
  ("next tuesday"%string <> EmptyString /\
   parse (midnightZ (first (split "T" "next tuesday"))) = NaN /\
   getMonday 0 (Some (StrArg "next tuesday")) = Threw invalidTime) /\
  (parse (midnightZ "someday") = NaN /\
   getNextMonday "someday" = Threw invalidTime).
Proof.
  destruct (malformed_date_throws 0) as [G1 G2].
  assert (H1 : "next tuesday"%string <> EmptyString) by discriminate.
  assert (H2 : parse (midnightZ (first (split "T" "next tuesday"))) = NaN)
    by reflexivity.
  assert (H3 : parse (midnightZ "someday") = NaN) by reflexivity.
  split.
  - split; [exact H1|]. split; [exact H2|]. exact (G1 _ H1 H2).
  - split; [exact H3|]. exact (G2 _ H3).
Defined.

End MalformedDatesScenario.

Section WeekKeys.
Import Time Str JSDate DateUtils.

Context {host : Host}.

Lemma weekKey_injective (t1 t2 : Z) :
  inWeekRange t1 -> inWeekRange t2 ->
  weekKey t1 = weekKey t2 -> mondayDay (Day t1) = mondayDay (Day t2).
Proof.
  intros H1 H2 E.
  destruct (inWeekRange_valid _ H1) as [Hr1 Hlo1].
  destruct (inWeekRange_valid _ H2) as [Hr2 Hlo2].
  pose proof (weekKey_parse _ Hr1 Hlo1) as P1.
  pose proof (weekKey_parse _ Hr2 Hlo2) as P2.
  rewrite E, P2 in P1. injection P1 as P1. unfold msPerDay in P1. lia.
Qed.

(** X5. Two Date objects get the same week key from getMonday exactly
    when they lie in the same week: between the midnight of one Monday
    (inclusive) and the midnight of the next (exclusive). *)
Theorem same_key_iff_same_week (now t1 t2 : Z) :
  inWeekRange t1 -> inWeekRange t2 ->
  getMonday now (Some (DateArg (Num t1)))
  = getMonday now (Some (DateArg (Num t2)))
  <->
  exists tm : Z,
    WeekDay tm = 1 /\ TimeWithinDay tm = 0 /\
    tm <= t1 < tm + 7 * msPerDay /\ tm <= t2 < tm + 7 * msPerDay.
Proof.
  intros H1 H2.
  rewrite (getMonday_wellFormed now _ _ (wf_date_object _ H1)).
  rewrite (getMonday_wellFormed now _ _ (wf_date_object _ H2)).
  pose proof (mondayDay_bounds (Day t1)) as B1.
  pose proof (mondayDay_bounds (Day t2)) as B2.
  pose proof (Day_TimeWithinDay t1) as D1.
  pose proof (Day_TimeWithinDay t2) as D2.
  pose proof (TimeWithinDay_bounds t1) as W1.
  pose proof (TimeWithinDay_bounds t2) as W2.
  split.
  - intros [= E]. apply weekKey_injective in E; [|assumption|assumption].
    exists (mondayDay (Day t1) * msPerDay). split; [|split; [|split]].
    + unfold WeekDay. rewrite Day_mul. apply mondayDay_is_monday.
    + unfold TimeWithinDay, msPerDay. dlia.
    + unfold MakeDate, msPerDay in *. lia.
    + rewrite E. unfold MakeDate, msPerDay in *. lia.
  - intros (tm & Hw & Hz & I1 & I2). f_equal. unfold weekKey.
    assert (E : mondayDay (Day t1) = mondayDay (Day t2)).
    { unfold WeekDay, TimeWithinDay, mondayDay, Day, msPerDay in *. dlia. }
    rewrite E. reflexivity.
Qed.

End WeekKeys.

Section WeekKeysScenario.
Import Time Str JSDate DateUtils.

#[local] Existing Instance plainHost.

Lemma same_key_iff_same_week_witness :
  inWeekRange 1757894400000 /\ inWeekRange 1758499199999 /\
  (getMonday 0 (Some (DateArg (Num 1757894400000)))
   = getMonday 0 (Some (DateArg (Num 1758499199999)))
   <->
   exists tm : Z,
     WeekDay tm = 1 /\ TimeWithinDay tm = 0 /\
     tm <= 1757894400000 < tm + 7 * msPerDay /\
     tm <= 1758499199999 < tm + 7 * msPerDay).
Proof.
  assert (H1 : inWeekRange 1757894400000) by (vm_compute; split; discriminate).
  assert (H2 : inWeekRange 1758499199999) by (vm_compute; split; discriminate).
  split; [exact H1|]. split; [exact H2|].
  exact (same_key_iff_same_week 0 _ _ H1 H2).
Defined.

End WeekKeysScenario.

Section DateScriptFacts.
Import Time Str JSDate DateUtils.

Context {host : Host}.

(** X6. Run without an argument (or with an empty one), date.js prints
    the Monday of the current week: a Monday at midnight UTC, not after
    the current time and less than seven days before it. *)
Theorem dateScript_prints_current_monday (now : Z) (argv2 : option string) :
  inWeekRange now ->
  Stars.truthy argv2 = None ->
  exists (m : string) (tm : Z),
    DateScript.run now argv2 = Returned m /\
    parse m = Num tm /\ WeekDay tm = 1 /\ TimeWithinDay tm = 0 /\
    tm <= now < tm + 7 * msPerDay.
Proof.
  intros Hin Harg. destruct (inWeekRange_valid _ Hin) as [Hr Hlo].
  unfold DateScript.run. rewrite Harg.
  rewrite (getMonday_wellFormed now _ _ (wf_date_object _ Hin)).
  exists (weekKey now), (mondayDay (Day now) * msPerDay).
  pose proof (mondayDay_bounds (Day now)) as B.
  pose proof (Day_TimeWithinDay now) as D.
  pose proof (TimeWithinDay_bounds now) as W.
  split; [reflexivity|]. split; [apply weekKey_parse; assumption|].
  split; [unfold WeekDay; rewrite Day_mul; apply mondayDay_is_monday|].
  split; [unfold TimeWithinDay, msPerDay; dlia|].
  unfold MakeDate, msPerDay in *. lia.
Qed.

End DateScriptFacts.

Section DateScriptScenario.
Import Time Str JSDate DateUtils.

#[local] Existing Instance plainHost.

Lemma dateScript_prints_current_monday_witness :
  inWeekRange 1758190000000 /\
  Stars.truthy (Some EmptyString) = None /\
  exists (m : string) (tm : Z),
    DateScript.run 1758190000000 (Some EmptyString) = Returned m /\
    parse m = Num tm /\ WeekDay tm = 1 /\ TimeWithinDay tm = 0 /\
    tm <= 1758190000000 < tm + 7 * msPerDay.
Proof.
  assert (H1 : inWeekRange 1758190000000) by (vm_compute; split; discriminate).
  assert (H2 : Stars.truthy (Some EmptyString) = None) by reflexivity.
  split; [exact H1|]. split; [exact H2|].
  exact (dateScript_prints_current_monday _ _ H1 H2).
Defined.

End DateScriptScenario.

(* ===================================================================== *)
(** * More on src/stars.js: repository names and fetching                 *)
(* ===================================================================== *)

Section RepoStrings.
Import Str Stars.

Context {host : Host}.

Lemma split_pieces_absent (sep : ascii) (r : string) :
  Forall (absent sep) (split sep r).
Proof.
  induction r as [|c r IH]; cbn [split].
  - repeat constructor.
  - destruct (Ascii.eqb c sep) eqn:E.
    + constructor; [exact I|exact IH].
    + destruct (split sep r) as [|h t]; [repeat constructor; assumption|].
      apply List.Forall_cons_iff in IH as [Hh Ht].
      constructor; [|exact Ht]. split; assumption.
Qed.

Lemma split_joined (sep : ascii) (o n : string) :
  absent sep o -> absent sep n -> split sep (o ++ String sep n) = [o; n].
Proof.
  intros Ho Hn. induction o as [|c o IH].
  - rewrite append_nil_l. cbn [split]. rewrite Ascii.eqb_refl.
    rewrite split_absent by assumption. reflexivity.
  - destruct Ho as [Hc Ho]. rewrite append_cons. cbn [split].
    rewrite Hc, (IH Ho). reflexivity.
Qed.

(** X7. parseRepoString accepts exactly the strings of the form
    owner/name with a single slash, and gives back the two parts (either
    may be empty); every other string makes it throw the "Invalid
    repository format" error. *)
Theorem parseRepoString_accepts_one_slash (repoString : string) :
  (exists owner name : string,
      repoString = (owner ++ "/" ++ name)%string /\
      absent "/" owner /\ absent "/" name /\
      parseRepoString repoString = Returned (owner, name)) \/
  ((forall owner name : string,
       absent "/" owner -> absent "/" name ->
       repoString <> (owner ++ "/" ++ name)%string) /\
   parseRepoString repoString
   = Threw (Error ("Invalid repository format: " ++ repoString
                   ++ ". Expected format: owner/repo")%string)).
Proof.
  assert (Hother :
            forall parts,
              split "/" repoString = parts ->
              (forall o n, parts <> [o; n]) ->
              forall owner name : string,
                absent "/" owner -> absent "/" name ->
                repoString <> (owner ++ "/" ++ name)%string).
  { intros parts Hs Hne owner name Ho Hn ->.
    change (owner ++ "/" ++ name)%string
      with (owner ++ String "/" name)%string in Hs.
    rewrite split_joined in Hs by assumption.
    exact (Hne _ _ (eq_sym Hs)). }
  pose proof (split_pieces_absent "/" repoString) as Hp.
  unfold parseRepoString.
  destruct (split "/" repoString) as [|o [|n [|x t]]] eqn:E.
  - right. split; [|reflexivity].
    apply (Hother [] eq_refl). discriminate.
  - right. split; [|reflexivity].
    apply (Hother [o] eq_refl). discriminate.
  - left. exists o, n.
    apply List.Forall_cons_iff in Hp as [Ho Hp].
    apply List.Forall_cons_iff in Hp as [Hn _].
    split; [apply split_two in E; exact E|]. auto.
  - right. split; [|reflexivity].
    apply (Hother (o :: n :: x :: t) eq_refl). discriminate.
Qed.

End RepoStrings.

Section Fetching.
Import Time Str JSDate DateUtils JSArray Stars.

Context {host : Host}.

Variable gh : Gh.

Lemma pushEdges_app (es1 es2 : list Edge) (acc : list DateObject) :
  pushEdges (es1 ++ es2) acc = pushEdges es2 (pushEdges es1 acc).
Proof.
  revert acc. induction es1 as [|e es1 IH]; intros acc; [reflexivity|].
  cbn [app pushEdges]. destruct (truthy (starredAt e)); apply IH.
Qed.

Lemma parse_valid (s : string) (i : nat) : validDate (mkDate i (parse s)).
Proof.
  unfold validDate. cbn [timeValue].
  destruct (parse s) as [|t] eqn:E; [exact I|]. eapply parse_range; eauto.
Qed.

Lemma pushEdges_invariant (es : list Edge) :
  forall acc : list DateObject,
    map oid acc = seq 0 (length acc) -> Forall validDate acc ->
    map oid (pushEdges es acc) = seq 0 (length (pushEdges es acc)) /\
    Forall validDate (pushEdges es acc).
Proof.
  induction es as [|e es IH]; intros acc Ho Hv; [auto|].
  cbn [pushEdges]. destruct (truthy (starredAt e)) as [at_|]; [|auto].
  apply IH.
  - rewrite map_app, length_app, Ho. cbn [map oid length].
    rewrite seq_app. reflexivity.
  - apply Forall_app. split; [exact Hv|].
    constructor; [apply parse_valid|constructor].
Qed.

Lemma fetchPages_invariant (owner name : string) (n : nat) :
  forall (after : option string) (acc : list DateObject) (st st' : ProcState)
         (r : list DateObject),
    map oid acc = seq 0 (length acc) -> Forall validDate acc ->
    fetchPages gh n owner name after acc st = Ok r st' ->
    map oid r = seq 0 (length r) /\ Forall validDate r.
Proof.
  induction n as [|n IH]; intros after acc st st' r Ho Hv;
    cbn [fetchPages]; [discriminate|].
  unfold andThen at 1.
  destruct (Github.runGraphQL gh "stargazersQuery" _ st)
    as [result st1|e st1|c st1|]; try discriminate.
  destruct (result_stargazers result) as [sd|].
  - destruct (pushEdges_invariant (edges sd) acc Ho Hv) as [Ho' Hv'].
    destruct (hasNextPage (pageInfo sd)).
    + apply IH; assumption.
    + unfold ret. intros [= <- _]. auto.
  - unfold andThen, console_error, ret. intros [= <- _]. auto.
Qed.

(** X8. Whatever the replies of [gh], the array that fetchAllStargazers
    returns holds Date objects that are distinct by identity (the i-th
    was the i-th to be pushed) and whose time value is NaN or inside the
    time range; getting it took at least one spawn of [gh]. *)
Theorem fetchAllStargazers_result (fuel : nat) (owner name : string)
  (st st' : ProcState) (stargazers : list DateObject) :
  fetchAllStargazers gh fuel owner name st = Ok stargazers st' ->
  map oid stargazers = seq 0 (length stargazers) /\
  List.NoDup stargazers /\
  Forall validDate stargazers /\
  (calls st < calls st')%nat.
Proof.
  intros H. unfold fetchAllStargazers in H.
  destruct (fetchPages_invariant owner name fuel None [] st st' stargazers
              eq_refl (List.Forall_nil _) H) as [Ho Hv].
  split; [exact Ho|]. split; [|split; [exact Hv|]].
  - apply (NoDup_map_inv oid). rewrite Ho. apply seq_NoDup.
  - eapply fetchPages_calls. exact H.
Qed.

Lemma fetchPages_pages (owner name : string) (pages : list StargazerData) :
  forall (fuel : nat) (after : option string) (acc : list DateObject)
         (st : ProcState),
    pages <> [] ->
    servesPages gh owner name (calls st) after pages ->
    (length pages <= fuel)%nat ->
    fetchPages gh fuel owner name after acc st
    = Ok (pushEdges (concat (map edges pages)) acc)
         (mkProcState (calls st + length pages) (errors st)).
Proof.
  induction pages as [|page rest IH]; intros fuel after acc st Hne Hs Hf;
    [congruence|].
  destruct fuel as [|fuel]; [cbn [length] in Hf; lia|].
  cbn [servesPages] in Hs. destruct Hs as (Hg & Hn & Hrest).
  cbn [fetchPages]. unfold andThen at 1. unfold Github.runGraphQL.
  rewrite Hg. cbn [result_errors result_stargazers].
  cbn [map concat]. rewrite pushEdges_app. rewrite Hn.
  destruct rest as [|page2 rest].
  - unfold ret. cbn [map concat pushEdges length]. do 2 f_equal. lia.
  - rewrite (IH fuel); cbn [calls errors].
    + do 2 f_equal. cbn [length]. lia.
    + discriminate.
    + exact Hrest.
    + cbn [length] in *. lia.
Qed.

(** X9. Pagination: when [gh] serves a sequence of pages, each asked for
    with the cursor of the page before and each but the last announcing
    a next page, fetchAllStargazers spawns [gh] once per page, reports
    no error, and returns one Date object for each edge that carries a
    starredAt (neither null nor empty), with the time value of that
    date, in the order of the pages and of their edges, the i-th object
    being the i-th that was pushed; the other edges are left out. *)
Theorem fetchAllStargazers_collects_pages (fuel : nat) (owner name : string)
  (pages : list StargazerData) (st : ProcState) :
  pages <> [] ->
  servesPages gh owner name (calls st) None pages ->
  (length pages <= fuel)%nat ->
  let dates := starDates (concat (map edges pages)) in
  fetchAllStargazers gh fuel owner name st
  = Ok (map (fun p => mkDate (fst p) (parse (snd p)))
            (combine (seq 0 (length dates)) dates))
       (mkProcState (calls st + length pages) (errors st)).
Proof.
  intros Hne Hs Hf. cbv zeta.
  change (map (fun p => mkDate (fst p) (parse (snd p)))
              (combine (seq 0 (length (starDates (concat (map edges pages)))))
                       (starDates (concat (map edges pages)))))
    with (collected pages).
  rewrite <- pushEdges_collected. apply fetchPages_pages; assumption.
Qed.

End Fetching.

(* ===================================================================== *)
(** * More on the aggregator: what the stored values count                *)
(* ===================================================================== *)

Section AggregatorCounts.
Import Time Str JSDate DateUtils JSArray Stars.

Context {host : Host}.

Lemma inWeekRange_intro (t : Z) :
  - maxTime <= t <= maxTime -> firstMondayDay <= Day t -> inWeekRange t.
Proof.
  unfold inWeekRange, firstMondayDay, maxTime, Day, msPerDay. intros H1 H2.
  split; [dlia|lia].
Qed.

Lemma StronglySorted_app_l (R : DateObject -> DateObject -> Prop)
  (a b : list DateObject) :
  StronglySorted R (a ++ b) -> StronglySorted R a.
Proof.
  induction a as [|x a IH]; cbn [app]; intros H; [constructor|].
  apply StronglySorted_inv in H as [Hs Hf].
  constructor; [auto|].
  rewrite List.Forall_forall in *. intros y Hy. apply Hf, in_or_app. auto.
Qed.

Lemma upToWeek_all (t : Z) (p : list DateObject) :
  (forall s, In s p ->
     exists x, timeValue s = Num x /\ mondayDay (Day x) <= mondayDay (Day t)) ->
  upToWeek t p = p.
Proof.
  intros H. unfold upToWeek. induction p as [|s p IH]; [reflexivity|].
  cbn [List.filter]. destruct (H s (or_introl eq_refl)) as (x & -> & Hx).
  destruct (Z.leb_spec (mondayDay (Day x)) (mondayDay (Day t))); [|lia].
  f_equal. apply IH. intros s' Hs'. apply H. right. exact Hs'.
Qed.

(** After the loop over a sorted array: the key of the week of every
    event holds the number of events up to that week, and there are no
    other keys. *)
Lemma cumulativeLoop_counts (now : Z) (p : list DateObject) :
  StronglySorted notAfter p -> Forall validDate p -> Forall hasTime p ->
  forall c : Obj.t Z,
    cumulativeLoop now 0 p Obj.empty = Returned c ->
    (forall s t, In s p -> timeValue s = Num t ->
       inWeekRange t /\
       Obj.get (weekKey t) c = Some (Z.of_nat (length (upToWeek t p)))) /\
    (forall k, In k (Obj.keys c) ->
       exists s t, In s p /\ timeValue s = Num t /\ k = weekKey t).
Proof.
  induction p as [|x q IH] using rev_ind; intros Hs Hv Ht c Hc.
  - injection Hc as <-. split; [intros s t []|intros k []].
  - rewrite cumulativeLoop_app in Hc.
    destruct (cumulativeLoop now 0 q Obj.empty) as [c1|e] eqn:E1;
      cbn [bind] in Hc; [|discriminate].
    apply Forall_app in Hv as [Hvq Hvx]. apply Forall_app in Ht as [Htq Htx].
    apply List.Forall_cons_iff in Hvx as [Hvx _].
    apply List.Forall_cons_iff in Htx as [Htx _].
    specialize (IH (StronglySorted_app_l _ _ _ Hs) Hvq Htq c1 eq_refl).
    destruct IH as [IHget IHkeys].
    unfold validDate, hasTime in Hvx, Htx.
    destruct (timeValue x) as [|tx] eqn:Ex; [congruence|].
    cbn [cumulativeLoop] in Hc. rewrite Ex in Hc.
    destruct (getMonday now (Some (DateArg (Num tx)))) as [kx|e] eqn:Ek;
      cbn [bind] in Hc; [|discriminate].
    injection Hc as <-.
    destruct (getMonday_Date_inv _ _ _ Hvx Ek) as [Hlo ->].
    pose proof (inWeekRange_intro _ Hvx Hlo) as Hinx.
    assert (Hbefore : forall y, In y q ->
              exists ty, timeValue y = Num ty /\ ty <= tx).
    { intros y Hy. pose proof (StronglySorted_last _ _ _ _ Hs Hy) as Hna.
      apply notAfter_elim in Hna as (a & b & Ea & Eb & Hab).
      rewrite Ex in Eb. injection Eb as <-. eauto. }
    split.
    + intros s t Hin Hst.
      assert (Hint : inWeekRange t).
      { apply in_app_or in Hin as [Hq|[<-|[]]].
        - apply (IHget _ _ Hq Hst).
        - rewrite Ex in Hst. injection Hst as <-. exact Hinx. }
      split; [exact Hint|].
      assert (Hle : mondayDay (Day t) <= mondayDay (Day tx)).
      { apply in_app_or in Hin as [Hq|[<-|[]]].
        - destruct (Hbefore _ Hq) as (ty & Ey & Hy).
          rewrite Hst in Ey. injection Ey as <-.
          apply mondayDay_mono, Day_mono, Hy.
        - rewrite Ex in Hst. injection Hst as <-. lia. }
      unfold upToWeek. rewrite List.filter_app. fold (upToWeek t q).
      cbn [List.filter]. rewrite Ex, length_app.
      destruct (String.eqb_spec (weekKey tx) (weekKey t)) as [Ekey|Ekey].
      * rewrite <- Ekey, get_set_eq.
        apply weekKey_injective in Ekey; [|assumption|assumption].
        rewrite upToWeek_all.
        { destruct (Z.leb_spec (mondayDay (Day tx)) (mondayDay (Day t)));
            [|lia].
          cbn [length]. f_equal. lia. }
        intros y Hy. destruct (Hbefore _ Hy) as (ty & Ey & Hyle).
        exists ty. split; [exact Ey|].
        pose proof (mondayDay_mono _ _ (Day_mono _ _ Hyle)). lia.
      * rewrite get_set_ne by congruence.
        assert (Hq : In s q).
        { apply in_app_or in Hin as [Hq|[<-|[]]]; [exact Hq|].
          rewrite Ex in Hst. injection Hst as <-. congruence. }
        destruct (IHget _ _ Hq Hst) as [_ ->].
        destruct (Z.leb_spec (mondayDay (Day tx)) (mondayDay (Day t)))
          as [Hle2|]; [|cbn [length]; f_equal; lia].
        exfalso. apply Ekey. unfold weekKey.
        replace (mondayDay (Day tx)) with (mondayDay (Day t)) by lia.
        reflexivity.
    + intros k Hk. rewrite keys_set in Hk.
      assert (Hcases : In k (Obj.keys c1) \/ k = weekKey tx).
      { destruct (Obj.get (weekKey tx) c1); [left; exact Hk|].
        apply in_app_or in Hk as [Hk|[<-|[]]]; auto. }
      destruct Hcases as [Hk1| ->].
      * destruct (IHkeys _ Hk1) as (s & t & Hin & Hst & ->).
        exists s, t. split; [apply in_or_app; left; exact Hin|]. auto.
      * exists x, tx. split; [apply in_or_app; right; left; reflexivity|].
        auto.
Qed.

Lemma filter_Permutation (p : DateObject -> bool) (l l' : list DateObject) :
  Permutation l l' -> Permutation (List.filter p l) (List.filter p l').
Proof.
  induction 1 as [|x l l' _ IH|x y l|l l' l'' _ IH1 _ IH2];
    cbn [List.filter].
  - constructor.
  - destruct (p x); [constructor|]; exact IH.
  - destruct (p x), (p y); try reflexivity. apply perm_swap.
  - etransitivity; eassumption.
Qed.

Lemma upToWeek_kept (ub t : Z) (l : list DateObject) :
  upToWeek t (List.filter (fun s => lt (timeValue s) (Num ub)) l)
  = eventsUpToWeek ub t l.
Proof.
  unfold upToWeek, eventsUpToWeek. induction l as [|s l IH]; [reflexivity|].
  cbn [List.filter]. destruct (timeValue s) as [|x] eqn:Es; cbn [lt].
  - exact IH.
  - destruct (x <? ub); cbn [List.filter andb]; [rewrite Es|]; rewrite IH;
      reflexivity.
Qed.

(** X10. Every value of the series is a cumulative count: the key of the
    week of an event before the upper bound holds the number of events
    before the bound whose week is that week or an earlier one; and every
    key of the series is the week of such an event. *)
Theorem cumulative_value_counts_events (now : Z)
  (stargazers : list DateObject) (finalWeek finalMonday : string) (ub : Z)
  (series : Obj.t Z) :
  Forall validDate stargazers ->
  getNextMonday finalWeek = Returned finalMonday ->
  parse (midnightZ finalMonday) = Num ub ->
  generateCumulativeData now stargazers finalWeek = Returned series ->
  (forall star t,
      In star stargazers -> timeValue star = Num t -> t < ub ->
      Obj.get (weekKey t) series
      = Some (Z.of_nat (length (eventsUpToWeek ub t stargazers)))) /\
  (forall k, In k (Obj.keys series) ->
     exists star t,
       In star stargazers /\ timeValue star = Num t /\ t < ub /\
       k = weekKey t).
Proof.
  intros Hv Hfm Hub Hgen.
  rewrite (generateCumulativeData_unfold _ _ _ _ Hfm), Hub in Hgen.
  set (f := filteredStargazers stargazers (Num ub)) in *.
  assert (Hperm : Permutation f
            (List.filter (fun s => lt (timeValue s) (Num ub)) stargazers))
    by apply sort_Permutation.
  assert (Hft : Forall hasTime f).
  { eapply Permutation_Forall; [symmetry; exact Hperm|]. apply kept_hasTime. }
  destruct (cumulativeLoop_counts now f
              (sort_sorted _ (kept_hasTime (Num ub) stargazers))
              (filteredStargazers_valid _ _ Hv) Hft series Hgen)
    as [Hget Hkeys].
  split.
  - intros star t Hin Hst Hlt.
    assert (Hf : In star f).
    { apply (Permutation_in _ (Permutation_sym Hperm)), filter_In.
      split; [exact Hin|]. rewrite Hst. cbn [lt]. apply Z.ltb_lt, Hlt. }
    destruct (Hget _ _ Hf Hst) as [_ ->]. do 2 f_equal.
    rewrite <- upToWeek_kept. apply Permutation_length.
    apply filter_Permutation, Hperm.
  - intros k Hk. destruct (Hkeys _ Hk) as (s & t & Hin & Hst & ->).
    apply (Permutation_in _ Hperm), filter_In in Hin as [Hin Hlt].
    rewrite Hst in Hlt. cbn [lt] in Hlt. apply Z.ltb_lt in Hlt.
    exists s, t. auto.
Qed.

End AggregatorCounts.

Section FetchingScenarios.
Import Time Str JSDate DateUtils JSArray Stars.

#[local] Existing Instance plainHost.

Lemma fetchAllStargazers_result_witness :
  fetchAllStargazers pagedGh 5 "a" "b" startState
  = Ok [mkDate 0 (Num 1757491200000); mkDate 1 (Num 1757583000000);
        mkDate 2 (Num 1758178800000)] (mkProcState 2 []) /\
  map oid [mkDate 0 (Num 1757491200000); mkDate 1 (Num 1757583000000);
           mkDate 2 (Num 1758178800000)]
  = seq 0 (length [mkDate 0 (Num 1757491200000);
                   mkDate 1 (Num 1757583000000);
                   mkDate 2 (Num 1758178800000)]) /\
  List.NoDup [mkDate 0 (Num 1757491200000); mkDate 1 (Num 1757583000000);
              mkDate 2 (Num 1758178800000)] /\
  Forall validDate [mkDate 0 (Num 1757491200000);
                    mkDate 1 (Num 1757583000000);
                    mkDate 2 (Num 1758178800000)] /\
  (calls startState < calls (mkProcState 2 []))%nat.
Proof.
  assert (H : fetchAllStargazers pagedGh 5 "a" "b" startState
              = Ok [mkDate 0 (Num 1757491200000);
                    mkDate 1 (Num 1757583000000);
                    mkDate 2 (Num 1758178800000)] (mkProcState 2 []))
    by (vm_compute; reflexivity).
  split; [exact H|].
  exact (fetchAllStargazers_result pagedGh 5 "a" "b" _ _ _ H).
Defined.

Lemma fetchAllStargazers_collects_pages_witness :
  pagedPages <> [] /\
  servesPages pagedGh "a" "b" (calls startState) None pagedPages /\
  (length pagedPages <= 5)%nat /\
  starDates (concat (map edges pagedPages))
  = ["2025-09-10T08:00:00Z"; "2025-09-11T09:30:00Z";
     "2025-09-18T07:00:00Z"]%string /\
  fetchAllStargazers pagedGh 5 "a" "b" startState
  = Ok [mkDate 0 (parse "2025-09-10T08:00:00Z");
        mkDate 1 (parse "2025-09-11T09:30:00Z");
        mkDate 2 (parse "2025-09-18T07:00:00Z")]
       (mkProcState 2 []).
Proof.
  assert (H1 : pagedPages <> []) by discriminate.
  assert (H2 : servesPages pagedGh "a" "b" (calls startState) None pagedPages)
    by (cbn; repeat split).
  assert (H3 : (length pagedPages <= 5)%nat) by (cbn; lia).
  split; [exact H1|]. split; [exact H2|]. split; [exact H3|].
  split; [reflexivity|].
  exact (fetchAllStargazers_collects_pages pagedGh 5 "a" "b" _ _ H1 H2 H3).
Defined.

Lemma cumulative_value_counts_events_witness :
  Forall validDate boundaryEvents /\
  getNextMonday "2025-09-15" = Returned "2025-09-22"%string /\
  parse (midnightZ "2025-09-22") = Num 1758499200000 /\
  generateCumulativeData 0 boundaryEvents "2025-09-15"
  = Returned [("2025-09-08", 1); ("2025-09-15", 2)]%string /\
  (forall star t,
      In star boundaryEvents -> timeValue star = Num t ->
      t < 1758499200000 ->
      Obj.get (weekKey t) [("2025-09-08", 1); ("2025-09-15", 2)]%string
      = Some (Z.of_nat
                (length (eventsUpToWeek 1758499200000 t boundaryEvents)))) /\
  (forall k, In k (Obj.keys [("2025-09-08", 1); ("2025-09-15", 2)]%string) ->
     exists star t,
       In star boundaryEvents /\ timeValue star = Num t /\
       t < 1758499200000 /\ k = weekKey t).
Proof.
  assert (H0 : Forall validDate boundaryEvents).
  { unfold boundaryEvents, validDate.
    repeat (apply List.Forall_cons; [vm_compute; split; discriminate|]).
    apply List.Forall_nil. }
  assert (H1 : getNextMonday "2025-09-15" = Returned "2025-09-22"%string)
    by (vm_compute; reflexivity).
  assert (H2 : parse (midnightZ "2025-09-22") = Num 1758499200000)
    by (vm_compute; reflexivity).
  assert (H3 : generateCumulativeData 0 boundaryEvents "2025-09-15"
               = Returned [("2025-09-08", 1); ("2025-09-15", 2)]%string)
    by (vm_compute; reflexivity).
  split; [exact H0|]. split; [exact H1|]. split; [exact H2|].
  split; [exact H3|].
  exact (cumulative_value_counts_events 0 boundaryEvents _ _ _ _ H0 H1 H2 H3).
Defined.

End FetchingScenarios.

(* ===================================================================== *)
(** * More on the aggregator: order of the input, empty results           *)
(* ===================================================================== *)

Section AggregatorOrder.
Import Time Str JSDate DateUtils JSArray Stars.

Context {host : Host}.

Lemma timeValue_timeZ (l : list DateObject) :
  Forall hasTime l -> map timeValue l = map Num (map timeZ l).
Proof.
  induction 1 as [|d l Hd _ IH]; [reflexivity|].
  cbn [map]. rewrite IH. f_equal. unfold timeZ, hasTime in *.
  destruct (timeValue d); [congruence|reflexivity].
Qed.

Lemma sorted_timeZ (l : list DateObject) :
  StronglySorted notAfter l -> StronglySorted Z.le (map timeZ l).
Proof.
  induction 1 as [|d l _ IH Hd]; cbn [map]; constructor; [exact IH|].
  rewrite List.Forall_forall in *. intros z Hz.
  apply in_map_iff in Hz as (y & <- & Hy).
  destruct (notAfter_elim _ _ (Hd _ Hy)) as (a & b & Ea & Eb & Hab).
  unfold timeZ. rewrite Ea, Eb. exact Hab.
Qed.

Lemma sorted_Permutation_eq (l1 : list Z) :
  forall l2 : list Z,
    StronglySorted Z.le l1 -> StronglySorted Z.le l2 ->
    Permutation l1 l2 -> l1 = l2.
Proof.
  induction l1 as [|a l1 IH]; intros l2 H1 H2 Hp.
  - apply Permutation_nil in Hp. auto.
  - destruct l2 as [|b l2];
      [apply Permutation_sym, Permutation_nil in Hp; discriminate|].
    apply StronglySorted_inv in H1 as [S1 F1].
    apply StronglySorted_inv in H2 as [S2 F2].
    rewrite List.Forall_forall in F1, F2.
    assert (Hab : a = b).
    { assert (Hb : In b (a :: l1))
        by (apply (Permutation_in _ (Permutation_sym Hp)); left; reflexivity).
      assert (Ha : In a (b :: l2))
        by (apply (Permutation_in _ Hp); left; reflexivity).
      destruct Hb as [Hb|Hb]; [auto|].
      destruct Ha as [Ha|Ha]; [auto|].
      pose proof (F1 _ Hb). pose proof (F2 _ Ha). lia. }
    subst b. f_equal. apply IH; auto.
    eapply Permutation_cons_inv; eauto.
Qed.

Lemma cumulativeLoop_times (now : Z) (a : list DateObject) :
  forall (b : list DateObject) (i : Z) (c : Obj.t Z),
    map timeValue a = map timeValue b ->
    cumulativeLoop now i a c = cumulativeLoop now i b c.
Proof.
  induction a as [|x a IH]; intros [|y b] i c H; try discriminate;
    [reflexivity|].
  cbn [map] in H. injection H as Hx H. cbn [cumulativeLoop]. rewrite Hx.
  destruct (getMonday now (Some (DateArg (timeValue y)))); cbn [bind];
    [apply IH; exact H|reflexivity].
Qed.

Lemma filteredStargazers_times (l l' : list DateObject) (ub : jsnum) :
  Permutation l l' ->
  map timeValue (filteredStargazers l ub)
  = map timeValue (filteredStargazers l' ub).
Proof.
  intros Hp.
  assert (Hk : forall m, Forall hasTime (filteredStargazers m ub)).
  { intros m. eapply Permutation_Forall; [symmetry; apply sort_Permutation|].
    apply kept_hasTime. }
  rewrite !timeValue_timeZ by apply Hk. f_equal.
  apply sorted_Permutation_eq.
  - apply sorted_timeZ, sort_sorted, kept_hasTime.
  - apply sorted_timeZ, sort_sorted, kept_hasTime.
  - apply Permutation_map. unfold filteredStargazers.
    rewrite !sort_Permutation. apply filter_Permutation, Hp.
Qed.

(** X11. The series does not depend on the order in which the events
    were fetched: any rearrangement of the input array gives the same
    result (the same series, keys in the same order, or the same
    exception). *)
Theorem generateCumulativeData_any_order (now : Z)
  (stargazers stargazers' : list DateObject) (finalWeek : string) :
  Permutation stargazers stargazers' ->
  generateCumulativeData now stargazers finalWeek
  = generateCumulativeData now stargazers' finalWeek.
Proof.
  intros Hp. unfold generateCumulativeData.
  rewrite (Permutation_length Hp).
  destruct (length stargazers' =? 0)%nat; [reflexivity|].
  destruct (getNextMonday finalWeek) as [fm|e]; cbn [bind]; [|reflexivity].
  pose proof (filteredStargazers_times _ _ (parse (midnightZ fm)) Hp) as Ht.
  assert (Hl : length (filteredStargazers stargazers (parse (midnightZ fm)))
               = length (filteredStargazers stargazers'
                           (parse (midnightZ fm)))).
  { rewrite <- (length_map timeValue), Ht, length_map. reflexivity. }
  rewrite Hl.
  destruct (length (filteredStargazers stargazers' _) =? 0)%nat;
    [reflexivity|].
  apply cumulativeLoop_times, Ht.
Qed.

End AggregatorOrder.

Section AggregatorOrderScenario.
Import Time Str JSDate DateUtils JSArray Stars.

#[local] Existing Instance plainHost.

Lemma generateCumulativeData_any_order_witness :
  Permutation boundaryEvents (rev boundaryEvents) /\
  generateCumulativeData 0 boundaryEvents "2025-09-15"
  = generateCumulativeData 0 (rev boundaryEvents) "2025-09-15".
Proof.
  assert (H : Permutation boundaryEvents (rev boundaryEvents))
    by apply Permutation_rev.
  split; [exact H|].
  exact (generateCumulativeData_any_order 0 _ _ "2025-09-15" H).
Defined.

End AggregatorOrderScenario.

Section EmptySeries.
Import Time Str JSDate DateUtils JSArray Stars.

Context {host : Host}.

Lemma set_nonempty (k : string) (v : Z) (c : Obj.t Z) : Obj.set k v c <> [].
Proof.
  destruct c as [|[k' v'] r]; cbn [Obj.set]; [discriminate|].
  destruct (String.eqb k' k); discriminate.
Qed.

Lemma cumulativeLoop_nonempty (now : Z) (stars : list DateObject) :
  forall (i : Z) (c c' : Obj.t Z),
    cumulativeLoop now i stars c = Returned c' ->
    stars <> [] \/ c <> [] -> c' <> [].
Proof.
  induction stars as [|x rest IH]; intros i c c'; cbn [cumulativeLoop].
  - intros [= <-] [H|H]; [congruence|exact H].
  - destruct (getMonday now (Some (DateArg (timeValue x)))) as [k|e];
      cbn [bind]; [|discriminate].
    intros H _. apply (IH _ _ _ H). right. apply set_nonempty.
Qed.

Lemma filter_nil_iff (f : DateObject -> bool) (l : list DateObject) :
  List.filter f l = [] <-> forall x, In x l -> f x = false.
Proof.
  induction l as [|y l IH]; cbn [List.filter].
  - split; [intros _ x []|reflexivity].
  - destruct (f y) eqn:E.
    + split; [discriminate|]. intros H.
      rewrite (H y (or_introl eq_refl)) in E. discriminate.
    + rewrite IH. split.
      * intros H x [<-|Hx]; [exact E|apply H, Hx].
      * intros H x Hx. apply H. right. exact Hx.
Qed.

(** X12. When the series is empty, and when the reference week is no
    date.  The aggregator returns the empty series in exactly two
    cases: there are no events, and then the reference week is not even
    looked at; or getNextMonday accepts the reference week and no event
    is before the upper bound.  With events, a reference week that the
    engine's Date constructor does not read as a date makes the call
    throw the RangeError of toISOString. *)
Theorem empty_series_cases (now : Z) (finalWeek : string) :
  generateCumulativeData now [] finalWeek = Returned Obj.empty /\
  (forall stargazers : list DateObject,
      generateCumulativeData now stargazers finalWeek = Returned Obj.empty <->
      stargazers = [] \/
      exists finalMonday : string,
        getNextMonday finalWeek = Returned finalMonday /\
        forall star, In star stargazers ->
          lt (timeValue star) (parse (midnightZ finalMonday)) = false) /\
  (forall stargazers : list DateObject,
      stargazers <> [] ->
      parse (midnightZ finalWeek) = NaN ->
      generateCumulativeData now stargazers finalWeek = Threw invalidTime).
Proof.
  split; [reflexivity|]. split.
  - intros stargazers. split.
    + intros H. destruct stargazers as [|s l]; [left; reflexivity|right].
      unfold generateCumulativeData in H. cbn [length Nat.eqb] in H.
      destruct (getNextMonday finalWeek) as [fm|e]; cbn [bind] in H;
        [|discriminate].
      exists fm. split; [reflexivity|].
      apply filter_nil_iff.
      unfold filteredStargazers in H.
      destruct (List.filter _ (s :: l)) as [|y r] eqn:Ef; [reflexivity|].
      exfalso.
      assert (Hne : sort byTime (y :: r) <> []).
      { intros E. apply (f_equal (@length DateObject)) in E.
        rewrite sort_length in E. discriminate. }
      destruct (sort byTime (y :: r)) as [|z q] eqn:Es; [congruence|].
      cbn [length Nat.eqb] in H.
      apply cumulativeLoop_nonempty in H; [|left; discriminate].
      apply H. reflexivity.
    + intros [->|(fm & Hfm & Hnone)]; [reflexivity|].
      rewrite (generateCumulativeData_unfold _ _ _ _ Hfm).
      unfold filteredStargazers.
      replace (List.filter _ stargazers) with (@nil DateObject);
        [reflexivity|].
      symmetry. apply filter_nil_iff. exact Hnone.
  - intros stargazers Hne Hp. unfold generateCumulativeData.
    destruct stargazers as [|s l]; [congruence|]. cbn [length Nat.eqb].
    unfold getNextMonday. rewrite Hp. reflexivity.
Qed.

End EmptySeries.

Section EmptySeriesScenario.
Import Time Str JSDate DateUtils JSArray Stars.

#[local] Existing Instance plainHost.

Lemma empty_series_cases_witness :
  generateCumulativeData 0 [] "2025-09-15" = Returned Obj.empty /\
  ((exists finalMonday : string,
       getNextMonday "2025-09-01" = Returned finalMonday /\
       forall star, In star scenarioEvents ->
         lt (timeValue star) (parse (midnightZ finalMonday)) = false) /\
   generateCumulativeData 0 scenarioEvents "2025-09-01" = Returned Obj.empty) /\
  (scenarioEvents <> [] /\
   parse (midnightZ "this week") = NaN /\
   generateCumulativeData 0 scenarioEvents "this week" = Threw invalidTime).
Proof.
  destruct (empty_series_cases 0 "2025-09-15") as [G1 _].
  destruct (empty_series_cases 0 "2025-09-01") as [_ [G2 _]].
  destruct (empty_series_cases 0 "this week") as [_ [_ G3]].
  assert (H1 : scenarioEvents <> []) by discriminate.
  assert (H2 : parse (midnightZ "this week") = NaN) by reflexivity.
  assert (H3 : exists finalMonday : string,
             getNextMonday "2025-09-01" = Returned finalMonday /\
             forall star, In star scenarioEvents ->
               lt (timeValue star) (parse (midnightZ finalMonday)) = false).
  { exists "2025-09-08"%string. split; [vm_compute; reflexivity|].
    intros star [<-|[<-|[<-|[]]]]; vm_compute; reflexivity. }
  split; [exact G1|]. split.
  - split; [exact H3|]. exact (proj2 (G2 scenarioEvents) (or_intror H3)).
  - split; [exact H1|]. split; [exact H2|]. exact (G3 _ H1 H2).
Defined.

End EmptySeriesScenario.

(* ===================================================================== *)
(** * Sorting by text                                                     *)
(* ===================================================================== *)

Section TextOrder.
Import JSArray.

Context {host : Host}.

Lemma notAfterText_trans (a : string) :
  forall b c : string,
    notAfterText a b -> notAfterText b c -> notAfterText a c.
Proof.
  unfold notAfterText.
  induction a as [|x a IH]; intros b c Hab Hbc.
  - destruct c; cbn; discriminate.
  - destruct b as [|y b]; [cbn in Hab; congruence|].
    destruct c as [|z c]; [cbn in Hbc; congruence|].
    cbn [String.compare] in *. unfold Ascii.compare in *.
    destruct (N.compare_spec (N_of_ascii x) (N_of_ascii y)) as [Exy|Lxy|Gxy];
      destruct (N.compare_spec (N_of_ascii y) (N_of_ascii z))
        as [Eyz|Lyz|Gyz]; try congruence.
    + rewrite Exy, Eyz, N.compare_refl. eapply IH; eassumption.
    + replace (N_of_ascii x ?= N_of_ascii z)%N with Lt
        by (symmetry; apply N.compare_lt_iff; lia).
      discriminate.
    + replace (N_of_ascii x ?= N_of_ascii z)%N with Lt
        by (symmetry; apply N.compare_lt_iff; lia).
      discriminate.
    + replace (N_of_ascii x ?= N_of_ascii z)%N with Lt
        by (symmetry; apply N.compare_lt_iff; lia).
      discriminate.
Qed.

Lemma compare_Gt_notAfterText (a b : string) :
  String.compare a b = Gt -> notAfterText b a.
Proof.
  unfold notAfterText. rewrite (String.compare_antisym a b).
  destruct (String.compare b a); cbn; congruence.
Qed.

Lemma positive_compareStrings (a b : string) :
  positive (compareStrings a b) = true <-> String.compare a b = Gt.
Proof.
  unfold compareStrings. destruct (String.compare a b); cbn;
    split; congruence.
Qed.

Lemma compare_append_same_length (k1 : string) :
  forall k2 s1 s2 : string,
    String.length k1 = String.length k2 -> k1 <> k2 ->
    String.compare (k1 ++ s1) (k2 ++ s2) = String.compare k1 k2.
Proof.
  induction k1 as [|x k1 IH]; intros [|y k2] s1 s2 Hl Hne;
    try discriminate; [congruence|].
  rewrite !append_cons. cbn [String.compare].
  destruct (Ascii.compare x y) eqn:E; try reflexivity.
  apply Ascii.compare_eq_iff in E. subst y.
  apply IH; [cbn in Hl; congruence|congruence].
Qed.

Section ByText.
Variable A : Type.
Variable text : A -> string.

Let byText (a b : A) : jsnum := compareStrings (text a) (text b).
Let inOrder (a b : A) : Prop := notAfterText (text a) (text b).

Lemma insert_text_sorted (x : A) (l : list A) :
  StronglySorted inOrder l -> StronglySorted inOrder (insert byText x l).
Proof.
  induction 1 as [|y r Hr IH Hy]; cbn [insert].
  - repeat constructor.
  - destruct (positive (byText x y)) eqn:E.
    + constructor; [exact IH|].
      eapply Permutation_Forall;
        [symmetry; apply insert_Permutation|].
      constructor; [|exact Hy].
      apply compare_Gt_notAfterText, positive_compareStrings, E.
    + assert (Hxy : inOrder x y).
      { unfold inOrder, notAfterText. intros HG.
        apply positive_compareStrings in HG. unfold byText in E.
        congruence. }
      constructor; [constructor; assumption|].
      constructor; [exact Hxy|].
      eapply List.Forall_impl; [|exact Hy].
      intros b Hb. eapply notAfterText_trans; eassumption.
Qed.

Lemma sort_text_sorted (l : list A) :
  StronglySorted inOrder (sort byText l).
Proof.
  induction l as [|x l IH]; cbn [sort fold_right]; [constructor|].
  apply insert_text_sorted, IH.
Qed.

End ByText.

End TextOrder.

(* ===================================================================== *)
(** * What main writes                                                    *)
(* ===================================================================== *)

Section SeriesRebuilt.
Import Time Str JSDate DateUtils JSArray Stars.

Context {host : Host}.

Lemma set_fresh (k : string) (v : Z) (o : Obj.t Z) :
  ~ In k (Obj.keys o) -> Obj.set k v o = o ++ [(k, v)].
Proof.
  induction o as [|[k0 v0] o IH]; cbn [Obj.set]; [reflexivity|].
  unfold Obj.keys. cbn [map fst]. intros Hni.
  destruct (String.eqb_spec k0 k) as [->|];
    [exfalso; apply Hni; left; reflexivity|].
  cbn [app]. f_equal. apply IH. unfold Obj.keys.
  intros Hin. apply Hni. right. exact Hin.
Qed.

Lemma fold_set_fresh (es : list (string * Z)) :
  forall o : Obj.t Z,
    List.NoDup (Obj.keys o ++ map fst es) ->
    fold_left (fun o e => Obj.set (fst e) (snd e) o) es o = o ++ es.
Proof.
  induction es as [|[k v] es IH]; intros o Hnd; cbn [fold_left fst snd].
  - rewrite app_nil_r. reflexivity.
  - cbn [map fst] in Hnd.
    rewrite set_fresh.
    + rewrite IH; [rewrite <- app_assoc; reflexivity|].
      unfold Obj.keys. rewrite map_app, <- app_assoc. exact Hnd.
    + intros Hin. apply List.NoDup_remove_2 in Hnd. apply Hnd.
      apply in_or_app. left. exact Hin.
Qed.

Lemma fromEntries_distinct (es : list (string * Z)) :
  List.NoDup (map fst es) -> fromEntries es = es.
Proof.
  intros H. unfold fromEntries. rewrite fold_set_fresh; [reflexivity|].
  exact H.
Qed.

Lemma get_Permutation (k : string) (l l' : Obj.t Z) :
  List.NoDup (Obj.keys l) -> Permutation l l' ->
  Obj.get k l = Obj.get k l'.
Proof.
  intros Hnd Hp.
  assert (Hnd' : List.NoDup (Obj.keys l')).
  { eapply Permutation_NoDup; [|exact Hnd].
    apply Permutation_map, Hp. }
  destruct (Obj.get k l) as [v|] eqn:E; destruct (Obj.get k l') as [v'|] eqn:E';
    [| | |reflexivity].
  - apply get_In in E, E'. f_equal.
    eapply NoDup_keys_functional; [exact Hnd'| |exact E'].
    eapply Permutation_in; eassumption.
  - apply get_In in E. apply get_None_keys in E'. exfalso. apply E'.
    eapply In_keys, Permutation_in; eassumption.
  - apply get_In in E'. apply get_None_keys in E. exfalso. apply E.
    eapply In_keys, Permutation_in; [symmetry|]; eassumption.
Qed.

Lemma generateCumulativeData_NoDup (now : Z) (stargazers : list DateObject)
  (finalWeek : string) (series : Obj.t Z) :
  generateCumulativeData now stargazers finalWeek = Returned series ->
  List.NoDup (Obj.keys series).
Proof.
  intros H. apply generateCumulativeData_cases in H as [->|(fm & _ & H)].
  - constructor.
  - eapply cumulativeLoop_NoDup; [exact H|constructor].
Qed.

Lemma keys_ascending (l : list (string * Z)) :
  List.NoDup (map fst l) ->
  StronglySorted (fun a b => notAfterText (entryString a) (entryString b)) l ->
  StronglySorted ascendingKeys (map fst l).
Proof.
  induction l as [|a l IH]; cbn [map]; intros Hnd Hs; [constructor|].
  apply List.NoDup_cons_iff in Hnd as [Hni Hnd].
  apply StronglySorted_inv in Hs as [Hs Ha].
  constructor; [apply IH; assumption|].
  rewrite List.Forall_forall in *. intros k Hk.
  apply in_map_iff in Hk as (b & <- & Hb).
  intros Hl. specialize (Ha _ Hb). unfold notAfterText, entryString in Ha.
  assert (Hne : fst a <> fst b).
  { intros E. apply Hni. rewrite E. apply in_map, Hb. }
  rewrite compare_append_same_length in Ha by assumption.
  destruct (String.compare (fst a) (fst b)) eqn:E;
    [apply String.compare_eq_iff in E|reflexivity|]; congruence.
Qed.

(** X13. What main stores for a repository is the series of the
    aggregator with nothing lost or changed: the same weeks with the same
    counts.  Its entries are in ascending order of their text
    "week,count"; keys of equal length (as the weeks of the years 0 to
    9999 are) are therefore in ascending order. *)
Theorem stored_series_is_sorted (now : Z) (stargazers : list DateObject)
  (finalWeek : string) (series : Obj.t Z) :
  generateCumulativeData now stargazers finalWeek = Returned series ->
  let stored := fromEntries (sortedEntries series) in
  Permutation (Obj.entries stored) (Obj.entries series) /\
  (forall k, Obj.get k stored = Obj.get k series) /\
  StronglySorted
    (fun a b => notAfterText (entryString a) (entryString b))
    (Obj.entries stored) /\
  StronglySorted ascendingKeys (Obj.keys stored).
Proof.
  intros H. cbv zeta. apply generateCumulativeData_NoDup in H.
  assert (Hp : Permutation (sortedEntries series) series)
    by apply sort_Permutation.
  assert (Hnd : List.NoDup (map fst (sortedEntries series))).
  { eapply Permutation_NoDup; [|exact H].
    apply Permutation_map. symmetry. exact Hp. }
  rewrite (fromEntries_distinct _ Hnd). unfold Obj.entries, Obj.keys.
  assert (Hs : StronglySorted
                 (fun a b => notAfterText (entryString a) (entryString b))
                 (sortedEntries series))
    by apply (sort_text_sorted _ entryString).
  split; [exact Hp|]. split; [|split].
  - intros k. symmetry. apply get_Permutation; [exact H|].
    symmetry. exact Hp.
  - exact Hs.
  - apply keys_ascending; assumption.
Qed.

End SeriesRebuilt.

Section SeriesRebuiltScenario.
Import Time Str JSDate DateUtils JSArray Stars.

#[local] Existing Instance plainHost.

Lemma stored_series_is_sorted_witness :
  generateCumulativeData 0 boundaryEvents "2025-09-15"
  = Returned [("2025-09-08", 1); ("2025-09-15", 2)]%string /\
  Permutation
    (Obj.entries
       (fromEntries
          (sortedEntries [("2025-09-08", 1); ("2025-09-15", 2)]%string)))
    (Obj.entries [("2025-09-08", 1); ("2025-09-15", 2)]%string) /\
  (forall k,
      Obj.get k
        (fromEntries
           (sortedEntries [("2025-09-08", 1); ("2025-09-15", 2)]%string))
      = Obj.get k [("2025-09-08", 1); ("2025-09-15", 2)]%string) /\
  StronglySorted
    (fun a b => notAfterText (entryString a) (entryString b))
    (Obj.entries
       (fromEntries
          (sortedEntries [("2025-09-08", 1); ("2025-09-15", 2)]%string))) /\
  StronglySorted ascendingKeys
    (Obj.keys
       (fromEntries
          (sortedEntries [("2025-09-08", 1); ("2025-09-15", 2)]%string))).
Proof.
  assert (H : generateCumulativeData 0 boundaryEvents "2025-09-15"
              = Returned [("2025-09-08", 1); ("2025-09-15", 2)]%string)
    by (vm_compute; reflexivity).
  split; [exact H|].
  exact (stored_series_is_sorted 0 boundaryEvents "2025-09-15" _ H).
Defined.

End SeriesRebuiltScenario.

Section MainOutput.
Import Time Str JSDate DateUtils JSArray Stars.

Context {host : Host}.

Variable gh : Gh.
Variables (fuel : nat) (now : Z).

Lemma parseRepoString_parts (repoString owner name : string) :
  parseRepoString repoString = Returned (owner, name) ->
  absent "/" owner /\ absent "/" name.
Proof.
  pose proof (split_pieces_absent "/" repoString) as Hp.
  unfold parseRepoString.
  destruct (split "/" repoString) as [|o [|n [|x t]]]; try discriminate.
  intros [= <- <-].
  apply List.Forall_cons_iff in Hp as [Ho Hp].
  apply List.Forall_cons_iff in Hp as [Hn _]. auto.
Qed.

Lemma tryRepository_inv (finalWeek repoString : string)
  (st st' : ProcState) (w : string * Repo) :
  tryRepository gh fuel now finalWeek repoString st = Ok w st' ->
  exists owner name stargazers series,
    parseRepoString repoString = Returned (owner, name) /\
    fetchAllStargazers gh fuel owner name st = Ok stargazers st' /\
    generateCumulativeData now stargazers finalWeek = Returned series /\
    w = (repoString,
         mkRepo repoString (fromEntries (sortedEntries series))).
Proof.
  unfold tryRepository, andThen, lift.
  destruct (parseRepoString repoString) as [[owner name]|e] eqn:Ep;
    [|discriminate].
  unfold ret at 1. cbn [fst snd].
  destruct (fetchAllStargazers gh fuel owner name st)
    as [stargazers st1|e st1|c st1|] eqn:Ef; try discriminate.
  destruct (generateCumulativeData now stargazers finalWeek) as [cd|e] eqn:Eg;
    [|discriminate].
  unfold ret. intros [= <- <-].
  rewrite (parseRepoString_name _ _ _ Ep).
  exists owner, name, stargazers, cd. auto.
Qed.

(** An entry of [allData] at the end of the loop was there before it or
    was assigned by one of its iterations; the iterations before that one
    and those after it are runs of the loop themselves. *)
Lemma processRepositories_entry (finalWeek : string)
  (repoStrings : list string) :
  forall (o allData : Obj.t Repo) (st st' : ProcState) (k : string) (r : Repo),
    processRepositories gh fuel now finalWeek repoStrings o st
    = Ok allData st' ->
    In (k, r) allData ->
    In (k, r) o \/
    exists (before after : list string) (owner name : string)
           (stargazers : list DateObject) (d0 : Obj.t Repo)
           (st0 st1 : ProcState) (series : Obj.t Z),
      repoStrings = before ++ k :: after /\
      parseRepoString k = Returned (owner, name) /\
      processRepositories gh fuel now finalWeek before o st = Ok d0 st0 /\
      fetchAllStargazers gh fuel owner name st0 = Ok stargazers st1 /\
      generateCumulativeData now stargazers finalWeek = Returned series /\
      r = mkRepo k (fromEntries (sortedEntries series)) /\
      processRepositories gh fuel now finalWeek after (Obj.set k r d0) st1
      = Ok allData st'.
Proof.
  induction repoStrings as [|x rest IH]; intros o allData st st' k r.
  - cbn [processRepositories]. unfold ret. intros [= <- <-]. auto.
  - cbn [processRepositories]. unfold andThen at 1, processRepository.
    destruct (tryRepository gh fuel now finalWeek x st)
      as [[repoName repo] st1|e1 st1|c st1|] eqn:Et; try discriminate.
    + intros Hrest Hin.
      destruct (tryRepository_inv _ _ _ _ _ Et)
        as (ow & na & sg & se & Hp & Hf & Hg & [= -> ->]).
      destruct (IH _ _ _ _ _ _ Hrest Hin) as [Ho|Hex].
      * apply In_set in Ho as [[-> ->]|Ho]; [|left; exact Ho].
        right. exists [], rest, ow, na, sg, o, st, st1, se.
        cbn [app processRepositories]. unfold ret. auto 10.
      * right.
        destruct Hex as (before & after & ow' & na' & sg' & d0 & s0 & s1
                         & se' & -> & Hp' & Hb & Hrest').
        exists (x :: before), after, ow', na', sg', d0, s0, s1, se'.
        split; [reflexivity|]. split; [exact Hp'|]. split; [|exact Hrest'].
        cbn [processRepositories]. unfold andThen at 1, processRepository.
        rewrite Et. exact Hb.
    + unfold andThen at 1, console_error, ret. intros Hrest Hin.
      destruct (IH _ _ _ _ _ _ Hrest Hin) as [Ho|Hex]; [left; exact Ho|].
      right.
      destruct Hex as (before & after & ow' & na' & sg' & d0 & s0 & s1
                       & se' & -> & Hp' & Hb & Hrest').
      exists (x :: before), after, ow', na', sg', d0, s0, s1, se'.
      split; [reflexivity|]. split; [exact Hp'|]. split; [|exact Hrest'].
      cbn [processRepositories]. unfold andThen at 1, processRepository.
      rewrite Et. unfold andThen at 1, console_error, ret. exact Hb.
Qed.

Lemma processRepositories_no_throw (finalWeek : string)
  (repoStrings : list string) :
  forall (allData : Obj.t Repo) (st st' : ProcState) (e : exn),
    processRepositories gh fuel now finalWeek repoStrings allData st
    <> Thrown e st'.
Proof.
  induction repoStrings as [|r rest IH]; intros allData st st' e.
  - cbn [processRepositories]. unfold ret. discriminate.
  - cbn [processRepositories]. unfold andThen, processRepository.
    destruct (tryRepository gh fuel now finalWeek r st)
      as [[repoName repo] st1|e1 st1|c st1|]; try discriminate.
    + apply IH.
    + unfold andThen, console_error, ret. apply IH.
Qed.

(** What a completed run of main went through. *)
Lemma main_completes (reposArg outputDir : string) (rest : list string)
  (st st' : ProcState) (w : Written) :
  main gh fuel now (reposArg :: outputDir :: rest) st = Ok w st' ->
  exists (finalWeek : string) (allData : Obj.t Repo),
    getMonday now (option_map StrArg (firstOf rest)) = Returned finalWeek /\
    mkdirSync (calls st) outputDir = None /\
    processRepositories gh fuel now finalWeek
      (map trim (split "," reposArg)) Obj.empty st = Ok allData st' /\
    writeFileSync (calls st') (outputDir ++ "/stargazers.json")%string
    = None /\
    w = mkWritten (outputDir ++ "/stargazers.json")%string
          (Obj.values allData).
Proof.
  cbn [main]. unfold andThen at 1, lift.
  destruct (getMonday now (option_map StrArg (firstOf rest)))
    as [finalWeek|e] eqn:Em; [|discriminate].
  unfold ret at 1. unfold andThen at 1, fsCall.
  destruct (mkdirSync (calls st) outputDir) as [e|] eqn:Ek; [discriminate|].
  unfold andThen at 1.
  destruct (processRepositories gh fuel now finalWeek
              (map trim (split "," reposArg)) Obj.empty st)
    as [allData st1|e st1|c st1|] eqn:Ep; try discriminate.
  unfold andThen.
  destruct (writeFileSync (calls st1) (outputDir ++ "/stargazers.json")%string)
    as [e|] eqn:Ew; [discriminate|].
  unfold ret. intros [= <- <-]. exists finalWeek, allData. auto 10.
Qed.

(** X14. When main completes, it has created the output directory and
    written <outputDir>/stargazers.json, both without an error.  The
    file holds the values of [allData], one entry for each repository
    name, no name twice.  Every entry was assigned by an iteration of
    this run's loop over the comma-separated, trimmed pieces of the first
    argument: its name is the piece of that iteration and has the form
    owner/name with a single slash; the loop over the pieces before it,
    from the state main started in, ends in the state in which this
    iteration fetches the stargazers of owner/name; the entry's series is
    the aggregator's series for the stargazers of that fetch, up to the
    Monday of the date argument, rebuilt from its sorted entries; and the
    loop over the pieces after it, from the state in which the fetch
    ended, ends with the [allData] that is written. *)
Theorem main_writes_one_entry_per_repository
  (reposArg outputDir : string) (rest : list string)
  (st st' : ProcState) (w : Written) :
  main gh fuel now (reposArg :: outputDir :: rest) st = Ok w st' ->
  exists (finalWeek : string) (allData : Obj.t Repo),
    getMonday now (option_map StrArg (firstOf rest)) = Returned finalWeek /\
    mkdirSync (calls st) outputDir = None /\
    writeFileSync (calls st') (outputPath w) = None /\
    outputPath w = (outputDir ++ "/stargazers.json")%string /\
    content w = Obj.values allData /\
    List.NoDup (map repo_name (content w)) /\
    (forall r : Repo,
        In r (content w) ->
        exists (before after : list string) (owner name : string)
               (stargazers : list DateObject) (d0 : Obj.t Repo)
               (st0 st1 : ProcState) (series : Obj.t Z),
          map trim (split "," reposArg) = before ++ repo_name r :: after /\
          repo_name r = (owner ++ "/" ++ name)%string /\
          absent "/" owner /\ absent "/" name /\
          processRepositories gh fuel now finalWeek before Obj.empty st
          = Ok d0 st0 /\
          fetchAllStargazers gh fuel owner name st0 = Ok stargazers st1 /\
          generateCumulativeData now stargazers finalWeek = Returned series /\
          cumulative r = fromEntries (sortedEntries series) /\
          processRepositories gh fuel now finalWeek after
            (Obj.set (repo_name r) r d0) st1
          = Ok allData st').
Proof.
  intros Hmain.
  destruct (main_completes _ _ _ _ _ _ Hmain)
    as (finalWeek & allData & Em & Ek & Ep & Ew & ->).
  cbn [outputPath content].
  exists finalWeek, allData.
  do 5 (split; [auto|]).
  assert (Hentry :
            forall k r, In (k, r) allData ->
              exists before after owner name stargazers d0 st0 st1 series,
                map trim (split "," reposArg) = before ++ k :: after /\
                parseRepoString k = Returned (owner, name) /\
                processRepositories gh fuel now finalWeek before Obj.empty st
                = Ok d0 st0 /\
                fetchAllStargazers gh fuel owner name st0
                = Ok stargazers st1 /\
                generateCumulativeData now stargazers finalWeek
                = Returned series /\
                r = mkRepo k (fromEntries (sortedEntries series)) /\
                processRepositories gh fuel now finalWeek after
                  (Obj.set k r d0) st1
                = Ok allData st').
  { intros k r Hin.
    destruct (processRepositories_entry _ _ _ _ _ _ _ _ Ep Hin) as [[]|H].
    exact H. }
  split.
  - replace (map repo_name (Obj.values allData)) with (Obj.keys allData).
    + rewrite (processRepositories_writes _ _ _ _ _ _ _ _ _ Ep).
      apply NoDup_fold_assign. constructor.
    + unfold Obj.keys, Obj.values. rewrite map_map.
      apply map_ext_in. intros [k r] Hin.
      destruct (Hentry _ _ Hin)
        as (b & a & o & n & sg & d0 & s0 & s1 & se & _ & _ & _ & _ & _ & E
            & _).
      rewrite E. reflexivity.
  - intros r Hr. unfold Obj.values in Hr.
    apply in_map_iff in Hr as ([k r'] & Er & Hin). cbn [snd] in Er.
    subst r'.
    destruct (Hentry _ _ Hin)
      as (b & a & o & n & sg & d0 & s0 & s1 & se & Hsp & Hp & Hb & Hf & Hg
          & E & Ha).
    assert (Hk : repo_name r = k) by (rewrite E; reflexivity).
    rewrite Hk.
    destruct (parseRepoString_parts _ _ _ Hp) as [Ho Hn].
    exists b, a, o, n, sg, d0, s0, s1, se.
    split; [exact Hsp|].
    split; [symmetry; exact (parseRepoString_name _ _ _ Hp)|].
    do 4 (split; [assumption|]).
    split; [exact Hg|]. split; [rewrite E; reflexivity|exact Ha].
Qed.

(** X15. How main ends other than by completing or by the exit of a
    failed [gh] call.  With fewer than two arguments it prints the two
    usage lines and exits with code 1.  Otherwise an exception leaves
    main in exactly three cases: getMonday rejects the date argument;
    mkdirSync throws; or the loop over the repositories has completed
    and writeFileSync throws.  In the first two cases nothing has been
    fetched or reported.  Every exception raised while a repository is
    processed is caught. *)
Theorem main_exits_and_exceptions :
  (forall (args : list string) (st : ProcState),
      (length args < 2)%nat ->
      main gh fuel now args st
      = Exited 1
          (mkProcState (calls st)
             (errors st ++
              ["Usage: npm run stars <repo1,repo2,...> <output_dir> [date]";
               "Example: npm run stars username/repo1,username/repo2 /path/to/output"
              ]%string))) /\
  (forall (reposArg outputDir : string) (rest : list string)
          (st st' : ProcState) (e : exn),
      main gh fuel now (reposArg :: outputDir :: rest) st = Thrown e st' <->
      (getMonday now (option_map StrArg (firstOf rest)) = Threw e /\ st' = st)
      \/ (exists finalWeek : string,
             getMonday now (option_map StrArg (firstOf rest))
             = Returned finalWeek /\
             mkdirSync (calls st) outputDir = Some e /\ st' = st)
      \/ (exists (finalWeek : string) (allData : Obj.t Repo),
             getMonday now (option_map StrArg (firstOf rest))
             = Returned finalWeek /\
             mkdirSync (calls st) outputDir = None /\
             processRepositories gh fuel now finalWeek
               (map trim (split "," reposArg)) Obj.empty st
             = Ok allData st' /\
             writeFileSync (calls st')
               (outputDir ++ "/stargazers.json")%string
             = Some e)) /\
  (forall (finalWeek : string) (repoStrings : list string)
          (allData : Obj.t Repo) (st st' : ProcState) (e : exn),
      processRepositories gh fuel now finalWeek repoStrings allData st
      <> Thrown e st').
Proof.
  split; [|split].
  - intros args st Hl.
    destruct args as [|a [|b r]]; cbn [length] in Hl; try lia;
      cbn [main]; unfold andThen, console_error, process_exit;
      cbn [calls errors]; rewrite <- app_assoc; reflexivity.
  - intros reposArg outputDir rest st st' e. cbn [main].
    unfold andThen at 1, lift.
    destruct (getMonday now (option_map StrArg (firstOf rest)))
      as [finalWeek|e0]; unfold ret at 1, throw.
    + unfold andThen at 1, fsCall.
      destruct (mkdirSync (calls st) outputDir) as [e1|].
      * split.
        -- intros [= -> ->]. right. left. exists finalWeek. auto.
        -- intros [[[=] _]|[(fw & _ & [= ->] & ->)|(fw & d & _ & [=] & _)]].
           reflexivity.
      * unfold andThen at 1.
        destruct (processRepositories gh fuel now finalWeek
                    (map trim (split "," reposArg)) Obj.empty st)
          as [allData st1|e1 st1|c st1|] eqn:Ep.
        -- unfold andThen.
           destruct (writeFileSync (calls st1)
                       (outputDir ++ "/stargazers.json")%string)
             as [e2|] eqn:Ew; unfold ret.
           ++ split.
              ** intros [= -> ->]. right. right. exists finalWeek, allData.
                 auto.
              ** intros [[[=] _]|[(fw & _ & [=] & _)
                                 |(fw & d & [= <-] & _ & Hd & He)]].
                 rewrite Ep in Hd. injection Hd as _ <-. rewrite Ew in He.
                 injection He as ->. reflexivity.
           ++ split; [discriminate|].
              intros [[[=] _]|[(fw & _ & [=] & _)
                              |(fw & d & [= <-] & _ & Hd & He)]].
              rewrite Ep in Hd. injection Hd as _ <-. rewrite Ew in He.
              discriminate.
        -- exfalso. exact (processRepositories_no_throw _ _ _ _ _ _ Ep).
        -- split; [discriminate|].
           intros [[[=] _]|[(fw & _ & [=] & _)
                           |(fw & d & [= <-] & _ & Hd & _)]].
           rewrite Ep in Hd. discriminate.
        -- split; [discriminate|].
           intros [[[=] _]|[(fw & _ & [=] & _)
                           |(fw & d & [= <-] & _ & Hd & _)]].
           rewrite Ep in Hd. discriminate.
    + split.
      * intros [= -> ->]. auto.
      * intros [[[= ->] ->]|[(fw & [=] & _)|(fw & d & [=] & _)]].
        reflexivity.
  - intros finalWeek repoStrings allData st st' e.
    apply processRepositories_no_throw.
Qed.

End MainOutput.

Section MainOutputScenarios.
Import Time Str JSDate DateUtils JSArray Stars.

#[local] Existing Instance plainHost.

Lemma main_writes_one_entry_per_repository_witness :
  main growingGh 5 0 [scenarioRepos; "out"; "2025-09-17"]%string startState
  = Ok scenarioWritten (mkProcState 3 []) /\
  exists (finalWeek : string) (allData : Obj.t Repo),
    getMonday 0 (option_map StrArg (firstOf ["2025-09-17"%string]))
    = Returned finalWeek /\
    mkdirSync (calls startState) "out" = None /\
    writeFileSync (calls (mkProcState 3 [])) (outputPath scenarioWritten)
    = None /\
    outputPath scenarioWritten = ("out" ++ "/stargazers.json")%string /\
    content scenarioWritten = Obj.values allData /\
    List.NoDup (map repo_name (content scenarioWritten)) /\
    (forall r : Repo,
        In r (content scenarioWritten) ->
        exists (before after : list string) (owner name : string)
               (stargazers : list DateObject) (d0 : Obj.t Repo)
               (st0 st1 : ProcState) (series : Obj.t Z),
          map trim (split "," scenarioRepos) = before ++ repo_name r :: after /\
          repo_name r = (owner ++ "/" ++ name)%string /\
          absent "/" owner /\ absent "/" name /\
          processRepositories growingGh 5 0 finalWeek before Obj.empty
            startState
          = Ok d0 st0 /\
          fetchAllStargazers growingGh 5 owner name st0 = Ok stargazers st1 /\
          generateCumulativeData 0 stargazers finalWeek = Returned series /\
          cumulative r = fromEntries (sortedEntries series) /\
          processRepositories growingGh 5 0 finalWeek after
            (Obj.set (repo_name r) r d0) st1
          = Ok allData (mkProcState 3 [])).
Proof.
  assert (H : main growingGh 5 0
                [scenarioRepos; "out"; "2025-09-17"]%string startState
              = Ok scenarioWritten (mkProcState 3 []))
    by (vm_compute; reflexivity).
  split; [exact H|].
  exact (main_writes_one_entry_per_repository growingGh 5 0 _ _ _ _ _ _ H).
Defined.

Lemma main_exits_and_exceptions_witness :
  ((length ["a/b"%string] < 2)%nat /\
   main growingGh 5 0 ["a/b"%string] startState
   = Exited 1
       (mkProcState 0
          ["Usage: npm run stars <repo1,repo2,...> <output_dir> [date]";
           "Example: npm run stars username/repo1,username/repo2 /path/to/output"
          ]%string)) /\
  (getMonday 0 (option_map StrArg (firstOf ["someday"%string]))
   = Threw invalidTime /\
   main growingGh 5 0 ["a/b"; "out"; "someday"]%string startState
   = Thrown invalidTime startState).
Proof.
  destruct (main_exits_and_exceptions growingGh 5 0)
    as (G1 & G2 & _).
  assert (H1 : (length ["a/b"%string] < 2)%nat) by (cbn; lia).
  assert (H2 : getMonday 0 (option_map StrArg (firstOf ["someday"%string]))
               = Threw invalidTime) by reflexivity.
  split.
  - split; [exact H1|]. exact (G1 _ startState H1).
  - split; [exact H2|].
    exact (proj2 (G2 "a/b" "out" ["someday"] startState startState
                     invalidTime)%string (or_introl (conj H2 eq_refl))).
Defined.

End MainOutputScenarios.

(* ===================================================================== *)
(** * The earlier revision of stars.js: weekly counts and the charts      *)
(* ===================================================================== *)

Section ChartsCounts.
Import Time Str JSDate DateUtils JSArray.

Context {host : Host}.

Variable toString : jsnum -> string.

Lemma weekKey_same (t1 t2 : Z) :
  mondayDay (Day t1) = mondayDay (Day t2) -> weekKey t1 = weekKey t2.
Proof. unfold weekKey. intros ->. reflexivity. Qed.

Lemma countLoop_counts (now : Z) (p : list DateObject) :
  Forall validDate p -> Forall hasTime p ->
  forall c c' : Obj.t Z,
    StarsCharts.countLoop now p c = Returned c' ->
    (forall s t, In s p -> timeValue s = Num t -> inWeekRange t) /\
    (forall t, inWeekRange t ->
       Obj.get (weekKey t) c' =
       if (length (inSameWeek t p) =? 0)%nat then Obj.get (weekKey t) c
       else Some (StarsCharts.orZero (Obj.get (weekKey t) c)
                  + Z.of_nat (length (inSameWeek t p)))) /\
    (forall k, In k (Obj.keys c') ->
       In k (Obj.keys c) \/
       exists s t, In s p /\ timeValue s = Num t /\ k = weekKey t).
Proof.
  induction p as [|x q IH]; intros Hv Ht c c' Hc.
  - injection Hc as <-. split; [intros s t []|].
    split; [intros; reflexivity|auto].
  - apply List.Forall_cons_iff in Hv as [Hvx Hvq].
    apply List.Forall_cons_iff in Ht as [Htx Htq].
    unfold validDate, hasTime in Hvx, Htx.
    destruct (timeValue x) as [|tx] eqn:Ex; [congruence|].
    cbn [StarsCharts.countLoop] in Hc. rewrite Ex in Hc.
    destruct (getMonday now (Some (DateArg (Num tx)))) as [kx|e] eqn:Ek;
      cbn [bind] in Hc; [|discriminate].
    destruct (getMonday_Date_inv _ _ _ Hvx Ek) as [Hlo ->].
    pose proof (inWeekRange_intro _ Hvx Hlo) as Hinx.
    destruct (IH Hvq Htq _ _ Hc) as (IHr & IHg & IHk).
    split; [|split].
    + intros s t [<-|Hin] Hst.
      * rewrite Ex in Hst. injection Hst as <-. exact Hinx.
      * eapply IHr; eassumption.
    + intros t Hint. rewrite (IHg t Hint). unfold inSameWeek.
      cbn [List.filter]. rewrite Ex. fold (inSameWeek t q).
      destruct (Z.eqb_spec (mondayDay (Day tx)) (mondayDay (Day t))) as [E|E].
      * rewrite (weekKey_same _ _ E), get_set_eq.
        cbn [length Nat.eqb StarsCharts.orZero].
        destruct (length (inSameWeek t q)) as [|m]; cbn [Nat.eqb];
          f_equal; lia.
      * rewrite get_set_ne; [reflexivity|].
        intros Ekey. apply E. symmetry.
        apply weekKey_injective; assumption.
    + intros k Hk. destruct (IHk _ Hk) as [Hk1|(s & t & Hin & Hst & ->)].
      * rewrite keys_set in Hk1.
        assert (Hcases : In k (Obj.keys c) \/ k = weekKey tx).
        { destruct (Obj.get (weekKey tx) c); [left; exact Hk1|].
          apply in_app_or in Hk1 as [Hk1|[<-|[]]]; auto. }
        destruct Hcases as [Hc1| ->]; [left; exact Hc1|].
        right. exists x, tx. split; [left; reflexivity|]. auto.
      * right. exists s, t. split; [right; exact Hin|]. auto.
Qed.

Lemma inSameWeek_kept (ub t : Z) (l : list DateObject) :
  inSameWeek t (List.filter (fun s => lt (timeValue s) (Num ub)) l)
  = eventsInWeek ub t l.
Proof.
  unfold inSameWeek, eventsInWeek. induction l as [|s l IH]; [reflexivity|].
  cbn [List.filter]. destruct (timeValue s) as [|x] eqn:Es; cbn [lt].
  - exact IH.
  - destruct (x <? ub); cbn [List.filter andb]; [rewrite Es|]; rewrite IH;
      reflexivity.
Qed.

Lemma earlier_generateCumulativeData_unfold (now : Z)
  (stargazers : list DateObject) (finalWeek finalMonday : string) :
  getNextMonday finalWeek = Returned finalMonday ->
  StarsCharts.generateCumulativeData toString now stargazers finalWeek =
  StarsCharts.countLoop now
    (StarsCharts.filteredStargazers toString stargazers
       (parse (midnightZ finalMonday)))
    Obj.empty.
Proof.
  intros Hn. unfold StarsCharts.generateCumulativeData.
  destruct stargazers as [|s0 rest] eqn:Es.
  - reflexivity.
  - cbn [length Nat.eqb]. rewrite Hn. cbn [bind].
    destruct (StarsCharts.filteredStargazers toString (s0 :: rest)
                (parse (midnightZ finalMonday)));
      reflexivity.
Qed.

Lemma earlier_counts (now : Z)
  (stargazers : list DateObject) (finalWeek finalMonday : string) (ub : Z)
  (series : Obj.t Z) :
  Forall validDate stargazers ->
  getNextMonday finalWeek = Returned finalMonday ->
  parse (midnightZ finalMonday) = Num ub ->
  StarsCharts.generateCumulativeData toString now stargazers finalWeek
  = Returned series ->
  (forall star t,
      In star stargazers -> timeValue star = Num t -> t < ub ->
      Obj.get (weekKey t) series
      = Some (Z.of_nat (length (eventsInWeek ub t stargazers)))) /\
  (forall k, In k (Obj.keys series) ->
     exists star t,
       In star stargazers /\ timeValue star = Num t /\ t < ub /\
       k = weekKey t).
Proof.
  intros Hv Hfm Hub Hgen.
  rewrite (earlier_generateCumulativeData_unfold _ _ _ _ Hfm), Hub in Hgen.
  set (f := StarsCharts.filteredStargazers toString stargazers (Num ub)) in *.
  assert (Hperm : Permutation f
            (List.filter (fun s => lt (timeValue s) (Num ub)) stargazers))
    by apply sort_Permutation.
  assert (Hft : Forall hasTime f).
  { eapply Permutation_Forall; [symmetry; exact Hperm|]. apply kept_hasTime. }
  assert (Hfv : Forall validDate f).
  { eapply Permutation_Forall; [symmetry; exact Hperm|].
    rewrite List.Forall_forall in *. intros d Hd.
    apply filter_In in Hd as [Hd _]. auto. }
  destruct (countLoop_counts now f Hfv Hft _ _ Hgen) as (Hr & Hget & Hkeys).
  split.
  - intros star t Hin Hst Hlt.
    assert (Hf : In star f).
    { apply (Permutation_in _ (Permutation_sym Hperm)), filter_In.
      split; [exact Hin|]. rewrite Hst. cbn [lt]. apply Z.ltb_lt, Hlt. }
    rewrite (Hget t (Hr _ _ Hf Hst)).
    assert (Hlen : length (inSameWeek t f)
                   = length (eventsInWeek ub t stargazers)).
    { rewrite <- inSameWeek_kept. apply Permutation_length.
      apply filter_Permutation, Hperm. }
    assert (Hin' : In star (inSameWeek t f)).
    { apply filter_In. split; [exact Hf|]. rewrite Hst. apply Z.eqb_refl. }
    destruct (inSameWeek t f) as [|y r] eqn:Ey; [destruct Hin'|].
    rewrite <- Hlen. cbn [length Nat.eqb Obj.get StarsCharts.orZero].
    f_equal.
  - intros k Hk. destruct (Hkeys _ Hk) as [[]|(s & t & Hin & Hst & ->)].
    apply (Permutation_in _ Hperm), filter_In in Hin as [Hin Hlt].
    rewrite Hst in Hlt. cbn [lt] in Hlt. apply Z.ltb_lt in Hlt.
    exists s, t. auto.
Qed.

(** X16. The earlier revision of the aggregator counts the events of
    each week: the key of the week of an event before the upper bound
    holds the number of events before the bound in that same week, and
    every key is the week of such an event.  This holds whatever the
    host's Date.prototype.toString is, although the events are sorted by
    that text. *)
Theorem earlier_revision_counts_per_week (now : Z)
  (stargazers : list DateObject) (finalWeek finalMonday : string) (ub : Z)
  (series : Obj.t Z) :
  Forall validDate stargazers ->
  getNextMonday finalWeek = Returned finalMonday ->
  parse (midnightZ finalMonday) = Num ub ->
  StarsCharts.generateCumulativeData toString now stargazers finalWeek
  = Returned series ->
  (forall star t,
      In star stargazers -> timeValue star = Num t -> t < ub ->
      Obj.get (weekKey t) series
      = Some (Z.of_nat (length (eventsInWeek ub t stargazers)))) /\
  (forall k, In k (Obj.keys series) ->
     exists star t,
       In star stargazers /\ timeValue star = Num t /\ t < ub /\
       k = weekKey t).
Proof. apply earlier_counts. Qed.


End ChartsCounts.

(* ===================================================================== *)
(** * What the two revisions of the aggregator store                      *)
(* ===================================================================== *)

Section StoredValues.
Import Time Str JSDate DateUtils JSArray.

Context {host : Host}.


End StoredValues.

Section StoredValuesScenarios.
Import Time Str JSDate DateUtils JSArray.

#[local] Existing Instance plainHost.



End StoredValuesScenarios.

Section ChartsFacts.
Import Time Str JSDate DateUtils JSArray StarsCharts.

Context {host : Host}.

Lemma mondaysLoop_unfold (fuel : nat) (c e : Z) :
  mondaysLoop (S fuel) (Num c) (Num e)
  = if c <=? e
    then try! rest := mondaysLoop fuel (TimeClip (c + 7 * msPerDay)) (Num e) in
         Returned (dateString c :: rest)
    else Returned [].
Proof.
  cbn [mondaysLoop le]. destruct (c <=? e); [|reflexivity].
  rewrite formatDate_Date. cbn [bind]. rewrite setUTCDate_next_week.
  reflexivity.
Qed.

Lemma mondayLabels_S (c : Z) (n : nat) :
  mondayLabels c (S n) = dateString c :: mondayLabels (c + 7 * msPerDay) n.
Proof.
  unfold mondayLabels. rewrite <- cons_seq, <- seq_shift, map_cons, map_map.
  f_equal; [f_equal; lia|].
  apply map_ext. intros k. f_equal. lia.
Qed.

Lemma mondaysLoop_steps (endDate : Z) (n : nat) :
  forall c : Z,
    - maxTime <= c -> endDate <= maxTime -> c <= endDate ->
    Z.of_nat n = (endDate - c) / (7 * msPerDay) ->
    mondaysLoop (S (S n)) (Num c) (Num endDate)
    = Returned (mondayLabels c (S n)).
Proof.
  induction n as [|m IH]; intros c Hlo Hhi Hle Hn;
    rewrite mondaysLoop_unfold, mondayLabels_S;
    (destruct (Z.leb_spec c endDate); [|lia]).
  - unfold TimeClip. destruct (_ <=? _); [|reflexivity].
    rewrite mondaysLoop_unfold.
    destruct (Z.leb_spec (c + 7 * msPerDay) endDate); [|reflexivity].
    unfold msPerDay in *. dlia.
  - assert (Hstep : c + 7 * msPerDay <= endDate)
      by (unfold msPerDay in *; dlia).
    rewrite TimeClip_in_range by (unfold msPerDay, maxTime in *; lia).
    rewrite (IH (c + 7 * msPerDay)); [reflexivity| | | |];
      unfold msPerDay in *; dlia.
Qed.

Lemma allMondays_value (begin end_ : option string) :
  allMondays begin end_ =
  Returned
    match parse (midnightZ (template begin)),
          parse (midnightZ (template end_)) with
    | Num c, Num d =>
        if c <=? d
        then mondayLabels c (S (Z.to_nat ((d - c) / (7 * msPerDay))))
        else []
    | _, _ => []
    end.
Proof.
  unfold allMondays.
  destruct (parse (midnightZ (template begin))) as [|c] eqn:Ec;
    [reflexivity|].
  destruct (parse (midnightZ (template end_))) as [|d] eqn:Ed;
    [reflexivity|].
  apply parse_range in Ec, Ed. cbn [weeksFuel].
  destruct (Z.leb_spec c d) as [Hle|Hgt].
  - apply mondaysLoop_steps; try lia. unfold msPerDay. dlia.
  - cbn [mondaysLoop le]. destruct (Z.leb_spec c d); [lia|reflexivity].
Qed.

(** X17. The labels of the chart.  When both ends of the range are dates
    and the first is not after the last, the labels are the dates from
    the first on in steps of seven days, as many as fit up to the last;
    in every other case (no dates at all, so that both ends are
    undefined, or a first date after the last) there are no labels.  The
    loop never throws. *)
Theorem allMondays_are_weekly_steps (begin end_ : option string) :
  allMondays begin end_ =
  Returned
    match parse (midnightZ (template begin)),
          parse (midnightZ (template end_)) with
    | Num c, Num d =>
        if c <=? d
        then mondayLabels c (S (Z.to_nat ((d - c) / (7 * msPerDay))))
        else []
    | _, _ => []
    end.
Proof. apply allMondays_value. Qed.



Lemma setAdd_In (x y : string) (s : list string) :
  In y (setAdd x s) <-> y = x \/ In y s.
Proof.
  unfold setAdd. destruct (existsb (String.eqb x) s) eqn:E.
  - split; [auto|]. intros [->|H]; [|exact H].
    apply existsb_exists in E as (z & Hz & Ez).
    apply String.eqb_eq in Ez. subst z. exact Hz.
  - rewrite in_app_iff. cbn [In]. intuition congruence.
Qed.

Lemma setAdd_NoDup (x : string) (s : list string) :
  List.NoDup s -> List.NoDup (setAdd x s).
Proof.
  intros H. unfold setAdd. destruct (existsb (String.eqb x) s) eqn:E;
    [exact H|].
  apply List.NoDup_app; [exact H|repeat constructor; intros []|].
  intros y Hy [<-|[]].
  assert (Ht : existsb (String.eqb x) s = true)
    by (apply existsb_exists; exists x; split;
        [exact Hy|apply String.eqb_refl]).
  congruence.
Qed.

Lemma fold_setAdd (ks : list string) :
  forall s : list string,
    (forall y, In y (fold_left (fun ds d => setAdd d ds) ks s)
               <-> In y ks \/ In y s) /\
    (List.NoDup s ->
     List.NoDup (fold_left (fun ds d => setAdd d ds) ks s)).
Proof.
  induction ks as [|k ks IH]; intros s; cbn [fold_left].
  - split; [intros y; cbn [In]; tauto|auto].
  - destruct (IH (setAdd k s)) as [IHi IHn]. split.
    + intros y. rewrite IHi, setAdd_In. cbn [In]. intuition congruence.
    + intros H. apply IHn, setAdd_NoDup, H.
Qed.

Lemma fold_allDates (repos : list Repo) :
  forall s : list string,
    (forall y,
        In y (fold_left
                (fun dates repo =>
                   fold_left (fun ds d => setAdd d ds)
                             (Obj.keys (cumulative repo)) dates)
                repos s)
        <-> (exists repo, In repo repos /\ In y (Obj.keys (cumulative repo)))
            \/ In y s) /\
    (List.NoDup s ->
     List.NoDup (fold_left
                   (fun dates repo =>
                      fold_left (fun ds d => setAdd d ds)
                                (Obj.keys (cumulative repo)) dates)
                   repos s)).
Proof.
  induction repos as [|r repos IH]; intros s; cbn [fold_left].
  - split; [|auto]. intros y. split; [auto|].
    intros [(repo & [] & _)|H]; exact H.
  - destruct (IH (fold_left (fun ds d => setAdd d ds)
                            (Obj.keys (cumulative r)) s)) as [IHi IHn].
    destruct (fold_setAdd (Obj.keys (cumulative r)) s) as [Fi Fn].
    split.
    + intros y. rewrite IHi, Fi. split.
      * intros [(repo & Hin & Hy)|[Hy|Hy]].
        -- left. exists repo. split; [right; exact Hin|exact Hy].
        -- left. exists r. split; [left; reflexivity|exact Hy].
        -- right. exact Hy.
      * intros [(repo & [<-|Hin] & Hy)|Hy].
        -- right. left. exact Hy.
        -- left. exists repo. auto.
        -- right. right. exact Hy.
    + intros H. apply IHn, Fn, H.
Qed.

(** X19. The dates the chart's range is taken from are the weeks of all
    the repositories together, each week once: a date is among them
    exactly when it is a key of the series of some repository. *)
Theorem allDates_is_the_union_of_keys (allData : Obj.t Repo) :
  List.NoDup (allDates allData) /\
  forall date : string,
    In date (allDates allData) <->
    exists repo : Repo,
      In repo (Obj.values allData) /\ In date (Obj.keys (cumulative repo)).
Proof.
  unfold allDates.
  destruct (fold_allDates (Obj.values allData) []) as [Hi Hn]. split.
  - apply Hn. constructor.
  - intros date. rewrite Hi. cbn [In]. tauto.
Qed.

End ChartsFacts.

Section ChartsScenarios.
Import Time Str JSDate DateUtils JSArray.

#[local] Existing Instance plainHost.

Lemma earlier_revision_counts_per_week_witness :
  Forall validDate scenarioEvents /\
  getNextMonday "2025-09-15" = Returned "2025-09-22"%string /\
  parse (midnightZ "2025-09-22") = Num 1758499200000 /\
  StarsCharts.generateCumulativeData StarsCharts.toStringUTC 0
    scenarioEvents "2025-09-15"
  = Returned [("2025-09-15", 1); ("2025-09-08", 2)]%string /\
  (forall star t,
      In star scenarioEvents -> timeValue star = Num t ->
      t < 1758499200000 ->
      Obj.get (weekKey t) [("2025-09-15", 1); ("2025-09-08", 2)]%string
      = Some (Z.of_nat
                (length (eventsInWeek 1758499200000 t scenarioEvents)))) /\
  (forall k, In k (Obj.keys [("2025-09-15", 1); ("2025-09-08", 2)]%string) ->
     exists star t,
       In star scenarioEvents /\ timeValue star = Num t /\
       t < 1758499200000 /\ k = weekKey t).
Proof.
  assert (H0 : Forall validDate scenarioEvents).
  { unfold scenarioEvents, validDate.
    repeat (apply List.Forall_cons; [vm_compute; split; discriminate|]).
    apply List.Forall_nil. }
  assert (H1 : getNextMonday "2025-09-15" = Returned "2025-09-22"%string)
    by (vm_compute; reflexivity).
  assert (H2 : parse (midnightZ "2025-09-22") = Num 1758499200000)
    by (vm_compute; reflexivity).
  assert (H3 : StarsCharts.generateCumulativeData StarsCharts.toStringUTC 0
                 scenarioEvents "2025-09-15"
               = Returned [("2025-09-15", 1); ("2025-09-08", 2)]%string)
    by (vm_compute; reflexivity).
  split; [exact H0|]. split; [exact H1|]. split; [exact H2|].
  split; [exact H3|].
  exact (earlier_revision_counts_per_week StarsCharts.toStringUTC 0
           scenarioEvents _ _ _ _ H0 H1 H2 H3).
Defined.

End ChartsScenarios.

(* ===================================================================== *)
(** * src/go.js: the contribution report                                  *)
(* ===================================================================== *)

Section Contributions.
Import JSArray Go.

Context {host : Host}.

Lemma existsb_keys_stats (k : string) (o : Obj.t Stats) :
  existsb (String.eqb k) (Obj.keys o) =
  match Obj.get k o with Some _ => true | None => false end.
Proof.
  induction o as [|[k0 v0] o IH]; [reflexivity|].
  unfold Obj.keys in *. cbn [map fst existsb Obj.get].
  rewrite (String.eqb_sym k k0).
  destruct (String.eqb k0 k); [reflexivity|exact IH].
Qed.

Lemma setField_getField (f : Field) (s : Stats) :
  setField f (getField f s) s = s.
Proof. destruct f, s; reflexivity. Qed.

Lemma setField_setField (f : Field) (v w : Z) (s : Stats) :
  setField f v (setField f w s) = setField f v s.
Proof. destruct f; reflexivity. Qed.

Lemma getField_setField (f g : Field) (v : Z) (s : Stats) :
  getField g (setField f v s) = if Field_eqb f g then v else getField g s.
Proof. destruct f, g; reflexivity. Qed.

Lemma append_injective (p a b : string) :
  (p ++ a)%string = (p ++ b)%string -> a = b.
Proof.
  induction p as [|c p IH]; [rewrite !append_nil_l; auto|].
  rewrite !append_cons. intros [= H]. auto.
Qed.

Lemma existsb_tag (p n : string) (seen : list string) :
  existsb (String.eqb (p ++ n)) (map (String.append p) seen)
  = existsb (String.eqb n) seen.
Proof.
  induction seen as [|x seen IH]; [reflexivity|].
  cbn [map existsb]. rewrite IH. f_equal.
  destruct (String.eqb_spec n x) as [->|Hne].
  - apply String.eqb_refl.
  - apply String.eqb_neq. intros E. apply Hne.
    exact (append_injective _ _ _ E).
Qed.

Lemma processItems_spec (f : Field) (items : list RepoItem) :
  forall (m : Obj.t Stats) (tags : list string),
    Obj.keys (fst (processItems f items m tags))
    = fold_left (fun seen x => if existsb (String.eqb x) seen then seen
                               else seen ++ [x])
                (itemNames items) (Obj.keys m) /\
    snd (processItems f items m tags)
    = fold_left (fun ts n => StarsCharts.setAdd ("gh-stats/" ++ n)%string ts)
                (itemNames items) tags /\
    forall k,
      Obj.get k (fst (processItems f items m tags)) =
      match Obj.get k m with
      | Some s => Some (setField f (lastCount k items (getField f s)) s)
      | None =>
          if existsb (String.eqb k) (itemNames items)
          then Some (setField f (lastCount k items 0) zeroStats)
          else None
      end.
Proof.
  induction items as [|item rest IH]; intros m tags.
  - cbn [processItems fst snd itemNames map fold_left existsb lastCount].
    split; [reflexivity|]. split; [reflexivity|].
    intros k. destruct (Obj.get k m); [rewrite setField_getField|];
      reflexivity.
  - cbn [processItems itemNames map fold_left].
    set (n := nameWithOwner item). set (v := totalCount item).
    set (m1 := match Obj.get n m with
               | Some _ => m
               | None => Obj.set n zeroStats m
               end).
    set (s0 := match Obj.get n m with Some s => s | None => zeroStats end).
    assert (H1 : Obj.get n m1 = Some s0).
    { unfold m1, s0. destruct (Obj.get n m) eqn:E; [exact E|].
      apply get_set_eq. }
    rewrite H1.
    destruct (IH (Obj.set n (setField f v s0) m1)
                 (StarsCharts.setAdd ("gh-stats/" ++ n)%string tags))
      as (IHk & IHt & IHg).
    fold (itemNames rest). split; [|split].
    + rewrite IHk. f_equal. rewrite keys_set, H1.
      unfold m1. rewrite existsb_keys_stats.
      destruct (Obj.get n m) eqn:E; [reflexivity|].
      rewrite keys_set, E. reflexivity.
    + exact IHt.
    + intros k. rewrite IHg. cbn [existsb lastCount fold_left].
      fold n v. fold (lastCount k rest).
      destruct (String.eqb_spec n k) as [<-|Hne].
      * rewrite get_set_eq, getField_setField, setField_setField.
        replace (Field_eqb f f) with true by (destruct f; reflexivity).
        rewrite String.eqb_refl. cbn [orb]. unfold s0.
        destruct (Obj.get n m); reflexivity.
      * rewrite get_set_ne by congruence.
        assert (H2 : Obj.get k m1 = Obj.get k m).
        { unfold m1. destruct (Obj.get n m); [reflexivity|].
          apply get_set_ne. congruence. }
        rewrite H2.
        replace (String.eqb k n) with false
          by (symmetry; apply String.eqb_neq; congruence).
        reflexivity.
Qed.

Lemma lastCount_absent (k : string) (items : list RepoItem) :
  forall d : Z,
    existsb (String.eqb k) (itemNames items) = false ->
    lastCount k items d = d.
Proof.
  induction items as [|item rest IH]; intros d; [reflexivity|].
  cbn [itemNames map existsb]. intros H.
  apply orb_false_iff in H as [H1 H2].
  unfold lastCount. cbn [fold_left]. rewrite String.eqb_sym, H1.
  apply IH, H2.
Qed.

Lemma lastCount_present (k : string) (items : list RepoItem) :
  forall d : Z,
    existsb (String.eqb k) (itemNames items) = true ->
    lastCount k items d = lastCount k items 0.
Proof.
  induction items as [|item rest IH]; intros d; [discriminate|].
  cbn [itemNames map existsb]. intros H.
  unfold lastCount. cbn [fold_left].
  rewrite (String.eqb_sym k) in H.
  destruct (String.eqb (nameWithOwner item) k); [reflexivity|].
  cbn [orb] in H. exact (IH d H).
Qed.

Lemma lastCount_default (k : string) (items : list RepoItem) (d : Z) :
  lastCount k items d
  = if existsb (String.eqb k) (itemNames items) then lastCount k items 0
    else d.
Proof.
  destruct (existsb (String.eqb k) (itemNames items)) eqn:E.
  - apply lastCount_present, E.
  - apply lastCount_absent, E.
Qed.

Lemma fold_seen_app (l1 l2 seen : list string) :
  fold_left (fun seen x => if existsb (String.eqb x) seen then seen
                           else seen ++ [x]) (l1 ++ l2) seen
  = fold_left (fun seen x => if existsb (String.eqb x) seen then seen
                             else seen ++ [x]) l2
      (fold_left (fun seen x => if existsb (String.eqb x) seen then seen
                                else seen ++ [x]) l1 seen).
Proof. apply fold_left_app. Qed.

Lemma fold_tags (names : list string) :
  forall seen : list string,
    fold_left (fun ts n => StarsCharts.setAdd ("gh-stats/" ++ n)%string ts)
              names (map (String.append "gh-stats/") seen)
    = map (String.append "gh-stats/")
          (fold_left (fun seen x => if existsb (String.eqb x) seen then seen
                                    else seen ++ [x]) names seen).
Proof.
  induction names as [|n names IH]; intros seen; [reflexivity|].
  cbn [fold_left]. rewrite <- IH. f_equal.
  unfold StarsCharts.setAdd. rewrite existsb_tag.
  destruct (existsb (String.eqb n) seen); [reflexivity|].
  rewrite map_app. reflexivity.
Qed.

(** X20. How generateMarkdown aggregates the contributions.  The table
    has one row for each repository named in any of the four lists, in
    the order of first appearance (commits, then issues, pull requests,
    reviews), and there is one tag gh-stats/<name> for each.  Each column
    holds the count of the last item of its list for that repository, 0
    when the list has none: counts of a repository that appears twice in
    a list are not added up. *)
Theorem contributions_last_count_wins (c : ContributionsCollection) :
  let names :=
    (itemNames (commitContributionsByRepository c)
     ++ itemNames (issueContributionsByRepository c)
     ++ itemNames (pullRequestContributionsByRepository c)
     ++ itemNames (pullRequestReviewContributionsByRepository c))%list in
  Obj.keys (fst (aggregate c)) = firstOccurrences names /\
  snd (aggregate c)
  = map (String.append "gh-stats/") (firstOccurrences names) /\
  forall k : string,
    Obj.get k (fst (aggregate c)) =
    if existsb (String.eqb k) names
    then Some (mkStats
                 (lastCount k (issueContributionsByRepository c) 0)
                 (lastCount k (commitContributionsByRepository c) 0)
                 (lastCount k (pullRequestContributionsByRepository c) 0)
                 (lastCount k (pullRequestReviewContributionsByRepository c)
                    0))
    else None.
Proof.
  cbv zeta. unfold aggregate.
  destruct (processItems_spec Commits (commitContributionsByRepository c)
              Obj.empty []) as (K1 & T1 & G1).
  destruct (processItems Commits (commitContributionsByRepository c)
              Obj.empty []) as [m1 t1].
  destruct (processItems_spec Issues (issueContributionsByRepository c)
              m1 t1) as (K2 & T2 & G2).
  destruct (processItems Issues (issueContributionsByRepository c) m1 t1)
    as [m2 t2].
  destruct (processItems_spec Prs (pullRequestContributionsByRepository c)
              m2 t2) as (K3 & T3 & G3).
  destruct (processItems Prs (pullRequestContributionsByRepository c) m2 t2)
    as [m3 t3].
  destruct (processItems_spec Reviews
              (pullRequestReviewContributionsByRepository c) m3 t3)
    as (K4 & T4 & G4).
  destruct (processItems Reviews
              (pullRequestReviewContributionsByRepository c) m3 t3)
    as [m4 t4].
  cbn [fst snd] in *. unfold firstOccurrences.
  split; [|split].
  - rewrite K4, K3, K2, K1, !fold_seen_app. reflexivity.
  - rewrite T4, T3, T2, T1.
    change (@nil string) with (map (String.append "gh-stats/") []) at 1.
    rewrite !fold_tags, !fold_seen_app. reflexivity.
  - intros k. rewrite G4, G3, G2, G1. cbn [Obj.get Obj.empty].
    rewrite !existsb_app.
    rewrite (lastCount_default k (issueContributionsByRepository c)).
    rewrite (lastCount_default k (pullRequestContributionsByRepository c)).
    rewrite (lastCount_default k
               (pullRequestReviewContributionsByRepository c)).
    destruct (existsb (String.eqb k)
                (itemNames (commitContributionsByRepository c))) eqn:E1;
      destruct (existsb (String.eqb k)
                  (itemNames (issueContributionsByRepository c))) eqn:E2;
      destruct (existsb (String.eqb k)
                  (itemNames (pullRequestContributionsByRepository c)))
        eqn:E3;
      destruct (existsb (String.eqb k)
                  (itemNames (pullRequestReviewContributionsByRepository c)))
        eqn:E4;
      cbn [orb getField setField zeroStats issues commits prs reviews];
      rewrite ?E1, ?E2, ?E3, ?E4;
      cbn [orb getField setField zeroStats issues commits prs reviews];
      rewrite ?(lastCount_absent k _ 0 E1), ?(lastCount_absent k _ 0 E2),
        ?(lastCount_absent k _ 0 E3), ?(lastCount_absent k _ 0 E4);
      reflexivity.
Qed.

Lemma positive_byTotalDescending (a b : string * Stats) :
  positive (byTotalDescending a b) = (total (snd a) <? total (snd b)).
Proof.
  unfold byTotalDescending, positive.
  destruct (Z.ltb_spec 0 (total (snd b) - total (snd a)));
    destruct (Z.ltb_spec (total (snd a)) (total (snd b))); auto; lia.
Qed.

Lemma insert_byTotal_sorted (x : string * Stats) (l : list (string * Stats)) :
  StronglySorted (fun a b => total (snd b) <= total (snd a)) l ->
  StronglySorted (fun a b => total (snd b) <= total (snd a))
                 (insert byTotalDescending x l).
Proof.
  induction 1 as [|y r Hr IH Hy]; cbn [insert].
  - repeat constructor.
  - rewrite positive_byTotalDescending.
    destruct (Z.ltb_spec (total (snd x)) (total (snd y))) as [Hlt|Hge].
    + constructor; [exact IH|].
      eapply Permutation_Forall; [symmetry; apply insert_Permutation|].
      constructor; [lia|exact Hy].
    + constructor; [constructor; assumption|].
      constructor; [exact Hge|].
      eapply List.Forall_impl; [|exact Hy]. cbv beta. intros b Hb. lia.
Qed.

(** X21. The rows of the table are the repositories in descending order
    of their total (issues + commits + pull requests + reviews).  Sorting
    loses and adds no row, and repositories with the same total keep the
    order of their first appearance. *)
Theorem sortedRepos_descending_stable (repoContributions : Obj.t Stats) :
  Permutation (sortedRepos repoContributions)
              (Obj.entries repoContributions) /\
  StronglySorted (fun a b => total (snd b) <= total (snd a))
                 (sortedRepos repoContributions) /\
  forall n : Z,
    List.filter (fun e => total (snd e) =? n) (sortedRepos repoContributions)
    = List.filter (fun e => total (snd e) =? n)
                  (Obj.entries repoContributions).
Proof.
  unfold sortedRepos, Obj.entries. split; [apply sort_Permutation|]. split.
  - induction repoContributions as [|x l IH]; cbn [sort fold_right];
      [constructor|].
    apply insert_byTotal_sorted, IH.
  - intros n. induction repoContributions as [|x l IH]; [reflexivity|].
    cbn [sort fold_right]. fold (sort byTotalDescending l).
    rewrite insert_filter.
    + cbn [List.filter]. rewrite IH. reflexivity.
    + intros y Hx Hpos. rewrite positive_byTotalDescending in Hpos.
      apply Z.eqb_eq in Hx. apply Z.ltb_lt in Hpos. apply Z.eqb_neq. lia.
Qed.

End Contributions.

(* ===================================================================== *)
(** * src/go.js: the activity report                                      *)
(* ===================================================================== *)

Section Activity.
Import Time Str JSDate DateUtils JSArray Go.

Context {host : Host}.

Lemma existsb_keys_shas (k : string) (o : Obj.t (list string)) :
  existsb (String.eqb k) (Obj.keys o) =
  match Obj.get k o with Some _ => true | None => false end.
Proof.
  induction o as [|[k0 v0] o IH]; [reflexivity|].
  unfold Obj.keys in *. cbn [map fst existsb Obj.get].
  rewrite (String.eqb_sym k k0).
  destruct (String.eqb k0 k); [reflexivity|exact IH].
Qed.

Lemma keys_pushCommit (r sha : string) (m : Obj.t (list string)) :
  Obj.keys (pushCommit r sha m)
  = if existsb (String.eqb r) (Obj.keys m) then Obj.keys m
    else Obj.keys m ++ [r].
Proof.
  unfold pushCommit. rewrite existsb_keys_shas.
  destruct (Obj.get r m) eqn:E; rewrite keys_set, E; reflexivity.
Qed.

Lemma get_pushCommit (k r sha : string) (m : Obj.t (list string)) :
  Obj.get k (pushCommit r sha m)
  = if String.eqb r k
    then Some (match Obj.get r m with Some l => l | None => [] end ++ [sha])
    else Obj.get k m.
Proof.
  unfold pushCommit. destruct (String.eqb_spec r k) as [<-|Hne].
  - destruct (Obj.get r m); apply get_set_eq.
  - destruct (Obj.get r m); apply get_set_ne; congruence.
Qed.

Lemma groupPushes_spec (weekStart weekEnd : jsnum) (events : list Event) :
  forall m : Obj.t (list string),
    Obj.keys (groupPushes weekStart weekEnd events m)
    = fold_left (fun seen x => if existsb (String.eqb x) seen then seen
                               else seen ++ [x])
        (map event_repo (List.filter (selected weekStart weekEnd) events))
        (Obj.keys m) /\
    forall r : string,
      Obj.get r (groupPushes weekStart weekEnd events m) =
      match Obj.get r m, pushesOf weekStart weekEnd r events with
      | None, [] => None
      | None, shas => Some shas
      | Some l, shas => Some (l ++ shas)
      end.
Proof.
  induction events as [|e rest IH]; intros m.
  - cbn [groupPushes List.filter map fold_left pushesOf].
    split; [reflexivity|]. intros r.
    destruct (Obj.get r m); [rewrite app_nil_r|]; reflexivity.
  - cbn [groupPushes List.filter]. unfold pushesOf. cbn [List.filter].
    destruct (selected weekStart weekEnd e) eqn:Es; cbn [andb map].
    + destruct (IH (pushCommit (event_repo e) (payload_head e) m))
        as [IHk IHg].
      split.
      * rewrite IHk, keys_pushCommit. reflexivity.
      * intros r. rewrite IHg, get_pushCommit. fold (pushesOf weekStart weekEnd r rest).
        destruct (String.eqb_spec (event_repo e) r) as [<-|Hne].
        -- cbn [map]. fold (pushesOf weekStart weekEnd (event_repo e) rest).
           destruct (Obj.get (event_repo e) m) as [l|].
           ++ rewrite <- app_assoc. reflexivity.
           ++ reflexivity.
        -- reflexivity.
    + destruct (IH m) as [IHk IHg]. split; [exact IHk|].
      intros r. rewrite IHg. reflexivity.
Qed.

(** X22. Which events reach the activity report, and how they are
    grouped.  An event passes the filter exactly when it is a PushEvent
    and its date is neither before the start of the week nor at or after
    its end; an event whose created_at is not a date passes, since both
    comparisons with an Invalid Date are false.  The repositories of the
    report are those of the events that pass, each once; a repository's
    commits are the heads of its events that pass, in the order of the
    events. *)
Theorem pushes_are_grouped_by_repository (ws we : Z) (events : list Event) :
  (forall e : Event,
      selected (Num ws) (Num we) e = true <->
      event_type e = "PushEvent"%string /\
      match parse (created_at e) with
      | Num t => ws <= t < we
      | NaN => True
      end) /\
  let commitsByRepo := groupPushes (Num ws) (Num we) events Obj.empty in
  List.NoDup (Obj.keys commitsByRepo) /\
  Obj.keys commitsByRepo
  = firstOccurrences
      (map event_repo (List.filter (selected (Num ws) (Num we)) events)) /\
  forall r : string,
    Obj.get r commitsByRepo =
    match pushesOf (Num ws) (Num we) r events with
    | [] => None
    | shas => Some shas
    end.
Proof.
  split.
  - intros e. unfold selected, ge.
    destruct (String.eqb_spec (event_type e) "PushEvent") as [Et|Et];
      cbn [andb];
      [|split; [discriminate|intros [H _]; contradiction]].
    destruct (parse (created_at e)) as [|t]; cbn [lt le orb negb];
      [split; auto|].
    destruct (Z.ltb_spec t ws), (Z.leb_spec we t); cbn [orb negb];
      split; intros Hsel; try discriminate; try reflexivity;
      try (split; [assumption|lia]); destruct Hsel as [_ Hsel]; lia.
  - cbv zeta.
    destruct (groupPushes_spec (Num ws) (Num we) events Obj.empty)
      as [Hk Hg].
    split; [|split].
    + rewrite Hk. cbn [Obj.keys Obj.empty map].
      generalize (map event_repo
                    (List.filter (selected (Num ws) (Num we)) events)).
      intros l.
      assert (H : forall seen, List.NoDup seen ->
                List.NoDup
                  (fold_left (fun seen x =>
                                if existsb (String.eqb x) seen then seen
                                else seen ++ [x]) l seen)).
      { induction l as [|x l IH]; intros seen Hs; [exact Hs|].
        cbn [fold_left]. apply IH.
        exact (setAdd_NoDup x seen Hs). }
      apply H. constructor.
    + exact Hk.
    + intros r. rewrite Hg. reflexivity.
Qed.

Lemma spawned_app (st : GoState) (more : list Request) (e : list string)
  (f : list (string * string)) :
  spawned (mkGoState (requests st ++ more) e f)
  = (spawned st + length more)%nat.
Proof. unfold spawned. cbn [requests]. apply length_app. Qed.

Lemma fetchCommit_exact (env : GoEnv) (r sha : string) (st : GoState) :
  GoGithub.fetchCommit env r sha st
  = GoOk match commitReply env (spawned st) r sha with
         | CommitParsed data => data
         | _ => None
         end
         (mkGoState (requests st ++ [CommitRequest r sha])
                    (stderr st ++ lookupError env r (spawned st) sha)
                    (files st)).
Proof.
  unfold GoGithub.fetchCommit, goBind, goSpawn, lookupError.
  destruct (commitReply env (spawned st) r sha);
    unfold goError, goRet; cbn [requests stderr files]; try reflexivity.
  rewrite app_nil_r. reflexivity.
Qed.

Lemma commitLines_exact (env : GoEnv) (r : string) (shas : list string) :
  forall st : GoState,
    commitLines env r shas st
    = GoOk (numbered (reportLine env r) (spawned st) shas)
           (mkGoState (requests st ++ map (CommitRequest r) shas)
                      (stderr st
                       ++ numbered (lookupError env r) (spawned st) shas)
                      (files st)).
Proof.
  induction shas as [|sha rest IH]; intros st.
  - cbn [commitLines numbered map]. rewrite !app_nil_r.
    destruct st; reflexivity.
  - cbn [commitLines numbered map]. unfold goBind at 1.
    rewrite fetchCommit_exact. unfold goBind at 1. rewrite IH.
    rewrite spawned_app. cbn [requests stderr files length].
    replace (spawned st + 1)%nat with (S (spawned st)) by lia.
    rewrite <- !app_assoc. cbn [app].
    assert (Hline : reportLine env r (spawned st) sha
                    = match commitReply env (spawned st) r sha with
                      | CommitParsed (Some cd) =>
                          [("- [x] " ++ commit_message cd ++ " ("
                            ++ commit_date cd ++ ")")%string]
                      | _ => []
                      end) by reflexivity.
    rewrite Hline.
    destruct (commitReply env (spawned st) r sha) as [s e|m|[cd|]];
      unfold goRet; reflexivity.
Qed.

Lemma repoSections_exact (env : GoEnv) (m : Obj.t (list string))
  (repos : list string) :
  forall st : GoState,
    repoSections env m repos st
    = GoOk (reportSections env (spawned st)
              (map (fun r => (r, match Obj.get r m with
                                 | Some shas => shas
                                 | None => []
                                 end)) repos))
           (mkGoState
              (requests st
               ++ flat_map (fun p => map (CommitRequest (fst p)) (snd p))
                    (map (fun r => (r, match Obj.get r m with
                                       | Some shas => shas
                                       | None => []
                                       end)) repos))
              (stderr st
               ++ reportErrors env (spawned st)
                    (map (fun r => (r, match Obj.get r m with
                                       | Some shas => shas
                                       | None => []
                                       end)) repos))
              (files st)).
Proof.
  induction repos as [|r rest IH]; intros st.
  - cbn [repoSections map reportSections reportErrors flat_map].
    rewrite !app_nil_r. destruct st; reflexivity.
  - cbn [repoSections map reportSections reportErrors flat_map fst snd].
    unfold goBind at 1. rewrite commitLines_exact.
    unfold goBind at 1. rewrite IH. rewrite spawned_app, length_map.
    cbn [requests stderr files]. unfold goRet.
    rewrite <- !app_assoc. reflexivity.
Qed.

Lemma weekPushes_groupPushes (weekStart weekEnd : jsnum)
  (events : list Event) :
  let m := groupPushes weekStart weekEnd events Obj.empty in
  map (fun r => (r, match Obj.get r m with
                    | Some shas => shas
                    | None => []
                    end))
      (sort compareStrings (Obj.keys m))
  = weekPushes weekStart weekEnd events.
Proof.
  cbv zeta.
  destruct (groupPushes_spec weekStart weekEnd events Obj.empty) as [Hk Hg].
  unfold weekPushes. rewrite Hk. cbn [Obj.keys Obj.empty map].
  fold (firstOccurrences
          (map event_repo (List.filter (selected weekStart weekEnd) events))).
  apply map_ext. intros r. rewrite Hg. cbn [Obj.get Obj.empty].
  destruct (pushesOf weekStart weekEnd r events); reflexivity.
Qed.

Lemma generateActivityMarkdown_parsed (env : GoEnv)
  (outputPath username : string) (weekStart weekEnd : jsnum)
  (st : GoState) (events : list Event) :
  eventsReply env (spawned st) username = EventsParsed events ->
  generateActivityMarkdown env outputPath username weekStart weekEnd st
  = let st' := afterLookups env username weekStart weekEnd events st in
    match mkdirSync (spawned st') (dirname outputPath),
          writeFileSync (spawned st') outputPath with
    | Some e, _ | None, Some e => GoThrown e st'
    | None, None =>
        GoOk tt
          (mkGoState (requests st') (stderr st')
             (files st
              ++ [(outputPath,
                   activityReport env (S (spawned st)) weekStart weekEnd
                                  events)]))
    end.
Proof.
  intros Hev. unfold generateActivityMarkdown, goBind at 1.
  unfold GoGithub.fetchUserEvents, goBind at 1, goSpawn. rewrite Hev.
  unfold goRet at 1. unfold goBind. rewrite repoSections_exact.
  pose proof (weekPushes_groupPushes weekStart weekEnd events) as Hw.
  cbv zeta in Hw.
  assert (Hl : length (sort compareStrings
                         (Obj.keys (groupPushes weekStart weekEnd events
                                                Obj.empty)))
               = length (weekPushes weekStart weekEnd events))
    by (rewrite <- Hw, length_map; reflexivity).
  rewrite Hw, Hl. rewrite spawned_app. cbn [requests stderr files length].
  replace (spawned st + 1)%nat with (S (spawned st)) by lia.
  unfold goWrite, afterLookups, activityReport.
  cbn [requests stderr files]. rewrite <- !app_assoc. cbn [app].
  destruct (weekPushes weekStart weekEnd events); reflexivity.
Qed.

Lemma generateActivityMarkdown_failed (env : GoEnv)
  (outputPath username : string) (weekStart weekEnd : jsnum) (st : GoState) :
  match eventsReply env (spawned st) username with
  | EventsFailed status errorOutput =>
      generateActivityMarkdown env outputPath username weekStart weekEnd st
      = GoExited 1
          (mkGoState (requests st ++ [EventsRequest username])
             (stderr st
              ++ [("Failed to fetch events (" ++ status ++ "): "
                   ++ errorOutput)%string])
             (files st))
  | EventsGarbled output message =>
      generateActivityMarkdown env outputPath username weekStart weekEnd st
      = GoExited 1
          (mkGoState (requests st ++ [EventsRequest username])
             (stderr st
              ++ [("Failed to parse events response: " ++ message)%string;
                  ("Raw output: " ++ output)%string])
             (files st))
  | EventsParsed _ => True
  end.
Proof.
  destruct (eventsReply env (spawned st) username)
    as [status errorOutput|output message|events] eqn:Hev; [| |exact I];
    unfold generateActivityMarkdown, goBind at 1;
    unfold GoGithub.fetchUserEvents, goBind at 1, goSpawn; rewrite Hev;
    unfold goBind, goError, goExit; cbn [requests stderr files];
    rewrite <- ?app_assoc; reflexivity.
Qed.

(** Whatever happens, the requests made so far stay and the request for
    the events is the next one. *)
Lemma generateActivityMarkdown_requests (env : GoEnv)
  (outputPath username : string) (weekStart weekEnd : jsnum) (st : GoState) :
  exists more : list Request,
    requests (finalState (generateActivityMarkdown env outputPath username
                            weekStart weekEnd st))
    = requests st ++ EventsRequest username :: more.
Proof.
  pose proof (generateActivityMarkdown_failed env outputPath username
                weekStart weekEnd st) as Hfail.
  destruct (eventsReply env (spawned st) username)
    as [status errorOutput|output message|events] eqn:Hev.
  - rewrite Hfail. exists []. reflexivity.
  - rewrite Hfail. exists []. reflexivity.
  - rewrite (generateActivityMarkdown_parsed _ _ _ _ _ _ _ Hev). cbv zeta.
    eexists.
    match goal with
    | |- context [mkdirSync ?n (dirname outputPath)] =>
        destruct (mkdirSync n (dirname outputPath));
        [|destruct (writeFileSync n outputPath)]
    end;
      cbn [finalState requests afterLookups]; reflexivity.
Qed.

(** X23. generateActivityMarkdown, by the reply to its request for the
    events.  When the call fails or its output does not parse, it
    reports that and exits with code 1, nothing written.  Otherwise [gh]
    is asked for each commit once, by repository in the order of the
    sorted names and within a repository in the order of its push
    events, and then the report is written, unless mkdirSync or
    writeFileSync throws, which ends the function with that exception
    and no file.  The report has the title, then for each repository a
    heading, an empty line, one line [- [x] message (date)] for each
    commit whose lookup parses to an object, and an empty line; a commit
    whose lookup fails, does not parse or gives null has no line, and a
    failed or unparsable lookup has its line on the error stream.
    Without push events in the week the report says so. *)
Theorem activity_report_content (env : GoEnv)
  (outputPath username : string) (ws we : jsnum) (st : GoState) :
  match eventsReply env (spawned st) username with
  | EventsFailed status errorOutput =>
      generateActivityMarkdown env outputPath username ws we st
      = GoExited 1
          (mkGoState (requests st ++ [EventsRequest username])
             (stderr st
              ++ [("Failed to fetch events (" ++ status ++ "): "
                   ++ errorOutput)%string])
             (files st))
  | EventsGarbled output message =>
      generateActivityMarkdown env outputPath username ws we st
      = GoExited 1
          (mkGoState (requests st ++ [EventsRequest username])
             (stderr st
              ++ [("Failed to parse events response: " ++ message)%string;
                  ("Raw output: " ++ output)%string])
             (files st))
  | EventsParsed events =>
      let pushes := weekPushes ws we events in
      let st' :=
        mkGoState
          (requests st
           ++ EventsRequest username
              :: flat_map (fun p => map (CommitRequest (fst p)) (snd p))
                          pushes)
          (stderr st ++ reportErrors env (S (spawned st)) pushes)
          (files st) in
      let content :=
        join newline
          (["# GitHub Activity for the Week"%string; EmptyString]
           ++ reportSections env (S (spawned st)) pushes
           ++ match pushes with
              | [] => ["No push events found for this week."%string]
              | _ :: _ => []
              end) in
      generateActivityMarkdown env outputPath username ws we st
      = match mkdirSync (spawned st') (dirname outputPath),
              writeFileSync (spawned st') outputPath with
        | Some e, _ | None, Some e => GoThrown e st'
        | None, None =>
            GoOk tt
              (mkGoState (requests st') (stderr st')
                         (files st ++ [(outputPath, content)]))
        end
  end.
Proof.
  pose proof (generateActivityMarkdown_failed env outputPath username ws we st)
    as Hfail.
  destruct (eventsReply env (spawned st) username)
    as [status errorOutput|output message|events] eqn:Hev;
    [exact Hfail|exact Hfail|].
  exact (generateActivityMarkdown_parsed _ _ _ _ _ _ _ Hev).
Qed.

End Activity.

(* ===================================================================== *)
(** * src/go.js: main                                                     *)
(* ===================================================================== *)

Section GoMain.
Import Time Str JSDate DateUtils JSArray Go.

Context {host : Host}.

Variable pathJoin : list string -> string.
Variable getFullYear : Z -> Z.

Lemma timeString_midnight (n : Z) :
  timeString (n * msPerDay) = "00:00:00.000Z"%string.
Proof.
  unfold timeString.
  replace (HourFromTime (n * msPerDay)) with 0
    by (unfold HourFromTime, msPerDay, msPerHour, msPerMinute, msPerSecond;
        dlia).
  replace (MinFromTime (n * msPerDay)) with 0
    by (unfold MinFromTime, msPerDay, msPerHour, msPerMinute, msPerSecond;
        dlia).
  replace (SecFromTime (n * msPerDay)) with 0
    by (unfold SecFromTime, msPerDay, msPerHour, msPerMinute, msPerSecond;
        dlia).
  replace (msFromTime (n * msPerDay)) with 0
    by (unfold msFromTime, msPerDay, msPerHour, msPerMinute, msPerSecond;
        dlia).
  reflexivity.
Qed.

Lemma toISOString_midnight (n : Z) :
  toISOString (Num (n * msPerDay))
  = Some (midnightZ (dateString (n * msPerDay))).
Proof.
  unfold toISOString, midnightZ. rewrite timeString_midnight. reflexivity.
Qed.

Lemma runGraphQL_cases (env : GoEnv) (queryFile : string)
  (variables : ContributionsVariables) (st : GoState) :
  (exists (result : ContributionsResult) (st' : GoState),
      GoGithub.runGraphQL env queryFile variables st = GoOk result st' /\
      requests st' = requests st ++ [GraphQLRequest queryFile variables] /\
      stderr st' = stderr st /\ files st' = files st) \/
  (exists st' : GoState,
      GoGithub.runGraphQL env queryFile variables st = GoExited 1 st' /\
      requests st' = requests st ++ [GraphQLRequest queryFile variables] /\
      files st' = files st).
Proof.
  unfold GoGithub.runGraphQL, goBind, goSpawn.
  destruct (graphqlReply env (spawned st) queryFile variables)
    as [status errorOutput|output message|result];
    [right|right|];
    unfold goError, goExit, goRet; cbn [requests stderr files];
    try (eexists; split; [reflexivity|]; cbn [requests files]; auto).
  destruct (contributions_errors result) as [errs|].
  - right. eexists; split; [reflexivity|]; cbn [requests files]; auto.
  - left. eexists; eexists; split; [reflexivity|];
      cbn [requests files stderr]; auto.
Qed.


Lemma goBind_lift_returned {A B : Type} (a : A) (k : A -> GoRun B)
  (st : GoState) :
  goBind (goLift (Returned a)) k st = k a st.
Proof. reflexivity. Qed.

Lemma setUTCDate_range (tv dt : jsnum) (t : Z) :
  setUTCDate tv dt = Num t -> - maxTime <= t <= maxTime.
Proof.
  unfold setUTCDate. destruct tv as [|t0]; [discriminate|].
  destruct dt as [|d]; [discriminate|].
  intros H. apply TimeClip_range in H. tauto.
Qed.

(** The date that formatDate returns for a Date object reads back as the
    midnight of a day, whose ISO string is that date and the time
    00:00:00.000Z. *)
Lemma returned_date_midnight (tv dt : jsnum) (s : string) :
  formatDate (DateArg (setUTCDate tv dt)) = Returned s ->
  exists n : Z,
    parse (midnightZ s) = Num (n * msPerDay) /\
    toISOString (Num (n * msPerDay)) = Some (midnightZ s).
Proof.
  destruct (setUTCDate tv dt) as [|t] eqn:E.
  - cbn [formatDate toISOString]. discriminate.
  - rewrite formatDate_Date. intros [= <-].
    pose proof (setUTCDate_range _ _ _ E) as Hr.
    assert (Hd : - maxTime <= Day t * msPerDay <= maxTime).
    { pose proof (Day_TimeWithinDay t). pose proof (TimeWithinDay_bounds t).
      unfold MakeDate, Day, maxTime, msPerDay in *. dlia. }
    exists (Day t). split.
    + rewrite parse_midnightZ_dateString by (apply valid_time_year, Hr).
      apply TimeClip_in_range, Hd.
    + rewrite toISOString_midnight. do 2 f_equal.
      apply dateString_Day, Day_mul.
Qed.

Lemma getMonday_midnight (now : Z) (x : option DateInput) (s : string) :
  getMonday now x = Returned s ->
  exists n : Z,
    parse (midnightZ s) = Num (n * msPerDay) /\
    toISOString (Num (n * msPerDay)) = Some (midnightZ s).
Proof.
  unfold getMonday.
  destruct (match x with
            | Some date => if isFalsy x then formatDate (DateArg (Num now))
                           else formatDate date
            | None => formatDate (DateArg (Num now))
            end) as [p|e]; cbn [bind]; [|discriminate].
  apply returned_date_midnight.
Qed.

Lemma getNextMonday_midnight (mondayStr s : string) :
  getNextMonday mondayStr = Returned s ->
  exists n : Z,
    parse (midnightZ s) = Num (n * msPerDay) /\
    toISOString (Num (n * msPerDay)) = Some (midnightZ s).
Proof. unfold getNextMonday. apply returned_date_midnight. Qed.

(** X24. The week that main asks about.  With a well-formed date as the
    fourth argument (the third is the directory of the activity report),
    or without one and the current date, the first thing main does is
    one contributionsQuery for the user, from the midnight (UTC) of the
    Monday of that date's week to the midnight of the Monday seven days
    later, both written as ISO strings. *)
Theorem go_main_queries_one_week (env : GoEnv) (now : Z)
  (username outputDir : string) (rest : list string) (st : GoState) (t : Z) :
  WellFormedDate match nth_error rest 1 with
                 | Some s => StrArg s
                 | None => DateArg (Num now)
                 end t ->
  mondayDay (Day t) + 7 <= 100000000 ->
  exists (weekEndStr : string) (more : list Request),
    getNextMonday (weekKey t) = Returned weekEndStr /\
    parse (midnightZ (weekKey t)) = Num (mondayDay (Day t) * msPerDay) /\
    parse (midnightZ weekEndStr) = Num ((mondayDay (Day t) + 7) * msPerDay) /\
    requests
      (finalState
         (main pathJoin getFullYear env now
               (username :: outputDir :: rest) st))
    = requests st
      ++ GraphQLRequest "contributionsQuery"
           (mkContributionsVariables username (midnightZ (weekKey t))
                                     (midnightZ weekEndStr))
         :: more.
Proof.
  intros Hwf Hhi.
  assert (Hin : inWeekRange t) by (destruct Hwf; assumption).
  destruct (inWeekRange_valid _ Hin) as [Hr Hlo].
  destruct (getNextMonday_weekKey _ Hin Hhi) as [Hn Hp].
  assert (Hm : getMonday now (option_map StrArg (nth_error rest 1))
               = Returned (weekKey t)).
  { destruct (nth_error rest 1) as [s|]; cbn [option_map].
    - apply getMonday_wellFormed, Hwf.
    - change (getMonday now None)
        with (getMonday now (Some (DateArg (Num now)))).
      apply getMonday_wellFormed, Hwf. }
  assert (Hs : parse (midnightZ (weekKey t))
               = Num (mondayDay (Day t) * msPerDay)).
  { pose proof (mondayDay_lower _ Hlo) as Hml.
    pose proof (mondayDay_bounds (Day t)) as Hb.
    assert (R1 : - maxTime <= mondayDay (Day t) * msPerDay <= maxTime)
      by (unfold firstMondayDay, maxTime, msPerDay in *; lia).
    unfold weekKey.
    rewrite parse_midnightZ_dateString by (apply valid_time_year, R1).
    rewrite Day_mul. apply TimeClip_in_range, R1. }
  exists (dateString ((mondayDay (Day t) + 7) * msPerDay)).
  cbn [main]. unfold goBind at 1, goLift at 1. rewrite Hm.
  unfold goBind at 1, goLift at 1. rewrite Hn.
  unfold goBind at 1, goLift at 1. rewrite Hs, toISOString_midnight.
  unfold goBind at 1, goLift at 1. rewrite Hp, toISOString_midnight.
  fold (weekKey t).
  unfold goBind at 1.
  destruct (runGraphQL_cases env "contributionsQuery"
              (mkContributionsVariables username (midnightZ (weekKey t))
                 (midnightZ (dateString ((mondayDay (Day t) + 7)
                                         * msPerDay)))) st)
    as [(result & st1 & -> & Hq & _ & _)|(st1 & -> & Hq & _)].
  - destruct (contributions_user result) as [collection|].
    + unfold goBind at 1, generateMarkdown, goWrite.
      match goal with
      | |- context [mkdirSync ?n ?p] => destruct (mkdirSync n p)
      end;
        [cbn [finalState]; exists []; repeat (split; [reflexivity|]);
         exact Hq|].
      match goal with
      | |- context [writeFileSync ?n ?p] => destruct (writeFileSync n p)
      end;
        [cbn [finalState]; exists []; repeat (split; [reflexivity|]);
         exact Hq|].
      destruct (nth_error rest 0) as [dir|].
      * match goal with
        | |- context [generateActivityMarkdown env ?p ?u ?a ?b ?s] =>
            destruct (generateActivityMarkdown_requests env p u a b s)
              as [more Hr2]
        end.
        cbn [requests] in Hr2. eexists.
        repeat (split; [reflexivity|]).
        rewrite Hr2, Hq, <- app_assoc. reflexivity.
      * cbn [goLift finalState requests]. exists [].
        repeat (split; [reflexivity|]). exact Hq.
    + unfold goBind, goError, goExit. cbn [finalState requests].
      exists []. repeat (split; [reflexivity|]). exact Hq.
  - cbn [finalState]. exists [].
    repeat (split; [reflexivity|]). exact Hq.
Qed.

(** X25. How a run of main with at least two arguments ends.  An
    exception of getMonday for the date argument, or of getNextMonday,
    leaves main before anything is requested or written.  Otherwise
    main asks for the contributions from the midnight of that Monday to
    the midnight of the next.  It exits with code 1, one line (two when
    the output does not parse) on the error stream and no file, when
    the call fails, its output does not parse, the response carries
    errors, or it names no user.  Otherwise it writes the contribution
    report <outputDir>/<year>/<Monday>_gh.md; an exception of mkdirSync
    or writeFileSync leaves main with no file.  Then, without a third
    argument, the TypeError of path.join leaves main, the contribution
    report written.  With one, the events are requested: main exits
    with code 1, the contribution report alone written, when that call
    fails or does not parse; otherwise the commits are looked up and the
    activity report <third argument>/gh-activity.md is written as the
    second file, unless mkdirSync or writeFileSync throws. *)
Theorem go_main_outcomes (env : GoEnv) (now : Z)
  (username outputDir : string) (rest : list string) (st : GoState) :
  let run :=
    main pathJoin getFullYear env now (username :: outputDir :: rest) st in
  let dateArg := option_map StrArg (nth_error rest 1) in
  (forall e : exn, getMonday now dateArg = Threw e -> run = GoThrown e st) /\
  (forall (weekStartStr : string) (e : exn),
      getMonday now dateArg = Returned weekStartStr ->
      getNextMonday weekStartStr = Threw e -> run = GoThrown e st) /\
  (forall weekStartStr weekEndStr : string,
      getMonday now dateArg = Returned weekStartStr ->
      getNextMonday weekStartStr = Returned weekEndStr ->
      let weekStart := parse (midnightZ weekStartStr) in
      let weekEnd := parse (midnightZ weekEndStr) in
      let variables :=
        mkContributionsVariables username (midnightZ weekStartStr)
                                 (midnightZ weekEndStr) in
      let asked :=
        requests st ++ [GraphQLRequest "contributionsQuery" variables] in
      let exits (lines : list string) :=
        run = GoExited 1 (mkGoState asked (stderr st ++ lines) (files st)) in
      match graphqlReply env (spawned st) "contributionsQuery" variables with
      | QueryFailed status errorOutput =>
          exits [("GraphQL query failed (" ++ status ++ "): "
                  ++ errorOutput)%string]
      | QueryGarbled output message =>
          exits [("Failed to parse GraphQL response: " ++ message)%string;
                 ("Raw output: " ++ output)%string]
      | QueryParsed result =>
          match contributions_errors result, contributions_user result with
          | Some errs, _ => exits [("GraphQL errors: " ++ errs)%string]
          | None, None => exits ["Failed to fetch user data"%string]
          | None, Some collection =>
              let reportPath :=
                pathJoin [outputDir;
                          Stars.showZ (getFullYear (timeOf weekStart));
                          (weekStartStr ++ "_gh.md")%string] in
              match mkdirSync (S (spawned st)) (dirname reportPath),
                    writeFileSync (S (spawned st)) reportPath with
              | Some e, _ | None, Some e =>
                  run = GoThrown e (mkGoState asked (stderr st) (files st))
              | None, None =>
                  let st2 :=
                    mkGoState asked (stderr st)
                      (files st ++ [(reportPath, markdownContent collection)])
                  in
                  match nth_error rest 0 with
                  | None => run = GoThrown (Error pathTypeError) st2
                  | Some dir =>
                      let activityPath :=
                        pathJoin [dir; "gh-activity.md"%string] in
                      match eventsReply env (S (spawned st)) username with
                      | EventsFailed status errorOutput =>
                          run
                          = GoExited 1
                              (mkGoState (asked ++ [EventsRequest username])
                                 (stderr st
                                  ++ [("Failed to fetch events (" ++ status
                                       ++ "): " ++ errorOutput)%string])
                                 (files st2))
                      | EventsGarbled output message =>
                          run
                          = GoExited 1
                              (mkGoState (asked ++ [EventsRequest username])
                                 (stderr st
                                  ++ [("Failed to parse events response: "
                                       ++ message)%string;
                                      ("Raw output: " ++ output)%string])
                                 (files st2))
                      | EventsParsed events =>
                          let st3 :=
                            afterLookups env username weekStart weekEnd
                                         events st2 in
                          match mkdirSync (spawned st3)
                                  (dirname activityPath),
                                writeFileSync (spawned st3) activityPath with
                          | Some e, _ | None, Some e => run = GoThrown e st3
                          | None, None =>
                              run
                              = GoOk tt
                                  (mkGoState (requests st3) (stderr st3)
                                     (files st2
                                      ++ [(activityPath,
                                           activityReport env
                                             (S (S (spawned st)))
                                             weekStart weekEnd events)]))
                          end
                      end
                  end
              end
          end
      end).
Proof.
  cbv zeta. split; [|split].
  - intros e Hm. cbn [main]. unfold goBind at 1, goLift at 1. rewrite Hm.
    reflexivity.
  - intros ws e Hm Hn. cbn [main]. unfold goBind at 1, goLift at 1.
    rewrite Hm. unfold goBind at 1, goLift at 1. rewrite Hn. reflexivity.
  - intros ws we Hm Hn.
    destruct (getMonday_midnight _ _ _ Hm) as (n1 & Hp1 & Hi1).
    destruct (getNextMonday_midnight _ _ Hn) as (n2 & Hp2 & Hi2).
    cbn [main].
    rewrite Hm, goBind_lift_returned, Hn, goBind_lift_returned.
    rewrite Hp1, Hi1, goBind_lift_returned.
    rewrite Hp2, Hi2, goBind_lift_returned.
    unfold GoGithub.runGraphQL, goSpawn, goBind. cbv beta.
    destruct (graphqlReply env (spawned st) "contributionsQuery"
                (mkContributionsVariables username (midnightZ ws)
                                          (midnightZ we)))
      as [status errorOutput|output message|result].
    + unfold goError, goExit. cbn [requests stderr files].
      reflexivity.
    + unfold goError, goExit. cbn [requests stderr files].
      rewrite <- (app_assoc (stderr st)). reflexivity.
    + destruct (contributions_errors result) as [errs|].
      * unfold goError, goExit. cbn [requests stderr files].
        reflexivity.
      * unfold goRet.
        destruct (contributions_user result) as [collection|].
        -- unfold generateMarkdown, goWrite.
           cbn [requests stderr files].
           rewrite spawned_app. cbn [length].
           replace (spawned st + 1)%nat with (S (spawned st)) by lia.
           match goal with
           | |- context [mkdirSync ?n (dirname ?p)] =>
               destruct (mkdirSync n (dirname p)); [reflexivity|];
               destruct (writeFileSync n p); [reflexivity|]
           end.
           destruct (nth_error rest 0) as [dir|]; [|reflexivity].
           match goal with
           | |- context [generateActivityMarkdown env ?p ?u ?a ?b ?s] =>
               pose proof (generateActivityMarkdown_failed env p u a b s)
                 as Hfail;
               pose proof (generateActivityMarkdown_parsed env p u a b s)
                 as Hok
           end.
           rewrite spawned_app in Hfail, Hok. cbn [length] in Hfail, Hok.
           replace (spawned st + 1)%nat with (S (spawned st)) in Hfail, Hok
             by lia.
           cbn [requests stderr files] in Hfail.
           destruct (eventsReply env (S (spawned st)) username)
             as [status errorOutput|output message|events].
           ++ exact Hfail.
           ++ exact Hfail.
           ++ rewrite (Hok events eq_refl). cbv zeta.
              match goal with
              | |- context [mkdirSync ?n (dirname ?p)] =>
                  destruct (mkdirSync n (dirname p)); [reflexivity|];
                  destruct (writeFileSync n p); reflexivity
              end.
        -- unfold goError, goExit. cbn [requests stderr files].
           reflexivity.
Qed.

End GoMain.

Section GoScenarios.
Import Time Str JSDate DateUtils JSArray Go.

#[local] Existing Instance plainHost.

Lemma activity_report_content_witness :
  generateActivityMarkdown scenarioGoEnv "assets/gh-activity.md" "u"
    (Num 1757894400000) (Num 1758499200000) startGoState
  = GoOk tt
      (mkGoState
         [ EventsRequest "u"; CommitRequest "u/alpha" "ccc";
           CommitRequest "u/zeta" "aaa"; CommitRequest "u/zeta" "eee" ]
         [ "Failed to fetch commit ccc (1): HTTP 404"%string ]
         [ ("assets/gh-activity.md"%string, scenarioActivity) ]).
Proof.
  exact (eq_trans
           (activity_report_content scenarioGoEnv "assets/gh-activity.md"
              "u" (Num 1757894400000) (Num 1758499200000) startGoState)
           eq_refl).
Defined.

Lemma go_main_queries_one_week_witness :
  WellFormedDate match nth_error ["assets"; "2025-09-17"]%string 1 with
                 | Some s => StrArg s
                 | None => DateArg (Num 0)
                 end 1758067200000 /\
  mondayDay (Day 1758067200000) + 7 <= 100000000 /\
  exists (weekEndStr : string) (more : list Request),
    getNextMonday (weekKey 1758067200000) = Returned weekEndStr /\
    parse (midnightZ (weekKey 1758067200000))
    = Num (mondayDay (Day 1758067200000) * msPerDay) /\
    parse (midnightZ weekEndStr)
    = Num ((mondayDay (Day 1758067200000) + 7) * msPerDay) /\
    requests
      (finalState
         (main (join "/") YearFromTime scenarioGoEnv 0
               ("u" :: "out" :: ["assets"; "2025-09-17"])%string
               startGoState))
    = requests startGoState
      ++ GraphQLRequest "contributionsQuery"
           (mkContributionsVariables "u"
              (midnightZ (weekKey 1758067200000)) (midnightZ weekEndStr))
         :: more.
Proof.
  assert (Hwf : WellFormedDate
                  match nth_error ["assets"; "2025-09-17"]%string 1 with
                  | Some s => StrArg s
                  | None => DateArg (Num 0)
                  end 1758067200000).
  { cbn [nth_error]. apply wf_date_string; [simpl; tauto|reflexivity|].
    vm_compute. split; discriminate. }
  assert (Hhi : mondayDay (Day 1758067200000) + 7 <= 100000000)
    by (vm_compute; discriminate).
  split; [exact Hwf|]. split; [exact Hhi|].
  exact (go_main_queries_one_week (join "/") YearFromTime scenarioGoEnv 0
           "u" "out" ["assets"; "2025-09-17"]%string startGoState
           1758067200000 Hwf Hhi).
Defined.

(** A run of main for the week of 2025-09-17 in the scenario: three
    requests for commits after the two for the contributions and the
    events, one line on the error stream, and the two reports. *)
Lemma go_main_outcomes_witness :
  main (join "/") YearFromTime scenarioGoEnv 0
       ["u"; "out"; "assets"; "2025-09-17"]%string startGoState
  = GoOk tt
      (mkGoState
         [ GraphQLRequest "contributionsQuery"
             (mkContributionsVariables "u" "2025-09-15T00:00:00.000Z"
                                       "2025-09-22T00:00:00.000Z");
           EventsRequest "u"; CommitRequest "u/alpha" "ccc";
           CommitRequest "u/zeta" "aaa"; CommitRequest "u/zeta" "eee" ]
         [ "Failed to fetch commit ccc (1): HTTP 404"%string ]
         [ ("out/2025/2025-09-15_gh.md"%string,
            markdownContent
              (mkCollection [mkItem "u/alpha" 3] [] [] [] 0 3 0 0 0));
           ("assets/gh-activity.md"%string, scenarioActivity) ]).
Proof.
  assert (Hm : getMonday 0 (option_map StrArg
                              (nth_error ["assets"; "2025-09-17"]%string 1))
               = Returned "2025-09-15"%string) by (vm_compute; reflexivity).
  assert (Hn : getNextMonday "2025-09-15" = Returned "2025-09-22"%string)
    by (vm_compute; reflexivity).
  pose proof (proj2 (proj2 (go_main_outcomes (join "/") YearFromTime
                              scenarioGoEnv 0 "u" "out"
                              ["assets"; "2025-09-17"]%string startGoState))
                    _ _ Hm Hn) as H.
  vm_compute in H. vm_compute. exact H.
Defined.

End GoScenarios.
